(** * FastCloud: a shallow embedding of the core library, the Admin user API
      and the Gateway monitoring utilities, with the properties of the
      specification proved (or refuted) against it.

    Layout: the first half of the file holds the model, one module per
    source file, the second half the lemmas and theorems, one module of
    facts per module of the model.

    - [Datetime]    the part of Python's [datetime] the handlers rely on
    - [Config]      src/app/config.py
    - [Base]        src/core/base.py
    - [Response]    the envelopes of core/response.py (call-site contract)
    - [Logger]      the records handed to core/logger.py
    - [Exceptions]  src/core/exceptions.py
    - [HttpClient]  src/core/http_client.py
    - [Monitoring]  src/services/gateway/utils/monitoring.py
    - [Security]    the interface of core/security.py
    - [Schemas]     the request and response schemas of the user API
    - [UserApi]     src/services/admin/app/api/user.py
    - [Examples]    concrete tables, requests and environments *)

From Stdlib Require Import ZArith QArith Lia Ascii String List Bool.
From stdpp Require Import gmap strings list fin_maps pretty sorting.

Local Open Scope string_scope.
Local Open Scope Z_scope.

(* ===================================================================== *)
(** * Part I: the model                                                    *)
(* ===================================================================== *)

(** ** Python's [datetime] and [timedelta]

    Only the standard-library behaviour the repository calls is modelled:
    [datetime.now()] (an input of the handlers), [strftime] with the fixed
    pattern of [Base], [str(datetime)], [timedelta(minutes=..)],
    [timedelta.total_seconds()] and [datetime + timedelta]. *)
Module Datetime.

(** A naive [datetime] object: the seven fields CPython stores. *)
Record datetime := mk_datetime {
  year : Z; month : Z; day : Z;
  hour : Z; minute : Z; second : Z; microsecond : Z
}.

(** A [timedelta] is kept normalised by CPython: [0 <= seconds < 86400]
    and [0 <= microseconds < 1000000]; only [days] carries a sign. *)
Record timedelta := mk_timedelta {
  td_days : Z; td_seconds : Z; td_microseconds : Z
}.

(** Exceptions the standard library raises in the modelled fragment. *)
Inductive pyerror :=
  | OverflowError (msg : string).

Definition str_pyerror (e : pyerror) : string :=
  match e with OverflowError msg => msg end.

Definition MINYEAR : Z := 1.
Definition MAXYEAR : Z := 9999.
Definition MAXORDINAL : Z := 3652059.
Definition DI400Y : Z := 146097.
Definition DI100Y : Z := 36524.
Definition DI4Y : Z := 1461.

Definition is_leap (y : Z) : bool :=
  (y mod 4 =? 0) && (negb (y mod 100 =? 0) || (y mod 400 =? 0)).

(** [_DAYS_IN_MONTH], with the [-1] placeholder at index 0. *)
Definition DAYS_IN_MONTH (m : Z) : Z :=
  match m with
  | 1 => 31 | 2 => 28 | 3 => 31 | 4 => 30 | 5 => 31 | 6 => 30
  | 7 => 31 | 8 => 31 | 9 => 30 | 10 => 31 | 11 => 30 | 12 => 31
  | _ => -1
  end.

(** [_DAYS_BEFORE_MONTH]: days of a common year before the month starts. *)
Definition DAYS_BEFORE_MONTH (m : Z) : Z :=
  match m with
  | 1 => 0 | 2 => 31 | 3 => 59 | 4 => 90 | 5 => 120 | 6 => 151
  | 7 => 181 | 8 => 212 | 9 => 243 | 10 => 273 | 11 => 304 | 12 => 334
  | _ => -1
  end.

Definition days_in_month (y m : Z) : Z :=
  if (m =? 2) && is_leap y then 29 else DAYS_IN_MONTH m.

Definition days_before_year (y : Z) : Z :=
  let y' := y - 1 in y' * 365 + y' / 4 - y' / 100 + y' / 400.

Definition days_before_month (y m : Z) : Z :=
  DAYS_BEFORE_MONTH m + (if (2 <? m) && is_leap y then 1 else 0).

(** [_ymd2ord]: ordinal of a date, 0001-01-01 being day 1. *)
Definition ymd2ord (y m d : Z) : Z :=
  days_before_year y + days_before_month y m + d.

(** [_ord2ymd]: the inverse, following CPython's 400/100/4/1-year cycles. *)
Definition ord2ymd (n : Z) : Z * Z * Z :=
  let n := n - 1 in
  let n400 := n / DI400Y in
  let n := n mod DI400Y in
  let y := n400 * 400 + 1 in
  let n100 := n / DI100Y in
  let n := n mod DI100Y in
  let n4 := n / DI4Y in
  let n := n mod DI4Y in
  let n1 := n / 365 in
  let n := n mod 365 in
  let y := y + n100 * 100 + n4 * 4 + n1 in
  if (n1 =? 4) || (n100 =? 4) then (y - 1, 12, 31)
  else
    let leapyear := (n1 =? 3) && (negb (n4 =? 24) || (n100 =? 3)) in
    let m := Z.shiftr (n + 50) 5 in
    let preceding :=
      DAYS_BEFORE_MONTH m + (if (2 <? m) && leapyear then 1 else 0) in
    let '(m, preceding) :=
      if n <? preceding
      then (m - 1,
            preceding
            - (DAYS_IN_MONTH (m - 1)
               + (if (m - 1 =? 2) && leapyear then 1 else 0)))
      else (m, preceding) in
    (y, m, n - preceding + 1).

(** The last step of [ord2ymd] on its own: month and day of the [n]-th
    day (from 0) of a year, leap or not. *)
Definition month_day (leapyear : bool) (n : Z) : Z * Z :=
  let m := Z.shiftr (n + 50) 5 in
  let preceding :=
    DAYS_BEFORE_MONTH m + (if (2 <? m) && leapyear then 1 else 0) in
  let '(m, preceding) :=
    if n <? preceding
    then (m - 1,
          preceding
          - (DAYS_IN_MONTH (m - 1)
             + (if (m - 1 =? 2) && leapyear then 1 else 0)))
    else (m, preceding) in
  (m, n - preceding + 1).

(** [month_day] yields a day of the calendar, the [n]-th of the year. *)
Definition month_day_checked (leapyear : bool) (n : Z) : bool :=
  let '(m, d) := month_day leapyear n in
  (1 <=? m) && (m <=? 12) && (1 <=? d)
  && (d <=? DAYS_IN_MONTH m + (if (m =? 2) && leapyear then 1 else 0))
  && (DAYS_BEFORE_MONTH m + (if (2 <? m) && leapyear then 1 else 0) + d
      =? n + 1).

(** Class invariant of [datetime]: every field within its range. *)
Definition valid_datetime (d : datetime) : Prop :=
  MINYEAR <= year d <= MAXYEAR /\ 1 <= month d <= 12 /\
  1 <= day d <= days_in_month (year d) (month d) /\
  0 <= hour d < 24 /\ 0 <= minute d < 60 /\ 0 <= second d < 60 /\
  0 <= microsecond d < 1000000.

(** Normalising constructor of [timedelta] from a count of microseconds;
    CPython refuses a magnitude above 999999999 days. *)
Definition timedelta_of_microseconds (us : Z) : pyerror + timedelta :=
  let s := us / 1000000 in
  let d := s / 86400 in
  if (Z.abs d >? 999999999)
  then inl (OverflowError ("days=" +:+ pretty d
                           +:+ "; must have magnitude <= 999999999"))
  else inr (mk_timedelta d (s mod 86400) (us mod 1000000)).

(** [timedelta(minutes=m)] for an integer [m]. *)
Definition timedelta_minutes (m : Z) : pyerror + timedelta :=
  timedelta_of_microseconds (m * 60 * 1000000).

Definition timedelta_to_microseconds (t : timedelta) : Z :=
  (td_days t * 86400 + td_seconds t) * 1000000 + td_microseconds t.

(** [timedelta.total_seconds()]: a float in Python, a rational here. *)
Definition total_seconds (t : timedelta) : Q :=
  Qmake (timedelta_to_microseconds t) 1000000.

Definition toordinal (d : datetime) : Z := ymd2ord (year d) (month d) (day d).

(** Microseconds since the start of day 0 of the proleptic calendar: the
    linear time line on which [datetime.__add__] does its arithmetic. *)
Definition datetime_to_microseconds (d : datetime) : Z :=
  ((toordinal d * 86400 + hour d * 3600 + minute d * 60 + second d) * 1000000)
  + microsecond d.

(** [datetime.__add__(self, other)] for a [timedelta]. *)
Definition datetime_add (d : datetime) (t : timedelta) : pyerror + datetime :=
  let us := datetime_to_microseconds d + timedelta_to_microseconds t in
  let s := us / 1000000 in
  let days := s / 86400 in
  let secs := s mod 86400 in
  if (0 <? days) && (days <=? MAXORDINAL) then
    let '(y, m, dd) := ord2ymd days in
    inr (mk_datetime y m dd (secs / 3600) (secs mod 3600 / 60)
                     (secs mod 3600 mod 60) (us mod 1000000))
  else inl (OverflowError "date value out of range").

(** *** Formatting *)

Definition digit_char (d : Z) : ascii := ascii_of_N (48 + Z.to_N d).

Definition is_digit (c : ascii) : bool :=
  (48 <=? N_of_ascii c)%N && (N_of_ascii c <=? 57)%N.

(** The [w] low-order decimal digits of [n] in front of [acc]: what
    ["%0wd"] prints when [0 <= n < 10^w], which the class invariant of
    [datetime] grants for each field it is used on. *)
Fixpoint zero_padded (w : nat) (n : Z) (acc : string) : string :=
  match w with
  | O => acc
  | S w' => zero_padded w' (n / 10) (String (digit_char (n mod 10)) acc)
  end.

Definition format_date (d : datetime) : string :=
  zero_padded 4 (year d) ("-" +:+ zero_padded 2 (month d)
                            ("-" +:+ zero_padded 2 (day d) EmptyString)).

Definition format_time (d : datetime) : string :=
  zero_padded 2 (hour d) (":" +:+ zero_padded 2 (minute d)
                            (":" +:+ zero_padded 2 (second d) EmptyString)).

(** [d.strftime("%Y-%m-%d %H:%M:%S")]. *)
Definition strftime_Ymd_HMS (d : datetime) : string :=
  format_date d +:+ " " +:+ format_time d.

(** [str(d)], that is [d.isoformat(sep=' ')]: the fraction is printed
    exactly when the microsecond field is not zero. *)
Definition str_datetime (d : datetime) : string :=
  format_date d +:+ " " +:+ format_time d +:+
  (if microsecond d =? 0 then EmptyString
   else "." +:+ zero_padded 6 (microsecond d) EmptyString).

(** Does [s] match the picture [pat], where ['d'] stands for one decimal
    digit and every other character for itself? *)
Fixpoint matches_picture (pat s : string) : bool :=
  match pat, s with
  | EmptyString, EmptyString => true
  | String p pat', String c s' =>
      (if Ascii.eqb p "d" then is_digit c else Ascii.eqb p c)
      && matches_picture pat' s'
  | _, _ => false
  end.

(** The timestamp format of the data model: [YYYY-MM-DD HH:MM:SS]. *)
Definition is_timestamp (s : string) : bool :=
  matches_picture "dddd-dd-dd dd:dd:dd" s.

End Datetime.

(** ** src/app/config.py *)
Module Config.

(** The [Settings] class; [BASE_DIR] is a path, kept as a string. *)
Record Settings := mk_Settings {
  BASE_DIR : string;
  DEBUG : bool;
  SQLITE_DB_NAME : string;
  SECRET_KEY : string;
  ALGORITHM : string;
  ACCESS_TOKEN_EXPIRE_MINUTES : Z;
  TOKEN_TYPE : string;
  SERVICE_NAME : string;
  API_VERSION : string;
  API_V1_STR : string;
  SERVICE_PORT : Z;
  CONSUL_HOST : string;
  CONSUL_PORT : Z
}.

(** The declared defaults, for a given application root. *)
Definition default_settings (base_dir : string) : Settings :=
  {| BASE_DIR := base_dir;
     DEBUG := false;
     SQLITE_DB_NAME := "app.db";
     SECRET_KEY := "your-secret-key-change-in-production";
     ALGORITHM := "HS256";
     ACCESS_TOKEN_EXPIRE_MINUTES := 30;
     TOKEN_TYPE := "bearer";
     SERVICE_NAME := "fastapi-service";
     API_VERSION := "1.0.0";
     API_V1_STR := "/api/v1";
     SERVICE_PORT := 8000;
     CONSUL_HOST := "localhost";
     CONSUL_PORT := 8500 |}.

(** The [DATABASE_URL] property. *)
Definition DATABASE_URL (s : Settings) : string :=
  "sqlite:///" +:+ BASE_DIR s +:+ "/" +:+ SQLITE_DB_NAME s
  +:+ "?characterEncoding=UTF-8".

End Config.

(** ** src/core/base.py *)
Module Base.

(** [User(Base)]: the three [Base] columns followed by the user's own. *)
Record User := mk_User {
  id : option Z;
  created_time : string;
  updated_time : string;
  name : string;
  username : string;
  password : string;
  status : bool;
  description : option string;
  is_superuser : bool
}.

Record JWTPayloadSchema := mk_JWTPayloadSchema {
  sub : string;
  exp : Datetime.datetime;
  iat : option Datetime.datetime;
  nbf : option Datetime.datetime;
  jti : option string
}.

Record JWTOutSchema := mk_JWTOutSchema {
  access_token : string;
  token_type : string;
  expires_in : Q
}.

(** The [default_factory] of [created_time] and of [updated_time], applied
    to the reading of the clock it makes. *)
Definition default_time (now : Datetime.datetime) : string :=
  Datetime.strftime_Ymd_HMS now.

End Base.

(** ** core/response.py

    The module is not among the sources; the handlers only construct its
    three envelopes, so an envelope is modelled as the constructor call
    itself, an omitted keyword argument being [None]. *)
Module Response.

(** What [model_dump()] and the [data=] arguments carry. *)
#[warnings="-register-all"]
Inductive json :=
  | JNull
  | JBool (b : bool)
  | JInt (z : Z)
  | JNumber (q : Q)
  | JString (s : string)
  | JObject (fields : list (string * json)).

Inductive Response :=
  | SuccessResponse (data : json)
  | ErrorResponse (message : string) (status_code : option Z)
                  (data : option json)
  | ExceptResponse (message : string) (status_code : option Z).

(** Modelled from the spec: the HTTP status of an envelope, which
    core/response.py (absent) computes: 200 for Success, the given status
    or else 400 for Error, the given status or else 500 for Except. *)
Definition http_status (r : Response) : Z :=
  match r with
  | SuccessResponse _ => 200
  | ErrorResponse _ sc _ => default 400 sc
  | ExceptResponse _ sc => default 500 sc
  end.

(** Modelled from the spec: the [message] field of an envelope's body;
    [None] for Success, whose text the spec does not fix. *)
Definition body_message (r : Response) : option string :=
  match r with
  | SuccessResponse _ => None
  | ErrorResponse m _ _ => Some m
  | ExceptResponse m _ => Some m
  end.

Definition json_get (k : string) (j : json) : option json :=
  match j with
  | JObject fs => snd <$> List.find (fun kv => String.eqb (fst kv) k) fs
  | _ => None
  end.

End Response.

(** ** The logger of core/logger.py, as the list of records it is handed *)
Module Logger.

Inductive level := INFO | WARNING | ERROR.

Record record := mk_record {
  lvl : level;
  msg : string;
  exc_info : bool
}.

Definition info (m : string) : record := mk_record INFO m false.
Definition warning (m : string) : record := mk_record WARNING m false.
Definition error (m : string) : record := mk_record ERROR m false.

End Logger.

(** ** src/core/exceptions.py *)
Module Exceptions.
Import Response.

Record AppException := mk_AppException {
  message : string;
  status_code : Z;
  error_code : option string;
  details : list (string * json)
}.

(** [AppException.__init__] with its defaults. *)
Definition new_AppException (message : option string) (status_code : option Z)
    (error_code : option string) (details : option (list (string * json)))
  : AppException :=
  mk_AppException (default "应用程序异常" message) (default 500 status_code)
                  error_code (default [] details).

Definition ValidationError (message : option string)
    (details : option (list (string * json))) : AppException :=
  new_AppException (Some (default "数据验证失败" message)) (Some 400)
                   (Some "VALIDATION_ERROR") details.

Definition AuthenticationError (message : option string) : AppException :=
  new_AppException (Some (default "身份验证失败" message)) (Some 401)
                   (Some "AUTHENTICATION_ERROR") None.

Definition AuthorizationError (message : option string) : AppException :=
  new_AppException (Some (default "权限不足" message)) (Some 403)
                   (Some "AUTHORIZATION_ERROR") None.

Definition NotFoundError (message : option string) : AppException :=
  new_AppException (Some (default "资源未找到" message)) (Some 404)
                   (Some "NOT_FOUND_ERROR") None.

(** An HTTP exception of Starlette, or of FastAPI (its subclass, which
    adds [headers]); [detail] is kept as its [str()]. *)
Record HTTPException := mk_HTTPException {
  http_status_code : Z;
  detail : string;
  headers : option (list (string * string))
}.

(** Any other exception: its class name and [str(exc)]. *)
Record PyException := mk_PyException {
  exc_type : string;
  exc_str : string
}.

(** What can reach the handlers installed by
    [register_exception_handlers]. *)
Inductive raised :=
  | RaisedApp (e : AppException)
  | RaisedHTTP (e : HTTPException)
  | RaisedStarletteHTTP (e : HTTPException)
  | RaisedOther (e : PyException).

(** A handler returns the response and hands records to the logger. *)
Definition handled : Type := Response * list Logger.record.

Definition app_exception_handler (exc : AppException) : handled :=
  (ErrorResponse (message exc) (Some (status_code exc))
                 (Some (JObject (details exc))),
   [Logger.error ("应用程序异常: " +:+ message exc)]).

Definition http_exception_handler (exc : HTTPException) : handled :=
  (ErrorResponse (detail exc) (Some (http_status_code exc)) None,
   [Logger.warning ("HTTP异常: " +:+ detail exc)]).

Definition starlette_http_exception_handler (exc : HTTPException) : handled :=
  (ErrorResponse (detail exc) (Some (http_status_code exc)) None,
   [Logger.warning ("Starlette HTTP异常: " +:+ detail exc)]).

Definition general_exception_handler (exc : PyException) : handled :=
  (ExceptResponse "服务器内部错误" (Some 500),
   [Logger.mk_record Logger.ERROR ("未处理的异常: " +:+ exc_str exc) true]).

(** The lookup the framework does by exception class, most specific
    first. *)
Definition handle (exc : raised) : handled :=
  match exc with
  | RaisedApp e => app_exception_handler e
  | RaisedHTTP e => http_exception_handler e
  | RaisedStarletteHTTP e => starlette_http_exception_handler e
  | RaisedOther e => general_exception_handler e
  end.

End Exceptions.

(** ** src/core/http_client.py *)
Module HttpClient.

(** The part of an [httpx.Response] the client looks at, and its body. *)
Record HttpResponse := mk_HttpResponse {
  status_code : Z;
  content : string
}.

(** [httpx.RequestError]: a transport-level failure. *)
Record RequestError := mk_RequestError {
  error_text : string
}.

(** What one [self.client.request(method, url, **kwargs)] does. *)
Inductive reply :=
  | Responds (response : HttpResponse)
  | Fails (e : RequestError).

(** What [_request_with_retry] does in the end. *)
Inductive result :=
  | Return (response : HttpResponse)
  | RaiseRequestError (e : RequestError)
  | RaiseRuntimeError (msg : string).

(** What it does on the way, in order. *)
Inductive event :=
  | Request (method url : string)
  | Sleep (seconds : Q)
  | Log (r : Logger.record).

(** [range(n)]. *)
Definition range (n : Z) : list Z := Z.of_nat <$> seq 0 (Z.to_nat n).

(** [0.1 * (2 ** attempt)], in seconds, as the number the expression
    is written for. Python computes it in doubles: the delay slept is
    the double nearest to this number (so the delays of a call are to be
    read one by one, not added up here), and from attempt 1024 on, which
    a call reaches only after more than [2 ^ 1023 / 10] seconds asleep,
    the conversion of [2 ** attempt] to a double raises. *)
Definition backoff (attempt : Z) : Q := (1 # 10) * inject_Z (2 ^ attempt).

Definition is_sleep (e : event) : option Q :=
  match e with Sleep s => Some s | _ => None end.

Definition is_request (e : event) : bool :=
  match e with Request _ _ => true | _ => false end.

(** The delays slept, in order, and the number of requests sent. *)
Definition sleeps (tr : list event) : list Q := omap is_sleep tr.
Definition requests (tr : list event) : nat :=
  length (List.filter is_request tr).

Section Client.

(** [self.retries], and the arguments of the call. *)
Variable retries : Z.
Variables method url : string.

(** The network: the reply to the request sent after [n] earlier ones. *)
Variable network : nat -> reply.

(** The [for attempt in range(self.retries + 1)] loop, from the given
    remaining attempts on; [sent] counts the requests already made and
    [last_exception] is the variable of that name. The code after the
    loop is the [[]] case. *)
Fixpoint retry_loop (attempts : list Z) (sent : nat)
    (last_exception : option RequestError) : result * list event :=
  match attempts with
  | [] =>
      match last_exception with
      | Some e => (RaiseRequestError e, [])
      | None => (RaiseRuntimeError "请求失败且未捕获到具体异常", [])
      end
  | attempt :: rest =>
      match network sent with
      | Responds response =>
          if (status_code response >=? 500) && (attempt <? retries) then
            let '(r, tr) := retry_loop rest (S sent) last_exception in
            (r, Request method url
                :: Log (Logger.warning
                          ("服务返回5xx错误，第" +:+ pretty (attempt + 1)
                           +:+ "次重试: " +:+ url))
                :: Sleep (backoff attempt) :: tr)
          else (Return response, [Request method url])
      | Fails e =>
          if attempt <? retries then
            let '(r, tr) := retry_loop rest (S sent) (Some e) in
            (r, Request method url
                :: Log (Logger.warning
                          ("请求失败，第" +:+ pretty (attempt + 1)
                           +:+ "次重试: " +:+ url +:+ ", 错误: "
                           +:+ error_text e))
                :: Sleep (backoff attempt) :: tr)
          else
            (RaiseRequestError e,
             [Request method url;
              Log (Logger.error ("请求最终失败: " +:+ url +:+ ", 错误: "
                                 +:+ error_text e))])
      end
  end.

Definition request_with_retry : result * list event :=
  retry_loop (range (retries + 1)) 0 None.

End Client.

(** A reply that makes the client try again while attempts remain. *)
Definition retryable (r : reply) : bool :=
  match r with
  | Responds response => status_code response >=? 500
  | Fails _ => true
  end.

(** The end of a call whose last attempt got reply [r]. *)
Definition final (r : reply) : result :=
  match r with
  | Responds response => Return response
  | Fails e => RaiseRequestError e
  end.

End HttpClient.

(** ** src/services/gateway/utils/monitoring.py

    Contexts are Python objects: the manager's table and the callers hold
    references to them. The model keeps the objects in a store indexed by
    reference, so that a context that left the table still exists for
    whoever holds it. *)
Module Monitoring.
Import Response.

Record MonitoringContext := mk_MonitoringContext {
  trace_id : string;
  span_id : string;
  start_time : Q;
  end_time : option Q;
  duration : option Q;
  tags : gmap string json;
  logs : list (gmap string json)
}.

(** The info line of [end_trace], kept as the three values it renders. *)
Record summary := mk_summary {
  summary_trace_id : string;
  summary_duration : option Q;
  summary_tags : gmap string json
}.

(** The process as far as the module sees it: the context objects, the
    manager's [active_traces], what the logger received, and how many
    times [uuid.uuid4()] and [time.time()] were called. *)
Record state := mk_state {
  objects : gmap nat MonitoringContext;
  active_traces : gmap string nat;
  logged : list summary;
  uuids_drawn : nat;
  clock_reads : nat
}.

(** [MonitoringManager.__init__] in a fresh process. *)
Definition init : state := mk_state ∅ ∅ [] 0 0.

(** Execution in the module: a state transformer with a result. *)
Definition M (A : Type) : Type := state -> A * state.

Definition ret {A} (a : A) : M A := fun s => (a, s).
Definition bind {A B} (m : M A) (k : A -> M B) : M B :=
  fun s => let '(a, s') := m s in k a s'.

Declare Scope monitoring_scope.
Delimit Scope monitoring_scope with mon.
Notation "'let*' x := m 'in' k" := (bind m (fun x => k))
  (at level 10, x name, m at level 100, k at level 200, only parsing)
  : monitoring_scope.

Section Process.

(** [str(uuid.uuid4())]: the value of the [n]-th call. *)
Variable uuid4 : nat -> string.
(** [time.time()]: the value of the [n]-th call. *)
Variable time : nat -> Q.

Definition draw_uuid : M string := fun s =>
  (uuid4 (uuids_drawn s),
   mk_state (objects s) (active_traces s) (logged s)
            (S (uuids_drawn s)) (clock_reads s)).

Definition read_clock : M Q := fun s =>
  (time (clock_reads s),
   mk_state (objects s) (active_traces s) (logged s)
            (uuids_drawn s) (S (clock_reads s))).

(** Allocation of a new object. *)
Definition alloc (c : MonitoringContext) : M nat := fun s =>
  let l := fresh (dom (objects s)) in
  (l, mk_state (<[l := c]> (objects s)) (active_traces s) (logged s)
               (uuids_drawn s) (clock_reads s)).

Definition load (l : nat) : M (option MonitoringContext) := fun s =>
  (objects s !! l, s).

Definition store (l : nat) (c : MonitoringContext) : M unit := fun s =>
  (tt, mk_state (<[l := c]> (objects s)) (active_traces s) (logged s)
                (uuids_drawn s) (clock_reads s)).

Definition set_active (t : gmap string nat) : M unit := fun s =>
  (tt, mk_state (objects s) t (logged s) (uuids_drawn s) (clock_reads s)).

Definition get_active : M (gmap string nat) := fun s => (active_traces s, s).

Definition logger_info (l : summary) : M unit := fun s =>
  (tt, mk_state (objects s) (active_traces s) (logged s ++ [l])
                (uuids_drawn s) (clock_reads s)).

(** Python's truth value of an optional string: [None] and the empty
    string are false. *)
Definition truthy (o : option string) : option string :=
  match o with
  | Some EmptyString => None
  | other => other
  end.

Local Open Scope monitoring_scope.

(** [x or str(uuid.uuid4())]: the generator is called only when needed. *)
Definition or_uuid (o : option string) : M string :=
  match truthy o with
  | Some s => ret s
  | None => draw_uuid
  end.

(** [MonitoringContext.__init__]. *)
Definition new_context (trace_id : option string) : M nat :=
  let* tid := or_uuid trace_id in
  let* sid := draw_uuid in
  let* now := read_clock in
  alloc (mk_MonitoringContext tid sid now None None ∅ []).

(** [MonitoringContext.set_tag]. *)
Definition set_tag (self : nat) (key : string) (value : json) : M unit :=
  let* o := load self in
  match o with
  | Some c =>
      store self (mk_MonitoringContext (trace_id c) (span_id c) (start_time c)
                    (end_time c) (duration c) (<[key := value]> (tags c))
                    (logs c))
  | None => ret tt
  end.

(** [MonitoringContext.log]: the keyword arguments are merged last. *)
Definition log (self : nat) (message : string) (kwargs : gmap string json)
  : M unit :=
  let* now := read_clock in
  let* o := load self in
  match o with
  | Some c =>
      let log_entry :=
        kwargs ∪ <["message" := JString message]>
                   (<["timestamp" := JNumber now]> ∅) in
      store self (mk_MonitoringContext (trace_id c) (span_id c) (start_time c)
                    (end_time c) (duration c) (tags c)
                    (logs c ++ [log_entry]))
  | None => ret tt
  end.

(** [MonitoringContext.finish]. *)
Definition finish (self : nat) : M unit :=
  let* now := read_clock in
  let* o := load self in
  match o with
  | Some c =>
      store self (mk_MonitoringContext (trace_id c) (span_id c) (start_time c)
                    (Some now) (Some (now - start_time c)%Q) (tags c) (logs c))
  | None => ret tt
  end.

(** [MonitoringManager.start_trace]. *)
Definition start_trace (trace_id' : option string) : M nat :=
  let* context := new_context trace_id' in
  let* o := load context in
  match o with
  | Some c =>
      let* t := get_active in
      let* _ := set_active (<[trace_id c := context]> t) in
      ret context
  | None => ret context
  end.

(** [MonitoringManager.end_trace]. *)
Definition end_trace (context : nat) : M unit :=
  let* _ := finish context in
  let* o := load context in
  match o with
  | Some c =>
      let* t := get_active in
      let* _ := (if bool_decide (is_Some (t !! trace_id c))
            then set_active (delete (trace_id c) t)
            else ret tt) in
      logger_info (mk_summary (trace_id c) (duration c) (tags c))
  | None => ret tt
  end.

(** [MonitoringManager.trace_request]; of the request it reads the
    [X-Trace-ID] and [host] headers, the method and the URL. *)
Definition trace_request (x_trace_id host : option string)
    (method url : string) : M nat :=
  let* trace_id' := or_uuid x_trace_id in
  let* context := start_trace (Some trace_id') in
  let* _ := set_tag context "http.method" (JString method) in
  let* _ := set_tag context "http.url" (JString url) in
  let* _ := set_tag context "http.host"
              (JString (default EmptyString host)) in
  let* _ := log context "请求开始" ∅ in
  ret context.

(** One call on the module, by anyone holding the manager and possibly
    the reference of a context that exists. *)
Inductive step : state -> state -> Prop :=
  | step_start_trace trace_id' s :
      step s (start_trace trace_id' s).2
  | step_end_trace context s :
      is_Some (objects s !! context) -> step s (end_trace context s).2
  | step_trace_request x_trace_id host method url s :
      step s (trace_request x_trace_id host method url s).2
  | step_set_tag context key value s :
      is_Some (objects s !! context) -> step s (set_tag context key value s).2
  | step_log context message kwargs s :
      is_Some (objects s !! context) -> step s (log context message kwargs s).2.

(** The states a process can be in. *)
Inductive reachable : state -> Prop :=
  | reachable_init : reachable init
  | reachable_step s s' : reachable s -> step s s' -> reachable s'.

End Process.

(** The table refers to existing objects, each filed under its own,
    non-empty, trace id. *)
Definition table_ok (s : state) : Prop :=
  forall k l, active_traces s !! k = Some l ->
    k <> EmptyString /\
    exists c, objects s !! l = Some c /\ trace_id c = k.

End Monitoring.

(** ** core/security.py

    The module is not among the sources. The handlers use three of its
    functions, taken here as an interface. *)
Module Security.

Class Security := {
  set_password_hash : string -> string;
  verify_password : string -> string -> bool;
  create_access_token : Base.JWTPayloadSchema -> string
}.

End Security.

(** ** services/admin/app/schemas/user.py *)
Module Schemas.
Import Response.

Inductive field := FName | FUsername | FPassword | FStatus | FDescription.

#[global] Instance field_eq_dec : EqDecision field.
Proof. solve_decision. Defined.

(** Modelled from the spec: [UserInSchema], whose source is absent: name,
    username, password and the optional status and description. As every
    pydantic object, it also records in [model_fields_set] which fields
    the request body supplied. *)
Record UserInSchema := mk_UserInSchema {
  name : string;
  username : string;
  password : string;
  status : bool;
  description : option string;
  model_fields_set : list field
}.

Definition set_password (data : UserInSchema) (p : string) : UserInSchema :=
  mk_UserInSchema (name data) (username data) p (status data)
                  (description data) (model_fields_set data).

(** One entry of the dictionary [model_dump] returns. *)
Inductive entry :=
  | EName (v : string)
  | EUsername (v : string)
  | EPassword (v : string)
  | EStatus (v : bool)
  | EDescription (v : option string).

Definition entry_of (data : UserInSchema) (f : field) : entry :=
  match f with
  | FName => EName (name data)
  | FUsername => EUsername (username data)
  | FPassword => EPassword (password data)
  | FStatus => EStatus (status data)
  | FDescription => EDescription (description data)
  end.

(** [data.model_dump(exclude_unset=True)]: the supplied fields, in the
    order of declaration. *)
Definition model_dump_exclude_unset (data : UserInSchema) : list entry :=
  entry_of data <$>
    filter (fun f => f ∈ model_fields_set data)
           [FName; FUsername; FPassword; FStatus; FDescription].

Definition json_of_option_string (o : option string) : json :=
  match o with Some s => JString s | None => JNull end.

Definition json_of_option_Z (o : option Z) : json :=
  match o with Some z => JInt z | None => JNull end.

(** Modelled from the spec: [UserOutSchema.model_validate(u).model_dump()],
    whose source is absent: every field of the entity except the
    password. *)
Definition UserOutSchema_dump (u : Base.User) : json :=
  JObject [("id", json_of_option_Z (Base.id u));
           ("created_time", JString (Base.created_time u));
           ("updated_time", JString (Base.updated_time u));
           ("name", JString (Base.name u));
           ("username", JString (Base.username u));
           ("status", JBool (Base.status u));
           ("description", json_of_option_string (Base.description u));
           ("is_superuser", JBool (Base.is_superuser u))].

(** [JWTOutSchema.model_dump()]. *)
Definition JWTOutSchema_dump (t : Base.JWTOutSchema) : json :=
  JObject [("access_token", JString (Base.access_token t));
           ("token_type", JString (Base.token_type t));
           ("expires_in", JNumber (Base.expires_in t))].

End Schemas.

(** ** src/services/admin/app/api/user.py *)
Module UserApi.
Import Response Base Security.

(** The user table seen through a session: rows by primary key. *)
Abbreviation table := (gmap Z User).

(** The request as far as [login] reads it: its headers, by lower-case
    name. *)
Record Request := mk_Request {
  headers : gmap string string
}.

Record OAuth2PasswordRequestForm := mk_OAuth2PasswordRequestForm {
  form_username : string;
  form_password : string
}.

(** How a handler ends: it returns an envelope, returns a bare
    dictionary, or raises the Except envelope. *)
Inductive outcome :=
  | Returns (r : Response)
  | ReturnsDict (d : json)
  | Raises (r : Response).

(** What a handler does besides: records handed to the logger, and calls
    of [create_access_token]. *)
Inductive effect :=
  | Logged (r : Logger.record)
  | IssuedToken (payload : JWTPayloadSchema).

(** [needle in hay]. *)
Fixpoint contains (needle hay : string) : bool :=
  String.prefix needle hay ||
  match hay with
  | EmptyString => false
  | String _ hay' => contains needle hay'
  end.

(** Of the given rows, the one with the least primary key. *)
Fixpoint least_id (rows : list (Z * User)) : option (Z * User) :=
  match rows with
  | [] => None
  | r :: rs =>
      match least_id rs with
      | None => Some r
      | Some r' => if r.1 <=? r'.1 then Some r else Some r'
      end
  end.

(** [db.exec(select(User).where(User.username == x)).first()]: rows come
    back in primary-key order. *)
Definition first_by_username (x : string) (db : table) : option User :=
  snd <$> least_id (filter (fun r => username r.2 = x) (map_to_list db)).

(** The primary key the database gives the next inserted row: one more
    than the largest in use, 1 in an empty table. *)
Definition next_id (db : table) : Z :=
  match map_to_list db with
  | [] => 1
  | r :: rs => 1 + foldr Z.max r.1 (fst <$> rs)
  end.

Definition setattr (u : User) (e : Schemas.entry) : User :=
  match e with
  | Schemas.EName v =>
      mk_User (id u) (created_time u) (updated_time u) v (username u)
              (password u) (status u) (description u) (is_superuser u)
  | Schemas.EUsername v =>
      mk_User (id u) (created_time u) (updated_time u) (name u) v
              (password u) (status u) (description u) (is_superuser u)
  | Schemas.EPassword v =>
      mk_User (id u) (created_time u) (updated_time u) (name u) (username u)
              v (status u) (description u) (is_superuser u)
  | Schemas.EStatus v =>
      mk_User (id u) (created_time u) (updated_time u) (name u) (username u)
              (password u) v (description u) (is_superuser u)
  | Schemas.EDescription v =>
      mk_User (id u) (created_time u) (updated_time u) (name u) (username u)
              (password u) (status u) v (is_superuser u)
  end.

(** [obj.sqlmodel_update(d)]: one [setattr] per entry. *)
Definition sqlmodel_update (u : User) (d : list Schemas.entry) : User :=
  foldl setattr u d.

Definition set_updated_time (u : User) (t : string) : User :=
  mk_User (id u) (created_time u) t (name u) (username u)
          (password u) (status u) (description u) (is_superuser u).

Definition set_id (u : User) (k : Z) : User :=
  mk_User (Some k) (created_time u) (updated_time u) (name u) (username u)
          (password u) (status u) (description u) (is_superuser u).

(** [User.model_validate(data)]: the fields of [data], the defaults of
    the entity for the others; the two time stamps come from two readings
    of the clock. *)
Definition model_validate (data : Schemas.UserInSchema)
    (now_created now_updated : Datetime.datetime) : User :=
  mk_User None (default_time now_created) (default_time now_updated)
          (Schemas.name data) (Schemas.username data) (Schemas.password data)
          (Schemas.status data) (Schemas.description data) false.

Section Handlers.

Context `{Security}.
(** [app.config.settings]. *)
Variable settings : Config.Settings.

(** The [except Exception as e] clause every handler ends with. *)
Definition system_error (e : Datetime.pyerror) : outcome * list effect :=
  let m := "系统异常: " +:+ Datetime.str_pyerror e in
  (Raises (ExceptResponse m None), [Logged (Logger.error m)]).

(** [POST /login]; [now] is what [datetime.now()] returns. *)
Definition login (request : Request) (login_form : OAuth2PasswordRequestForm)
    (now : Datetime.datetime) (db : table) : outcome * list effect :=
  match first_by_username (form_username login_form) db with
  | None =>
      (Returns (ErrorResponse "用户不存在" None None),
       [Logged (Logger.warning
                  ("用户" +:+ form_username login_form +:+ "不存在"))])
  | Some existing_obj =>
      if negb (status existing_obj) then
        (Returns (ErrorResponse "用户已禁用" None None),
         [Logged (Logger.warning
                    ("用户" +:+ form_username login_form +:+ "已禁用"))])
      else if negb (verify_password (form_password login_form)
                                    (password existing_obj)) then
        (Returns (ErrorResponse "密码错误" None None),
         [Logged (Logger.warning
                    ("用户 " +:+ form_username login_form +:+ " 密码错误"))])
      else
        match Datetime.timedelta_minutes
                (Config.ACCESS_TOKEN_EXPIRE_MINUTES settings) with
        | inl e => system_error e
        | inr access_expires =>
            match Datetime.datetime_add now access_expires with
            | inl e => system_error e
            | inr expiry =>
                let payload :=
                  mk_JWTPayloadSchema (username existing_obj) expiry
                                      None None None in
                let access_token := create_access_token payload in
                let login_token :=
                  mk_JWTOutSchema access_token (Config.TOKEN_TYPE settings)
                    (Datetime.total_seconds access_expires) in
                let effects :=
                  [IssuedToken payload;
                   Logged (Logger.info
                             ("用户" +:+ username existing_obj
                              +:+ "登录成功"))] in
                if contains "docs"
                     (default EmptyString (headers request !! "referer"))
                then (ReturnsDict (Schemas.JWTOutSchema_dump login_token),
                      effects)
                else (Returns (SuccessResponse
                                 (Schemas.JWTOutSchema_dump login_token)),
                      effects)
            end
        end
  end.

(** [POST /user]; the two dates are the readings of the clock made by
    the default factories of [created_time] and [updated_time]. *)
Definition create (data : Schemas.UserInSchema)
    (now_created now_updated : Datetime.datetime) (db : table)
  : outcome * table * list effect :=
  match first_by_username (Schemas.username data) db with
  | Some _ =>
      (Returns (ErrorResponse
                  ("账号 " +:+ Schemas.username data +:+ " 已存在") None None),
       db,
       [Logged (Logger.warning
                  ("创建用户失败：账号 " +:+ Schemas.username data
                   +:+ " 已存在"))])
  | None =>
      let data :=
        Schemas.set_password data
          (set_password_hash (Schemas.password data)) in
      let obj_db := model_validate data now_created now_updated in
      let obj_db := set_id obj_db (next_id db) in
      (Returns (SuccessResponse (Schemas.UserOutSchema_dump obj_db)),
       <[next_id db := obj_db]> db,
       [Logged (Logger.info ("用户 " +:+ Schemas.name data +:+ " 创建成功"))])
  end.

(** [PUT /user/{id}], for an [id] the table can have as a key: see
    [UserCalls.db_get] for the others. *)
Definition update (data : Schemas.UserInSchema) (id : Z)
    (now : Datetime.datetime) (db : table) : outcome * table * list effect :=
  match db !! id with
  | None =>
      (Returns (ErrorResponse ("用户" +:+ pretty id +:+ "不存在") None None),
       db,
       [Logged (Logger.warning ("用户" +:+ pretty id +:+ "不存在"))])
  | Some existing_obj =>
      if is_superuser existing_obj then
        (Returns (ErrorResponse "超级管理员不允许修改" None None),
         db,
         [Logged (Logger.warning "超级管理员不允许修改")])
      else
        let update_data_dict := Schemas.model_dump_exclude_unset data in
        let existing_obj := sqlmodel_update existing_obj update_data_dict in
        let existing_obj :=
          set_updated_time existing_obj (Datetime.str_datetime now) in
        (Returns (SuccessResponse (Schemas.UserOutSchema_dump existing_obj)),
         <[id := existing_obj]> db,
         [Logged (Logger.info ("更新用户" +:+ pretty id +:+ "成功"))])
  end.

(** [DELETE /user/{id}], for an [id] the table can have as a key. *)
Definition delete (id : Z) (db : table) : outcome * table * list effect :=
  match db !! id with
  | None =>
      (Returns (ErrorResponse ("用户" +:+ pretty id +:+ "不存在") None None),
       db,
       [Logged (Logger.warning ("用户" +:+ pretty id +:+ "不存在"))])
  | Some existing_obj =>
      if is_superuser existing_obj then
        (Returns (ErrorResponse "超级管理员不允许删除" None None),
         db,
         [Logged (Logger.warning "超级管理员不允许删除")])
      else
        (Returns (SuccessResponse (Schemas.UserOutSchema_dump existing_obj)),
         base.delete id db,
         [Logged (Logger.info ("删除用户" +:+ pretty id +:+ "成功"))])
  end.

End Handlers.

Definition issued_tokens (es : list effect) : list JWTPayloadSchema :=
  omap (fun e => match e with IssuedToken p => Some p | _ => None end) es.

(** Every row carries the key it is stored under. *)
Definition keyed (db : table) : Prop :=
  forall k u, db !! k = Some u -> id u = Some k.

End UserApi.

(** ** src/core/http_client.py, continued: what a call leaves behind and
    the process-wide client *)
Module HttpClientGlobal.
Import HttpClient.

(** The kind of an event, without its texts. *)
Inductive kind :=
  | KRequest
  | KSleep
  | KLog (l : Logger.level).

Definition kind_of (e : event) : kind :=
  match e with
  | Request _ _ => KRequest
  | Sleep _ => KSleep
  | Log r => KLog (Logger.lvl r)
  end.

(** One failed attempt: the request, the warning, the sleep. *)
Definition retry_kinds : list kind := [KRequest; KLog Logger.WARNING; KSleep].

(** The last attempt: the request, and the error record when it fails. *)
Definition last_kinds (r : reply) : list kind :=
  match r with
  | Responds _ => [KRequest]
  | Fails _ => [KRequest; KLog Logger.ERROR]
  end.

(** An [HttpClient] object: what [__init__] stores, and whether [close]
    was called on it. *)
Record client := mk_client {
  timeout : Q;
  retries : Z;
  closed : bool
}.

(** [HttpClient()] with the defaults of [__init__]. *)
Definition new_client : client := mk_client 30 3 false.

(** The clients created so far, by reference, and the module variable
    [_http_client]. *)
Record globals := mk_globals {
  clients : gmap nat client;
  _http_client : option nat
}.

(** The module when it has just been imported. *)
Definition imported : globals := mk_globals ∅ None.

(** [get_http_client]. *)
Definition get_http_client (g : globals) : nat * globals :=
  match _http_client g with
  | None =>
      let l := fresh (dom (clients g)) in
      (l, mk_globals (<[l := new_client]> (clients g)) (Some l))
  | Some l => (l, g)
  end.

(** [HttpClient.close]. *)
Definition close (c : client) : client :=
  mk_client (timeout c) (retries c) true.

(** [close_http_client]. *)
Definition close_http_client (g : globals) : globals :=
  match _http_client g with
  | Some l => mk_globals (alter close l (clients g)) None
  | None => g
  end.

(** The states of the module variable a process goes through. *)
Inductive reachable : globals -> Prop :=
  | reachable_imported : reachable imported
  | reachable_get g : reachable g -> reachable (get_http_client g).2
  | reachable_close g : reachable g -> reachable (close_http_client g).

(** The module variable refers to an open client, and every other client
    ever created is closed. *)
Definition one_open (g : globals) : Prop :=
  (forall l, _http_client g = Some l ->
     exists c, clients g !! l = Some c /\ closed c = false)
  /\ (forall l c, clients g !! l = Some c -> closed c = false ->
        _http_client g = Some l).

End HttpClientGlobal.

(** ** src/services/gateway/utils/monitoring.py, continued: the two
    functions that carry a trace to the next service *)
Module TraceContext.
Import Monitoring.

Local Open Scope monitoring_scope.

(** [extract_trace_context]; of the request it reads the [X-Trace-ID]
    header. The default handed to [headers.get] is computed before the
    call, so an identifier is generated whether it is needed or not. *)
Definition extract_trace_context (uuid4 : nat -> string)
    (x_trace_id : option string) : M (gmap string string) :=
  let* fallback := draw_uuid uuid4 in
  let* span := draw_uuid uuid4 in
  ret (<["X-Span-ID" := span]>
         (<["X-Trace-ID" := default fallback x_trace_id]> ∅)).

(** [inject_trace_context]: a copy of [headers] updated with
    [trace_context]. *)
Definition inject_trace_context (headers trace_context : gmap string string)
  : gmap string string :=
  trace_context ∪ headers.

(** A table in order whose contexts are all unfinished. *)
Definition table_live (s : state) : Prop :=
  forall k l, active_traces s !! k = Some l ->
    k <> EmptyString /\
    exists c, objects s !! l = Some c /\ trace_id c = k /\ end_time c = None.

(** A context as [finish] leaves it when the clock shows [now]. *)
Definition finished (c : MonitoringContext) (now : Q) : MonitoringContext :=
  mk_MonitoringContext (trace_id c) (span_id c) (start_time c) (Some now)
                       (Some (now - start_time c)%Q) (tags c) (logs c).

End TraceContext.

(** ** src/services/admin/app/api/user.py, continued: the reading
    handlers, and the writing handlers as calls in a row *)
Module UserCalls.
Import Response Base Security UserApi.

(** [PATCH /user/{id}], for an [id] the table can have as a key. *)
Definition detail (id : Z) (db : table) : outcome * list effect :=
  match db !! id with
  | None =>
      (Returns (ErrorResponse "用户不存在" None None),
       [Logged (Logger.warning ("用户" +:+ pretty id +:+ "不存在"))])
  | Some existing_obj =>
      (Returns (SuccessResponse (Schemas.UserOutSchema_dump existing_obj)),
       [Logged (Logger.info ("获取用户" +:+ pretty id +:+ "详情成功"))])
  end.

(** The key of the table is SQLite's INTEGER, a signed number of 64
    bits, while the path parameter [id: int] is any integer. *)
Definition sqlite_integer (id : Z) : bool :=
  (- 2 ^ 63 <=? id) && (id <? 2 ^ 63).

(** [db.get(User, id)], the first statement of the three handlers with
    a path id: the driver cannot bind an [id] outside that range and
    raises before a row is read. *)
Definition db_get (id : Z) (db : table) : Datetime.pyerror + option User :=
  if sqlite_integer id then inr (db !! id)
  else inl (Datetime.OverflowError
              "Python int too large to convert to SQLite INTEGER").

(** The three handlers for any path id: what [db.get] raises reaches
    the [except Exception] clause, which logs it and raises
    [ExceptResponse]; nothing was written. Otherwise the handler goes on
    as [update], [delete] and [detail] say. *)
Definition put_user (data : Schemas.UserInSchema) (id : Z)
    (now : Datetime.datetime) (db : table) : outcome * table * list effect :=
  match db_get id db with
  | inl e => let '(raised, effects) := system_error e in (raised, db, effects)
  | inr _ => update data id now db
  end.

Definition delete_user (id : Z) (db : table)
    : outcome * table * list effect :=
  match db_get id db with
  | inl e => let '(raised, effects) := system_error e in (raised, db, effects)
  | inr _ => delete id db
  end.

Definition patch_user (id : Z) (db : table) : outcome * list effect :=
  match db_get id db with
  | inl e => system_error e
  | inr _ => detail id db
  end.

(** The [where] clause of [list]: added only when [query.name] is true
    for Python, that is neither [None] nor empty. *)
Definition name_matches (query_name : option string) (u : User) : bool :=
  match Monitoring.truthy query_name with
  | Some n => bool_decide (name u = n)
  | None => true
  end.

Definition by_id (r1 r2 : Z * User) : Prop := r1.1 <= r2.1.

#[global] Instance by_id_dec : RelDecision by_id.
Proof. intros r1 r2. unfold by_id. apply _. Defined.

(** The rows of the statement [list] builds: the [where] clause, then
    [order_by(asc(User.id))]. *)
Definition select_users (query_name : option string) (db : table)
  : list (Z * User) :=
  merge_sort by_id
    (filter (fun r => name_matches query_name r.2) (map_to_list db)).

(** [Params] of the pagination library. *)
Record Params := mk_Params {
  page : Z;
  size : Z
}.

Section Listing.

(** [paginate] of the pagination library, applied to the rows of the
    statement. *)
Variable paginate : list User -> Params -> json.

(** [GET /users], named [list] in the source. *)
Definition list_users (query_name : option string) (params : Params)
    (db : table) : outcome * list effect :=
  (Returns (SuccessResponse
              (paginate (snd <$> select_users query_name db) params)),
   [Logged (Logger.info "查询用户成功")]).

End Listing.

(** A call of one of the three handlers that write. *)
Inductive call :=
  | Create (data : Schemas.UserInSchema)
           (now_created now_updated : Datetime.datetime)
  | Update (data : Schemas.UserInSchema) (id : Z) (now : Datetime.datetime)
  | Delete (id : Z).

Section Calls.

Context `{Security}.

(** The table a call leaves. *)
Definition run (c : call) (db : table) : table :=
  match c with
  | Create data now_created now_updated =>
      (create data now_created now_updated db).1.2
  | Update data id now => (update data id now db).1.2
  | Delete id => (delete id db).1.2
  end.

(** The table a sequence of calls leaves. *)
Definition run_all (cs : list call) (db : table) : table :=
  foldl (fun db c => run c db) db cs.

End Calls.

Definition is_update (c : call) : bool :=
  match c with Update _ _ _ => true | _ => false end.

(** No two rows have the same user name. *)
Definition unique_usernames (db : table) : Prop :=
  forall k1 k2 u1 u2,
    db !! k1 = Some u1 -> db !! k2 = Some u2 ->
    username u1 = username u2 -> k1 = k2.

(** Every [created_time] is a timestamp of the data model. *)
Definition created_times_ok (db : table) : Prop :=
  forall k u, db !! k = Some u ->
    Datetime.is_timestamp (created_time u) = true.

End UserCalls.

(** ** src/core/startup.py *)
Module Startup.

Section Manager.

(** What the callbacks and the registry client act on, besides the shared
    HTTP client. *)
Variable W : Type.

(** The process as far as the manager is concerned. *)
Record process := mk_process {
  rest : W;
  http : HttpClientGlobal.globals
}.

(** A registered callback, called without arguments (and awaited when it
    is a coroutine function): it returns, or raises an exception whose
    [str] is given. *)
Definition callback : Type := process -> option string * process.

(** core/discovery.py is not among the sources. Of its client the manager
    calls [register_service] and [deregister_service], which return a
    truth value or raise ([inl], with the [str] of the exception; a
    failure of [get_service_discovery_client] counts as one), and the
    module function [close_service_discovery]. *)
Class Discovery := {
  discovery_register :
    string -> string -> Z -> option (list string) -> process ->
    (string + bool) * process;
  discovery_deregister : string -> process -> (string + bool) * process;
  close_service_discovery : process -> option string * process
}.

Context `{Discovery}.

Record UnifiedStartupManager := mk_manager {
  startup_callbacks : list callback;
  shutdown_callbacks : list callback;
  service_id : option string
}.

(** [__init__]. *)
Definition new_manager : UnifiedStartupManager := mk_manager [] [] None.

Definition add_startup_callback (self : UnifiedStartupManager)
    (cb : callback) : UnifiedStartupManager :=
  mk_manager (startup_callbacks self ++ [cb]) (shutdown_callbacks self)
             (service_id self).

Definition add_shutdown_callback (self : UnifiedStartupManager)
    (cb : callback) : UnifiedStartupManager :=
  mk_manager (startup_callbacks self) (shutdown_callbacks self ++ [cb])
             (service_id self).

(** The record of the [except] clause around one callback, if it
    raised. *)
Definition callback_error (prefix : string) (r : option string)
  : list Logger.record :=
  match r with
  | Some e => [Logger.error (prefix +:+ e)]
  | None => []
  end.

(** The [for callback in ...: try: ... except Exception] loop. *)
Fixpoint run_callbacks (prefix : string) (cbs : list callback) (p : process)
  : list Logger.record * process :=
  match cbs with
  | [] => ([], p)
  | cb :: cbs' =>
      let '(r, p1) := cb p in
      let '(logs, p2) := run_callbacks prefix cbs' p1 in
      ((callback_error prefix r ++ logs)%list, p2)
  end.

(** [initialize_components]. *)
Definition initialize_components (self : UnifiedStartupManager) (p : process)
  : list Logger.record * process :=
  let '(logs, p') :=
    run_callbacks "启动回调执行失败: " (startup_callbacks self) p in
  (Logger.info "初始化组件..." :: logs, p').

(** [cleanup_components]; the first component is the exception that
    leaves it, if any: closing the registry client is not guarded. *)
Definition cleanup_components (self : UnifiedStartupManager) (p : process)
  : option string * list Logger.record * process :=
  let '(logs, p1) :=
    run_callbacks "关闭回调执行失败: " (shutdown_callbacks self) p in
  match close_service_discovery p1 with
  | (Some e, p2) => (Some e, Logger.info "清理组件..." :: logs, p2)
  | (None, p2) =>
      (None, Logger.info "清理组件..." :: logs,
       mk_process (rest p2) (HttpClientGlobal.close_http_client (http p2)))
  end.

(** [register_service]. *)
Definition register_service (self : UnifiedStartupManager)
    (service_name address : string) (port : Z) (tags : option (list string))
    (p : process)
  : bool * UnifiedStartupManager * list Logger.record * process :=
  match discovery_register service_name address port tags p with
  | (inr true, p') =>
      (true, self, [Logger.info ("服务注册成功: " +:+ service_name)], p')
  | (inr false, p') =>
      (false, self, [Logger.error ("服务注册失败: " +:+ service_name)], p')
  | (inl e, p') =>
      (false, self,
       [Logger.error ("服务注册异常: " +:+ service_name +:+ ", 错误: " +:+ e)],
       p')
  end.

(** [deregister_service]. *)
Definition deregister_service (self : UnifiedStartupManager) (p : process)
  : bool * list Logger.record * process :=
  match Monitoring.truthy (service_id self) with
  | None => (true, [], p)
  | Some sid =>
      match discovery_deregister sid p with
      | (inr true, p') => (true, [Logger.info ("服务注销成功: " +:+ sid)], p')
      | (inr false, p') =>
          (false, [Logger.error ("服务注销失败: " +:+ sid)], p')
      | (inl e, p') =>
          (false,
           [Logger.error ("服务注销异常: " +:+ sid +:+ ", 错误: " +:+ e)], p')
      end
  end.

(** A call of a method of the manager. *)
Inductive method :=
  | AddStartupCallback (cb : callback)
  | AddShutdownCallback (cb : callback)
  | RegisterService (service_name address : string) (port : Z)
                    (tags : option (list string))
  | DeregisterService
  | InitializeComponents
  | CleanupComponents.

(** The manager and the process after a call. *)
Definition call (m : method) (self : UnifiedStartupManager) (p : process)
  : UnifiedStartupManager * process :=
  match m with
  | AddStartupCallback cb => (add_startup_callback self cb, p)
  | AddShutdownCallback cb => (add_shutdown_callback self cb, p)
  | RegisterService service_name address port tags =>
      let '(_, self', _, p') :=
        register_service self service_name address port tags p in
      (self', p')
  | DeregisterService => (self, (deregister_service self p).2)
  | InitializeComponents => (self, (initialize_components self p).2)
  | CleanupComponents => (self, (cleanup_components self p).2)
  end.

Definition call_all (ms : list method) (self : UnifiedStartupManager)
    (p : process) : UnifiedStartupManager * process :=
  foldl (fun sp m => call m sp.1 sp.2) (self, p) ms.

End Manager.

End Startup.

(** ** Concrete inputs, used where a statement is instantiated *)
Module Examples.

(** A network on which every request fails to connect. *)
Definition connect_error : HttpClient.RequestError :=
  HttpClient.mk_RequestError "connection refused".

Definition unreachable : nat -> HttpClient.reply :=
  fun _ => HttpClient.Fails connect_error.

(** A network that fails to connect, then answers 503, then 200. *)
Definition flaky (n : nat) : HttpClient.reply :=
  match n with
  | O => HttpClient.Fails connect_error
  | S O => HttpClient.Responds (HttpClient.mk_HttpResponse 503 "busy")
  | _ => HttpClient.Responds (HttpClient.mk_HttpResponse 200 "ok")
  end.

(** The module of the shared client after a first use, and after a
    first use followed by a shutdown. *)
Definition serving : HttpClientGlobal.globals :=
  (HttpClientGlobal.get_http_client HttpClientGlobal.imported).2.

Definition after_restart : HttpClientGlobal.globals :=
  HttpClientGlobal.close_http_client serving.

(** Generated identifiers and clock readings of a process. *)
Definition uuid4 (n : nat) : string := String "u" (pretty n).
Definition time (n : nat) : Q := inject_Z (1700000000 + Z.of_nat n).

(** The monitoring state after one [start_trace("trace-1")]. *)
Definition one_trace : Monitoring.state :=
  (Monitoring.start_trace uuid4 time (Some "trace-1") Monitoring.init).2.

(** A stand-in for core/security.py, good enough to run the handlers. *)
Definition toy_security : Security.Security :=
  {| Security.set_password_hash p := "$hash$" +:+ p;
     Security.verify_password p h := String.eqb h ("$hash$" +:+ p);
     Security.create_access_token payload := "jwt." +:+ Base.sub payload |}.

Definition settings : Config.Settings := Config.default_settings "/srv/app".

(** Rows: a superuser, an enabled user and a disabled one. *)
Definition root : Base.User :=
  Base.mk_User (Some 1) "2024-01-01 00:00:00" "2024-01-01 00:00:00"
               "Root" "root" "$hash$toor" true None true.

Definition alice : Base.User :=
  Base.mk_User (Some 2) "2024-02-03 10:00:00" "2024-02-03 10:00:00"
               "Alice" "alice" "$hash$wonderland" true (Some "ops") false.

Definition bob : Base.User :=
  Base.mk_User (Some 3) "2024-02-04 11:30:00" "2024-02-04 11:30:00"
               "Bob" "bob" "$hash$builder" false None false.

Definition db0 : gmap Z Base.User :=
  <[1 := root]> (<[2 := alice]> (<[3 := bob]> ∅)).

(** A reading of the clock, with microseconds as [datetime.now()] gives
    them. *)
Definition now0 : Datetime.datetime :=
  Datetime.mk_datetime 2024 5 6 23 45 9 123456.

(** Request bodies. Fields outside [model_fields_set] were not sent. *)
Definition rename_alice : Schemas.UserInSchema :=
  Schemas.mk_UserInSchema "Alice Liddell" EmptyString EmptyString true None
                          [Schemas.FName].

Definition change_password : Schemas.UserInSchema :=
  Schemas.mk_UserInSchema "Alice" "alice" "hunter2" true None
    [Schemas.FName; Schemas.FUsername; Schemas.FPassword].

Definition new_carol : Schemas.UserInSchema :=
  Schemas.mk_UserInSchema "Carol" "carol" "s3cret" true None
    [Schemas.FName; Schemas.FUsername; Schemas.FPassword].

Definition plain_request : UserApi.Request := UserApi.mk_Request ∅.


Definition alice_form : UserApi.OAuth2PasswordRequestForm :=
  UserApi.mk_OAuth2PasswordRequestForm "alice" "wonderland".

Definition bob_form : UserApi.OAuth2PasswordRequestForm :=
  UserApi.mk_OAuth2PasswordRequestForm "bob" "builder".

(** Two users added through the API who are then given the user name of
    a stored user, which [PUT /user/{id}] does not refuse. Eve is
    created with the password of [alice], then renamed to alice and
    disabled; Dave is created, then renamed to bob, the disabled user. *)
Definition new_eve : Schemas.UserInSchema :=
  Schemas.mk_UserInSchema "Eve" "eve" "wonderland" true None
    [Schemas.FName; Schemas.FUsername; Schemas.FPassword].

Definition eve_as_alice : Schemas.UserInSchema :=
  Schemas.mk_UserInSchema EmptyString "alice" EmptyString false None
    [Schemas.FUsername; Schemas.FStatus].

Definition new_dave : Schemas.UserInSchema :=
  Schemas.mk_UserInSchema "Dave" "dave" "d4ve" true None
    [Schemas.FName; Schemas.FUsername; Schemas.FPassword].

Definition dave_as_bob : Schemas.UserInSchema :=
  Schemas.mk_UserInSchema EmptyString "bob" EmptyString true None
    [Schemas.FUsername].

(** The rows and tables these calls leave. In [two_alices] the enabled
    alice has the lower id, in [two_bobs] the disabled bob has it. *)
Definition eve : Base.User :=
  Base.mk_User (Some 4) "2024-05-06 23:45:09" "2024-05-06 23:45:09.123456"
               "Eve" "alice" "$hash$wonderland" false None false.

Definition dave : Base.User :=
  Base.mk_User (Some 4) "2024-05-06 23:45:09" "2024-05-06 23:45:09.123456"
               "Dave" "bob" "$hash$d4ve" true None false.

Definition two_alices : gmap Z Base.User := <[4 := eve]> db0.

Definition two_bobs : gmap Z Base.User := <[4 := dave]> db0.

Definition dave_form : UserApi.OAuth2PasswordRequestForm :=
  UserApi.mk_OAuth2PasswordRequestForm "bob" "d4ve".

(** The last quarter of an hour [datetime] can hold. *)
Definition last_evening : Datetime.datetime :=
  Datetime.mk_datetime 9999 12 31 23 45 0 0.

(** The context that state holds, at reference 0. *)
Definition first_context : Monitoring.MonitoringContext :=
  Monitoring.mk_MonitoringContext "trace-1" (uuid4 0) (time 0) None None ∅ [].

(** A sequence of writing calls. *)
Definition some_calls : list UserCalls.call :=
  [UserCalls.Update change_password 1 now0;
   UserCalls.Delete 1;
   UserCalls.Create new_carol now0 now0;
   UserCalls.Update rename_alice 2 now0;
   UserCalls.Delete 3].

End Examples.

(* ===================================================================== *)
(** * Part II: properties                                                  *)
(* ===================================================================== *)

(** ** Timestamps *)
Module DatetimeFacts.
Import Datetime.

Lemma is_digit_digit_char (n : Z) : is_digit (digit_char (n mod 10)) = true.
Proof.
  assert (Hr : 0 <= n mod 10 < 10) by (apply Z.mod_pos_bound; lia).
  assert (Hc : n mod 10 = 0 \/ n mod 10 = 1 \/ n mod 10 = 2 \/ n mod 10 = 3 \/
               n mod 10 = 4 \/ n mod 10 = 5 \/ n mod 10 = 6 \/ n mod 10 = 7 \/
               n mod 10 = 8 \/ n mod 10 = 9) by lia.
  repeat (destruct Hc as [-> | Hc]; [reflexivity |]).
  rewrite Hc. reflexivity.
Qed.

(** Unfolding of the printers down to the characters. *)
Ltac show_characters :=
  cbv [is_timestamp strftime_Ymd_HMS str_datetime format_date format_time
       zero_padded String.append matches_picture Ascii.eqb Bool.eqb].

(** The pattern of [Base] always prints a timestamp of the data model. *)
Lemma strftime_is_timestamp (d : datetime) :
  is_timestamp (strftime_Ymd_HMS d) = true.
Proof.
  show_characters.
  rewrite !is_digit_digit_char. reflexivity.
Qed.

(** [str] of a date prints a fraction, hence no timestamp of the data
    model, as soon as the microseconds are not zero. *)
Lemma str_datetime_not_timestamp (d : datetime) :
  microsecond d <> 0 -> is_timestamp (str_datetime d) = false.
Proof.
  intros Hus. apply Z.eqb_neq in Hus.
  unfold str_datetime. rewrite Hus.
  show_characters.
  rewrite !is_digit_digit_char. reflexivity.
Qed.

Lemma append_empty (s : string) : s +:+ EmptyString = s.
Proof.
  induction s as [| c s IH]; [reflexivity |].
  change (String c s +:+ EmptyString) with (String c (s +:+ EmptyString)).
  now rewrite IH.
Qed.

(** On a whole second the two printers agree. *)
Lemma str_datetime_whole_second (d : datetime) :
  microsecond d = 0 -> str_datetime d = strftime_Ymd_HMS d.
Proof.
  intros Hus. unfold str_datetime, strftime_Ymd_HMS. rewrite Hus.
  change (0 =? 0) with true. cbv iota.
  now rewrite append_empty.
Qed.

(** *** The calendar *)

Lemma days_before_year_cycles (q a b c : Z) :
  0 <= a <= 3 -> 0 <= b <= 24 -> 0 <= c <= 3 ->
  days_before_year (400 * q + 100 * a + 4 * b + c + 1)
  = DI400Y * q + DI100Y * a + DI4Y * b + 365 * c.
Proof.
  intros Ha Hb Hc. unfold days_before_year, DI400Y, DI100Y, DI4Y.
  cbv zeta.
  replace (400 * q + 100 * a + 4 * b + c + 1 - 1) with (400 * q + 100 * a + 4 * b + c) by lia.
  Z.div_mod_to_equations. lia.
Qed.

Lemma is_leap_cycles (q a b c : Z) :
  0 <= a <= 3 -> 0 <= b <= 24 -> 0 <= c <= 3 ->
  is_leap (400 * q + 100 * a + 4 * b + c + 1)
  = (c =? 3) && (negb (b =? 24) || (a =? 3)).
Proof.
  intros Ha Hb Hc. unfold is_leap.
  destruct (Z.eqb_spec c 3), (Z.eqb_spec b 24), (Z.eqb_spec a 3);
  destruct (Z.eqb_spec ((400 * q + 100 * a + 4 * b + c + 1) mod 4) 0);
  destruct (Z.eqb_spec ((400 * q + 100 * a + 4 * b + c + 1) mod 100) 0);
  destruct (Z.eqb_spec ((400 * q + 100 * a + 4 * b + c + 1) mod 400) 0);
  cbn; try reflexivity; exfalso; Z.div_mod_to_equations; lia.
Qed.

Lemma month_day_table (leapyear : bool) :
  forallb (month_day_checked leapyear) (Z.of_nat <$> seq 0 365) = true.
Proof. destruct leapyear; vm_compute; reflexivity. Qed.

Lemma month_day_ok (leapyear : bool) (n : Z) :
  0 <= n < 365 -> month_day_checked leapyear n = true.
Proof.
  intros Hn. pose proof (month_day_table leapyear) as Hall.
  rewrite forallb_forall in Hall. apply Hall.
  apply list_elem_of_In, list_elem_of_fmap. exists (Z.to_nat n).
  split; [lia |]. apply list_elem_of_In, in_seq. lia.
Qed.

Lemma ord2ymd_unfold (n : Z) :
  ord2ymd n =
  let n0 := n - 1 in
  let n400 := n0 / DI400Y in
  let r400 := n0 mod DI400Y in
  let n100 := r400 / DI100Y in
  let r100 := r400 mod DI100Y in
  let n4 := r100 / DI4Y in
  let r4 := r100 mod DI4Y in
  let n1 := r4 / 365 in
  let r1 := r4 mod 365 in
  let y := n400 * 400 + 1 + n100 * 100 + n4 * 4 + n1 in
  if (n1 =? 4) || (n100 =? 4) then (y - 1, 12, 31)
  else
    let '(m, d) :=
      month_day ((n1 =? 3) && (negb (n4 =? 24) || (n100 =? 3))) r1 in
    (y, m, d).
Proof.
  unfold ord2ymd, month_day. cbv zeta.
  destruct ((_ =? 4) || (_ =? 4)); [reflexivity |].
  destruct (_ <? _); reflexivity.
Qed.

(** [ord2ymd] yields a date of the calendar, and [ymd2ord] takes it
    back to the ordinal. *)
Lemma ord2ymd_spec (n : Z) :
  1 <= n ->
  let '(y, m, d) := ord2ymd n in
  ymd2ord y m d = n
  /\ 1 <= y /\ 1 <= m <= 12 /\ 1 <= d <= days_in_month y m.
Proof.
  intros Hn. rewrite ord2ymd_unfold. cbv zeta.
  assert (H0 : 0 <= n - 1) by lia.
  pose proof (Z.div_mod (n - 1) DI400Y ltac:(discriminate)) as E400.
  pose proof (Z.mod_pos_bound (n - 1) DI400Y ltac:(reflexivity)) as B400.
  assert (Q400 : 0 <= (n - 1) / DI400Y)
    by (apply Z.div_pos; [lia | reflexivity]).
  set (q := (n - 1) / DI400Y) in *. set (r400 := (n - 1) mod DI400Y) in *.
  pose proof (Z.div_mod r400 DI100Y ltac:(discriminate)) as E100.
  pose proof (Z.mod_pos_bound r400 DI100Y ltac:(reflexivity)) as B100.
  assert (Q100 : 0 <= r400 / DI100Y)
    by (apply Z.div_pos; [lia | reflexivity]).
  set (a := r400 / DI100Y) in *. set (r100 := r400 mod DI100Y) in *.
  pose proof (Z.div_mod r100 DI4Y ltac:(discriminate)) as E4.
  pose proof (Z.mod_pos_bound r100 DI4Y ltac:(reflexivity)) as B4.
  assert (Q4 : 0 <= r100 / DI4Y) by (apply Z.div_pos; [lia | reflexivity]).
  set (b := r100 / DI4Y) in *. set (r4 := r100 mod DI4Y) in *.
  pose proof (Z.div_mod r4 365 ltac:(discriminate)) as E1.
  pose proof (Z.mod_pos_bound r4 365 ltac:(reflexivity)) as B1.
  assert (Q1 : 0 <= r4 / 365) by (apply Z.div_pos; [lia | reflexivity]).
  set (c := r4 / 365) in *. set (r1 := r4 mod 365) in *.
  clearbody q r400 a r100 b r4 c r1.
  unfold DI400Y, DI100Y, DI4Y in *.
  assert (Ha : a <= 4) by lia. assert (Hb : b <= 24) by lia.
  assert (Hc : c <= 4) by lia.
  destruct (Z.eqb_spec c 4) as [-> | Hc4]; cbn [orb].
  - (* the last day of the leap year that closes a 4-year cycle *)
    assert (Ha3 : a <= 3) by lia. assert (Hb23 : b <= 23) by lia.
    replace (q * 400 + 1 + a * 100 + b * 4 + 4 - 1)
      with (400 * q + 100 * a + 4 * b + 3 + 1) by lia.
    unfold ymd2ord, days_before_month, days_in_month.
    rewrite days_before_year_cycles, is_leap_cycles by lia.
    unfold DI400Y, DI100Y, DI4Y.
    replace (b =? 24) with false by (symmetry; apply Z.eqb_neq; lia).
    cbn. lia.
  - destruct (Z.eqb_spec a 4) as [-> | Ha4].
    + (* the last day of a 400-year cycle *)
      assert (b = 0 /\ c = 0 /\ r1 = 0 /\ r4 = 0 /\ r100 = 0)
        as (-> & -> & -> & -> & ->) by lia.
      replace (q * 400 + 1 + 4 * 100 + 0 * 4 + 0 - 1)
        with (400 * q + 100 * 3 + 4 * 24 + 3 + 1) by lia.
      unfold ymd2ord, days_before_month, days_in_month.
      rewrite days_before_year_cycles, is_leap_cycles by lia.
      unfold DI400Y, DI100Y, DI4Y. cbn. lia.
    + pose proof (month_day_ok ((c =? 3) && (negb (b =? 24) || (a =? 3)))
                    r1 B1) as Hmd.
      unfold month_day_checked in Hmd.
      destruct (month_day _ r1) as [m d].
      rewrite !andb_true_iff in Hmd.
      destruct Hmd as ((((Hm1 & Hm12) & Hd1) & Hdmax) & Hsum).
      apply Z.eqb_eq in Hsum.
      replace (q * 400 + 1 + a * 100 + b * 4 + c)
        with (400 * q + 100 * a + 4 * b + c + 1) by lia.
      unfold ymd2ord, days_before_month, days_in_month.
      rewrite days_before_year_cycles, is_leap_cycles by lia.
      unfold DI400Y, DI100Y, DI4Y.
      assert (Hdim : d <= if (m =? 2)
                               && ((c =? 3) && (negb (b =? 24) || (a =? 3)))
                          then 29 else DAYS_IN_MONTH m).
      { destruct ((m =? 2) && _) eqn:Hfeb; [| lia].
        apply andb_true_iff in Hfeb as [Hm2 _].
        apply Z.eqb_eq in Hm2. subst m. cbn in Hdmax. lia. }
      lia.
Qed.

Lemma ymd2ord_ord2ymd (n : Z) :
  1 <= n -> let '(y, m, d) := ord2ymd n in ymd2ord y m d = n.
Proof.
  intros Hn. pose proof (ord2ymd_spec n Hn) as Hspec.
  destruct (ord2ymd n) as [[y m] d]. tauto.
Qed.

(** Year 10000 starts after the last ordinal [datetime] holds. *)
Lemma days_before_year_10000 (y : Z) :
  10000 <= y -> MAXORDINAL <= days_before_year y.
Proof.
  intros Hy. unfold days_before_year, MAXORDINAL. cbv zeta.
  assert (H100 : (y - 1) / 100 = (y - 1) / 4 / 25)
    by (rewrite Z.div_div by lia; reflexivity).
  assert (H400 : (y - 1) / 400 = (y - 1) / 100 / 4)
    by (rewrite Z.div_div by lia; reflexivity).
  rewrite H400, H100.
  Z.div_mod_to_equations. lia.
Qed.

Lemma days_before_month_nonneg (y m : Z) :
  1 <= m <= 12 -> 0 <= days_before_month y m.
Proof.
  intros Hm. unfold days_before_month.
  assert (Hc : m = 1 \/ m = 2 \/ m = 3 \/ m = 4 \/ m = 5 \/ m = 6 \/ m = 7
               \/ m = 8 \/ m = 9 \/ m = 10 \/ m = 11 \/ m = 12) by lia.
  repeat (destruct Hc as [-> | Hc]; [cbn; destruct (is_leap y); lia |]).
  subst m. cbn. destruct (is_leap y); lia.
Qed.

(** A [timedelta] stands for the microseconds it was made from. *)
Lemma timedelta_of_microseconds_inv (us : Z) (t : timedelta) :
  timedelta_of_microseconds us = inr t -> timedelta_to_microseconds t = us.
Proof.
  unfold timedelta_of_microseconds, timedelta_to_microseconds.
  destruct (_ >? _); [discriminate |]. intros [= <-].
  cbn [td_days td_seconds td_microseconds].
  Z.div_mod_to_equations. lia.
Qed.

Lemma timedelta_minutes_total_seconds (m : Z) (t : timedelta) :
  timedelta_minutes m = inr t -> (total_seconds t == inject_Z (m * 60))%Q.
Proof.
  intros Ht. apply timedelta_of_microseconds_inv in Ht.
  unfold total_seconds, Qeq. rewrite Ht. cbn [Qnum Qden inject_Z]. lia.
Qed.

(** [datetime + timedelta] is the addition of the time line. *)
Lemma datetime_add_linear (d e : datetime) (t : timedelta) :
  datetime_add d t = inr e ->
  datetime_to_microseconds e
  = datetime_to_microseconds d + timedelta_to_microseconds t.
Proof.
  unfold datetime_add.
  set (us := datetime_to_microseconds d + timedelta_to_microseconds t).
  destruct (Z.ltb_spec 0 (us / 1000000 / 86400)) as [Hpos |]; [| discriminate].
  destruct (_ <=? MAXORDINAL); [| discriminate]. cbn [andb].
  pose proof (ymd2ord_ord2ymd (us / 1000000 / 86400) ltac:(lia)) as Hord.
  destruct (ord2ymd _) as [[y m] dd]. intros [= <-].
  unfold datetime_to_microseconds, toordinal.
  cbn [year month day hour minute second microsecond].
  rewrite Hord. clearbody us. clear.
  Z.div_mod_to_equations. lia.
Qed.

(** [datetime + timedelta], when it does not overflow, is a date that
    satisfies the class invariant. *)
Lemma datetime_add_valid (d e : datetime) (t : timedelta) :
  datetime_add d t = inr e -> valid_datetime e.
Proof.
  unfold datetime_add.
  set (us := datetime_to_microseconds d + timedelta_to_microseconds t).
  destruct (Z.ltb_spec 0 (us / 1000000 / 86400)) as [Hpos |]; [| discriminate].
  destruct (Z.leb_spec (us / 1000000 / 86400) MAXORDINAL) as [Hmax |];
    [| discriminate].
  cbn [andb].
  pose proof (ord2ymd_spec (us / 1000000 / 86400) ltac:(lia)) as Hord.
  destruct (ord2ymd _) as [[y m] dd]. intros [= <-].
  destruct Hord as (Hord & Hy & Hm & Hd).
  unfold valid_datetime, MINYEAR, MAXYEAR.
  cbn [year month day hour minute second microsecond].
  assert (Hy' : y <= 9999).
  { destruct (Z.le_gt_cases 10000 y) as [Hbig |]; [| lia].
    pose proof (days_before_year_10000 y Hbig).
    pose proof (days_before_month_nonneg y m Hm).
    unfold ymd2ord in Hord. lia. }
  repeat split; try lia; clear; clearbody us;
    Z.div_mod_to_equations; lia.
Qed.

(** Bounds that keep the sum within the dates [datetime] holds. *)
Lemma days_before_year_bounds (y : Z) :
  1 <= y <= 9998 -> 0 <= days_before_year y <= 3651329.
Proof.
  intros Hy. unfold days_before_year. cbv zeta.
  assert (H100 : (y - 1) / 100 = (y - 1) / 4 / 25)
    by (rewrite Z.div_div by lia; reflexivity).
  assert (H400 : (y - 1) / 400 = (y - 1) / 100 / 4)
    by (rewrite Z.div_div by lia; reflexivity).
  rewrite H400, H100.
  Z.div_mod_to_equations. lia.
Qed.

Lemma day_of_year_bounds (y m d : Z) :
  1 <= m <= 12 -> 1 <= d <= days_in_month y m ->
  1 <= days_before_month y m + d <= 366.
Proof.
  intros Hm. unfold days_before_month, days_in_month.
  assert (Hc : m = 1 \/ m = 2 \/ m = 3 \/ m = 4 \/ m = 5 \/ m = 6 \/ m = 7
               \/ m = 8 \/ m = 9 \/ m = 10 \/ m = 11 \/ m = 12) by lia.
  repeat (destruct Hc as [-> | Hc]; [cbn; destruct (is_leap y); cbn; lia |]).
  subst m. cbn. destruct (is_leap y); cbn; lia.
Qed.

Lemma toordinal_bounds (d : datetime) :
  valid_datetime d -> year d <= 9998 -> 1 <= toordinal d <= 3651695.
Proof.
  intros (Hy & Hm & Hd & _) Hy'. unfold toordinal, ymd2ord, MINYEAR in *.
  pose proof (days_before_year_bounds (year d) ltac:(lia)).
  pose proof (day_of_year_bounds (year d) (month d) (day d) Hm Hd).
  lia.
Qed.

(** From a clock before year 9999, an expiry of at most thirty days is
    a date [datetime] holds: no [OverflowError]. *)
Lemma expiry_defined (now : datetime) (minutes : Z) :
  valid_datetime now -> year now <= 9998 -> 0 <= minutes <= 43200 ->
  exists access_expires expiry,
    timedelta_minutes minutes = inr access_expires
    /\ datetime_add now access_expires = inr expiry.
Proof.
  intros Hvalid Hyear Hmin.
  pose proof (toordinal_bounds now Hvalid Hyear) as Hord.
  destruct Hvalid as (_ & _ & _ & Hh & Hmi & Hs & Hus).
  unfold timedelta_minutes, timedelta_of_microseconds.
  assert (Hsmall : (Z.abs (minutes * 60 * 1000000 / 1000000 / 86400)
                    >? 999999999) = false).
  { rewrite Z.gtb_ltb. apply Z.ltb_ge. rewrite Z.div_mul by lia.
    rewrite Z.abs_eq by (apply Z.div_pos; lia).
    Z.div_mod_to_equations. lia. }
  rewrite Hsmall.
  set (t := mk_timedelta _ _ _).
  assert (Ht : timedelta_to_microseconds t = minutes * 60 * 1000000).
  { apply timedelta_of_microseconds_inv.
    unfold timedelta_of_microseconds. now rewrite Hsmall. }
  exists t. clearbody t.
  unfold datetime_add. rewrite Ht. unfold datetime_to_microseconds.
  set (days := _ / 1000000 / 86400).
  assert (Hdays : 0 < days <= MAXORDINAL).
  { subst days. unfold MAXORDINAL.
    replace ((toordinal now * 86400 + hour now * 3600 + minute now * 60
              + second now) * 1000000 + microsecond now
             + minutes * 60 * 1000000)
      with ((toordinal now * 86400 + hour now * 3600 + minute now * 60
             + second now + minutes * 60) * 1000000 + microsecond now)
      by lia.
    rewrite Z.div_add_l, (Z.div_small (microsecond now)), Z.add_0_r by lia.
    Z.div_mod_to_equations. lia. }
  replace (0 <? days) with true by (symmetry; apply Z.ltb_lt; lia).
  replace (days <=? MAXORDINAL) with true by (symmetry; apply Z.leb_le; lia).
  cbn [andb]. destruct (ord2ymd days) as [[y m] dd].
  eexists. split; reflexivity.
Qed.

End DatetimeFacts.

(** ** The retrying HTTP client *)
Module HttpClientFacts.
Import HttpClient.

Section Retry.

Variable retries : Z.
Variables method url : string.
Variable network : nat -> reply.

Hypothesis retries_nonneg : 0 <= retries.

(** The attempt the call stops at: every earlier reply asked for another
    try, and this one is the last allowed or does not ask for one. *)
Definition stops_at (j : nat) : Prop :=
  (j <= Z.to_nat retries)%nat /\
  (forall k, (k < j)%nat -> retryable (network k) = true) /\
  (j = Z.to_nat retries \/ retryable (network j) = false).

Lemma final_attempt (j : nat) (rest : list Z) (last : option RequestError) :
  (j <= Z.to_nat retries)%nat ->
  j = Z.to_nat retries \/ retryable (network j) = false ->
  exists tr,
    retry_loop retries method url network (Z.of_nat j :: rest) j last
    = (final (network j), tr)
    /\ requests tr = 1%nat /\ sleeps tr = [].
Proof.
  intros Hle Hstop. cbn [retry_loop].
  destruct (network j) as [response | e] eqn:Hrep; cbn [retryable final] in *.
  - assert (Hno : (status_code response >=? 500)
                  && (Z.of_nat j <? retries) = false).
    { destruct Hstop as [-> | ->]; [| reflexivity].
      rewrite andb_false_iff. right. apply Z.ltb_ge. lia. }
    rewrite Hno. eexists. repeat split; reflexivity.
  - destruct Hstop as [-> | ?]; [| discriminate].
    assert (Hno : (Z.of_nat (Z.to_nat retries) <? retries) = false)
      by (apply Z.ltb_ge; lia).
    rewrite Hno. eexists. repeat split; reflexivity.
Qed.

(** The loop from attempt [a] on, when it stops [n] attempts later. *)
Lemma retry_loop_from (n : nat) :
  forall (a len : nat) (last : option RequestError),
    stops_at (a + n) -> (n < len)%nat ->
    exists tr,
      retry_loop retries method url network (Z.of_nat <$> seq a len) a last
      = (final (network (a + n)%nat), tr)
      /\ requests tr = S n
      /\ sleeps tr = backoff <$> (Z.of_nat <$> seq a n).
Proof.
  induction n as [| n IH]; intros a len last (Hle & Hretry & Hstop) Hlen.
  - rewrite Nat.add_0_r in *.
    destruct len as [| len]; [lia |]. cbn [seq fmap list_fmap].
    destruct (final_attempt a (Z.of_nat <$> seq (S a) len) last Hle Hstop)
      as (tr & Hrun & Hreq & Hsl).
    exists tr. repeat split; assumption.
  - destruct len as [| len]; [lia |]. cbn [seq fmap list_fmap retry_loop].
    assert (Hlt : (Z.of_nat a <? retries) = true) by (apply Z.ltb_lt; lia).
    assert (Ha : retryable (network a) = true) by (apply Hretry; lia).
    replace (a + S n)%nat with (S a + n)%nat in * by lia.
    destruct (network a) as [response | e] eqn:Hrep; cbn [retryable] in Ha.
    + rewrite Ha, Hlt. cbn [andb].
      destruct (IH (S a) len last) as (tr & Hrun & Hreq & Hsl).
      { repeat split; [exact Hle | | exact Hstop].
        intros k Hk. apply Hretry. exact Hk. }
      { lia. }
      change (list_fmap nat Z Z.of_nat (seq (S a) len))
        with (Z.of_nat <$> seq (S a) len).
      rewrite Hrun. eexists. split; [reflexivity |].
      split; [cbn; now rewrite <- Hreq | cbn; now rewrite <- Hsl].
    + rewrite Hlt.
      destruct (IH (S a) len (Some e)) as (tr & Hrun & Hreq & Hsl).
      { repeat split; [exact Hle | | exact Hstop].
        intros k Hk. apply Hretry. exact Hk. }
      { lia. }
      change (list_fmap nat Z Z.of_nat (seq (S a) len))
        with (Z.of_nat <$> seq (S a) len).
      rewrite Hrun. eexists. split; [reflexivity |].
      split; [cbn; now rewrite <- Hreq | cbn; now rewrite <- Hsl].
Qed.

(** The whole call: it stops at the first reply that is neither a
    transport error nor a 5xx, or at attempt [retries]. *)
Lemma request_with_retry_stops (j : nat) :
  stops_at j ->
  exists tr,
    request_with_retry retries method url network = (final (network j), tr)
    /\ requests tr = S j
    /\ sleeps tr = backoff <$> range (Z.of_nat j).
Proof.
  intros Hstop. unfold request_with_retry, range.
  rewrite Nat2Z.id.
  apply (retry_loop_from j 0 (Z.to_nat (retries + 1)) None Hstop).
  destruct Hstop as (Hle & _). lia.
Qed.

End Retry.

(** With a negative [retries] the loop body never runs and the code after
    the loop raises its [RuntimeError]. *)
Lemma request_with_retry_negative retries method url network :
  retries < 0 ->
  request_with_retry retries method url network
  = (RaiseRuntimeError "请求失败且未捕获到具体异常", []).
Proof.
  intros Hneg. unfold request_with_retry, range.
  replace (Z.to_nat (retries + 1)) with 0%nat by lia. reflexivity.
Qed.




End HttpClientFacts.

(** ** The exception handlers *)
Module ExceptionsFacts.
Import Response Exceptions.

(** C9. Whatever two exceptions reach the catch-all handler, the client
    receives the same response: the Except envelope with the generic
    message and status 500; only the logger sees the exception's text. *)
Theorem general_exception_handler_uniform (exc1 exc2 : PyException) :
  (general_exception_handler exc1).1 = (general_exception_handler exc2).1
  /\ (general_exception_handler exc1).1
     = ExceptResponse "服务器内部错误" (Some 500)
  /\ body_message (general_exception_handler exc1).1 = Some "服务器内部错误"
  /\ http_status (general_exception_handler exc1).1 = 500.
Proof. repeat split. Qed.

(** The same through the dispatch of the framework. *)
Lemma handle_other_uniform (exc1 exc2 : PyException) :
  (handle (RaisedOther exc1)).1 = (handle (RaisedOther exc2)).1.
Proof. reflexivity. Qed.

(** The exception's text does reach the log. *)
Lemma general_exception_handler_logs (exc : PyException) :
  Logger.msg <$> (general_exception_handler exc).2
  = ["未处理的异常: " +:+ exc_str exc].
Proof. reflexivity. Qed.

End ExceptionsFacts.

(** ** The monitoring manager *)
Module MonitoringFacts.
Import Response Monitoring.

Section Process.

Variable uuid4 : nat -> string.
Variable time : nat -> Q.

(** A generated identifier is never the empty string. *)
Hypothesis uuid4_nonempty : forall n, uuid4 n <> EmptyString.

Lemma truthy_Some (o : option string) (x : string) :
  truthy o = Some x -> o = Some x /\ x <> EmptyString.
Proof.
  destruct o as [[| c x'] |]; cbn; intros Hx; inversion Hx; subst.
  split; [reflexivity | discriminate].
Qed.

Lemma truthy_nonempty (x : string) :
  x <> EmptyString -> truthy (Some x) = Some x.
Proof. destruct x; [congruence | reflexivity]. Qed.

(** [x or str(uuid.uuid4())] is not empty and leaves objects, table and
    log alone. *)
Lemma or_uuid_spec (o : option string) (s : state) :
  exists x n,
    or_uuid uuid4 o s
    = (x, mk_state (objects s) (active_traces s) (logged s) n (clock_reads s))
    /\ x <> EmptyString
    /\ (forall y, y <> EmptyString -> o = Some y -> x = y).
Proof.
  unfold or_uuid. destruct (truthy o) as [x |] eqn:Ho.
  - apply truthy_Some in Ho as [-> Hx].
    exists x, (uuids_drawn s). destruct s; cbn.
    repeat split; [exact Hx | congruence].
  - exists (uuid4 (uuids_drawn s)), (S (uuids_drawn s)).
    repeat split; [apply uuid4_nonempty |].
    intros y Hy ->. rewrite truthy_nonempty in Ho by exact Hy. discriminate.
Qed.

(** What [start_trace] does, whatever the state. *)
Lemma start_trace_spec (o : option string) (s : state) :
  exists tid c n m,
    let l := fresh (dom (objects s)) in
    start_trace uuid4 time o s
    = (l, mk_state (<[l := c]> (objects s)) (<[tid := l]> (active_traces s))
                   (logged s) n m)
    /\ objects s !! l = None
    /\ tid <> EmptyString
    /\ (forall y, y <> EmptyString -> o = Some y -> tid = y)
    /\ trace_id c = tid /\ end_time c = None /\ duration c = None
    /\ tags c = ∅ /\ logs c = [].
Proof.
  destruct (or_uuid_spec o s) as (tid & n & Hor & Htid & Hgiven).
  exists tid. eexists. exists (S n), (S (clock_reads s)).
  unfold start_trace, new_context, bind. rewrite Hor.
  cbn [draw_uuid read_clock alloc load get_active set_active ret
       objects active_traces logged uuids_drawn clock_reads].
  rewrite lookup_insert_eq. cbn [trace_id].
  split; [reflexivity |].
  split; [apply not_elem_of_dom, is_fresh |].
  repeat split; assumption.
Qed.

Lemma table_ok_init : table_ok init.
Proof. intros k l Hk. cbn in Hk. rewrite lookup_empty in Hk. discriminate. Qed.

Lemma table_ok_start_trace (o : option string) (s : state) :
  table_ok s -> table_ok (start_trace uuid4 time o s).2.
Proof.
  intros Hok.
  destruct (start_trace_spec o s)
    as (tid & c & n & m & Hrun & Hfresh & Htid & _ & Hc & _).
  cbn zeta in Hrun. rewrite Hrun. cbn [snd].
  intros k l. cbn [active_traces objects].
  destruct (decide (tid = k)) as [<- | Hne].
  - rewrite lookup_insert_eq. intros [= <-].
    split; [exact Htid |]. exists c. now rewrite lookup_insert_eq.
  - rewrite lookup_insert_ne by exact Hne. intros Hk.
    destruct (Hok k l Hk) as (Hk0 & c0 & Hl & Hc0).
    split; [exact Hk0 |]. exists c0. split; [| exact Hc0].
    rewrite lookup_insert_ne; [exact Hl |]. intros <-. congruence.
Qed.

(** Writing back an object with its trace id unchanged. *)
Lemma table_ok_store (s : state) (l : nat) (c c' : MonitoringContext) n m :
  table_ok s -> objects s !! l = Some c -> trace_id c' = trace_id c ->
  table_ok (mk_state (<[l := c']> (objects s)) (active_traces s) (logged s)
                     n m).
Proof.
  intros Hok Hl Hsame k l0 Hk. cbn [active_traces objects] in *.
  destruct (Hok k l0 Hk) as (Hk0 & c0 & Hl0 & Hc0).
  split; [exact Hk0 |].
  destruct (decide (l = l0)) as [<- | Hne].
  - exists c'. rewrite lookup_insert_eq. split; [reflexivity |]. congruence.
  - exists c0. now rewrite lookup_insert_ne.
Qed.

Lemma table_ok_set_tag (l : nat) (key : string) (value : json) (s : state) :
  table_ok s -> table_ok (set_tag l key value s).2.
Proof.
  intros Hok. unfold set_tag, bind, load.
  destruct (objects s !! l) as [c |] eqn:Hl; [| exact Hok].
  cbn [store snd]. now apply (table_ok_store s l c).
Qed.

Lemma table_ok_counters (s : state) n m :
  table_ok s ->
  table_ok (mk_state (objects s) (active_traces s) (logged s) n m).
Proof. intros Hok k l Hk. exact (Hok k l Hk). Qed.

Lemma table_ok_log (l : nat) (message : string) (kwargs : gmap string json)
    (s : state) :
  table_ok s -> table_ok (log time l message kwargs s).2.
Proof.
  intros Hok. unfold log, bind, load, read_clock.
  cbn [objects active_traces logged uuids_drawn clock_reads].
  destruct (objects s !! l) as [c |] eqn:Hl.
  - cbn [store snd objects active_traces logged uuids_drawn clock_reads].
    now apply (table_ok_store s l c).
  - cbn [ret snd]. now apply table_ok_counters.
Qed.

Lemma table_ok_end_trace (l : nat) (s : state) :
  table_ok s -> table_ok (end_trace time l s).2.
Proof.
  intros Hok. unfold end_trace, finish, bind, load, read_clock, get_active.
  cbn [objects active_traces logged uuids_drawn clock_reads].
  destruct (objects s !! l) as [c |] eqn:Hl.
  - cbn [store snd fst objects active_traces logged uuids_drawn clock_reads].
    rewrite lookup_insert_eq. cbn [trace_id duration tags].
    set (c' := mk_MonitoringContext _ _ _ _ _ _ _).
    assert (Hstored : table_ok
              (mk_state (<[l := c']> (objects s)) (active_traces s)
                        (logged s) (uuids_drawn s) (S (clock_reads s))))
      by now apply (table_ok_store s l c).
    case_bool_decide.
    + cbn [set_active logger_info snd objects active_traces logged
           uuids_drawn clock_reads].
      intros k l0. cbn [active_traces objects]. intros Hk.
      apply lookup_delete_Some in Hk as [_ Hk].
      exact (Hstored k l0 Hk).
    + cbn [ret logger_info snd objects active_traces logged
           uuids_drawn clock_reads].
      intros k l0 Hk. exact (Hstored k l0 Hk).
  - cbn [ret snd objects active_traces logged uuids_drawn clock_reads].
    rewrite Hl. cbn [ret snd]. now apply table_ok_counters.
Qed.

Lemma table_ok_trace_request x_trace_id host method url (s : state) :
  table_ok s ->
  table_ok (trace_request uuid4 time x_trace_id host method url s).2.
Proof.
  intros Hok. unfold trace_request.
  destruct (or_uuid_spec x_trace_id s) as (tid & n & Hor & _).
  unfold bind at 1. rewrite Hor.
  unfold bind at 1.
  assert (Hstart := table_ok_start_trace (Some tid) _
                      (table_ok_counters s n (clock_reads s) Hok)).
  destruct (start_trace uuid4 time (Some tid) _) as [context s1].
  cbn [snd] in Hstart.
  unfold bind at 1.
  assert (H1 := table_ok_set_tag context "http.method" (JString method) _ Hstart).
  destruct (set_tag context "http.method" _ s1) as [[] s2]. cbn [snd] in H1.
  unfold bind at 1.
  assert (H2 := table_ok_set_tag context "http.url" (JString url) _ H1).
  destruct (set_tag context "http.url" _ s2) as [[] s3]. cbn [snd] in H2.
  unfold bind at 1.
  assert (H3 := table_ok_set_tag context "http.host"
                  (JString (default EmptyString host)) _ H2).
  destruct (set_tag context "http.host" _ s3) as [[] s4]. cbn [snd] in H3.
  unfold bind at 1.
  assert (H4 := table_ok_log context "请求开始" ∅ _ H3).
  destruct (log time context "请求开始" ∅ s4) as [[] s5]. cbn [snd] in H4.
  exact H4.
Qed.

(** In every state a process reaches, the table is in order. *)
Lemma reachable_table_ok (s : state) :
  reachable uuid4 time s -> table_ok s.
Proof.
  induction 1 as [| s s' _ IH Hstep]; [exact table_ok_init |].
  destruct Hstep.
  - now apply table_ok_start_trace.
  - now apply table_ok_end_trace.
  - now apply table_ok_trace_request.
  - now apply table_ok_set_tag.
  - now apply table_ok_log.
Qed.

End Process.

(** C10. In every state a process reaches, [start_trace] called with a
    trace id that is already in the active-trace table allocates a new
    context (new, unfinished, without tags or logs, carrying that id) and
    files it under the id in place of the earlier one. The earlier
    context is dropped from the table as it is: the object is not touched
    (so [finish] was not called on it), no key of the table refers to it
    any more, and the logger receives no summary. *)
Theorem start_trace_replaces uuid4 time (s : state) (tid : string)
    (l_old : nat) :
  (forall n, uuid4 n <> EmptyString) ->
  reachable uuid4 time s ->
  active_traces s !! tid = Some l_old ->
  exists c_old l_new c_new s',
    start_trace uuid4 time (Some tid) s = (l_new, s')
    /\ objects s !! l_old = Some c_old
    /\ objects s !! l_new = None /\ l_new <> l_old
    /\ objects s' = <[l_new := c_new]> (objects s)
    /\ trace_id c_new = tid /\ end_time c_new = None
    /\ duration c_new = None /\ tags c_new = ∅ /\ logs c_new = []
    /\ active_traces s' = <[tid := l_new]> (active_traces s)
    /\ objects s' !! l_old = Some c_old
    /\ (forall k, active_traces s' !! k <> Some l_old)
    /\ logged s' = logged s.
Proof.
  intros Huuid Hreach Hold.
  pose proof (reachable_table_ok uuid4 time Huuid s Hreach) as Hok.
  destruct (Hok tid l_old Hold) as (Hne & c_old & Hobj & Hc_old).
  destruct (start_trace_spec uuid4 time Huuid (Some tid) s)
    as (tid' & c_new & n & m & Hrun & Hfresh & _ & Hgiven & Hc & He & Hd
        & Ht & Hl).
  cbn zeta in Hrun.
  assert (tid' = tid) as -> by (now apply Hgiven).
  set (l_new := fresh (dom (objects s))) in *.
  assert (Hdiff : l_new <> l_old) by (intros ->; congruence).
  exists c_old, l_new, c_new. eexists. split; [exact Hrun |].
  cbn [objects active_traces logged].
  repeat split; try assumption; try reflexivity.
  - now rewrite lookup_insert_ne.
  - intros k. destruct (decide (tid = k)) as [<- | Hk].
    + rewrite lookup_insert_eq. congruence.
    + rewrite lookup_insert_ne by exact Hk. intros Hk'.
      destruct (Hok k l_old Hk') as (_ & c & Hobj' & Hc').
      congruence.
Qed.

Lemma start_trace_replaces_witness :
  exists c_old l_new c_new s',
    start_trace Examples.uuid4 Examples.time (Some "trace-1")
                Examples.one_trace = (l_new, s')
    /\ objects Examples.one_trace !! 0%nat = Some c_old
    /\ objects Examples.one_trace !! l_new = None /\ l_new <> 0%nat
    /\ objects s' = <[l_new := c_new]> (objects Examples.one_trace)
    /\ trace_id c_new = "trace-1" /\ end_time c_new = None
    /\ duration c_new = None /\ tags c_new = ∅ /\ logs c_new = []
    /\ active_traces s'
       = <["trace-1" := l_new]> (active_traces Examples.one_trace)
    /\ objects s' !! 0%nat = Some c_old
    /\ (forall k, active_traces s' !! k <> Some 0%nat)
    /\ logged s' = logged Examples.one_trace.
Proof.
  apply (start_trace_replaces Examples.uuid4 Examples.time
           Examples.one_trace "trace-1" 0%nat).
  - intros n. discriminate.
  - apply (reachable_step _ _ init); [apply reachable_init |].
    apply (step_start_trace Examples.uuid4 Examples.time (Some "trace-1")).
  - vm_compute. reflexivity.
Defined.

End MonitoringFacts.

(** ** The user API *)
Module UserApiFacts.
Import Response Base Security UserApi.

(** *** Queries *)

Lemma least_id_None (rows : list (Z * User)) :
  least_id rows = None <-> rows = [].
Proof.
  destruct rows as [| r rs]; cbn; [tauto |].
  split; [| discriminate].
  destruct (least_id rs) as [r' |]; [destruct (r.1 <=? r'.1) |]; discriminate.
Qed.

Lemma least_id_Some (rows : list (Z * User)) (r : Z * User) :
  least_id rows = Some r -> r ∈ rows.
Proof.
  revert r. induction rows as [| r0 rs IH]; intros r; cbn; [discriminate |].
  destruct (least_id rs) as [r' |].
  - destruct (r0.1 <=? r'.1); intros [= <-].
    + apply elem_of_cons. now left.
    + apply elem_of_cons. right. now apply IH.
  - intros [= <-]. apply elem_of_cons. now left.
Qed.

(** The lookup by user name finds nothing exactly when no row has it. *)
Lemma first_by_username_None (x : string) (db : table) :
  first_by_username x db = None <->
  forall k u, db !! k = Some u -> username u <> x.
Proof.
  unfold first_by_username. rewrite fmap_None, least_id_None. split.
  - intros Hnil k u Hk Hx.
    apply (filter_nil_not_elem_of _ _ (k, u) Hnil); [exact Hx |].
    now apply elem_of_map_to_list.
  - intros Hnone. apply elem_of_nil_inv. intros [k u] Hin.
    apply list_elem_of_filter in Hin as [Hx Hin].
    apply elem_of_map_to_list in Hin. exact (Hnone k u Hin Hx).
Qed.

(** What it finds is a stored row with that user name. *)
Lemma first_by_username_Some (x : string) (db : table) (u : User) :
  first_by_username x db = Some u ->
  username u = x /\ exists k, db !! k = Some u.
Proof.
  unfold first_by_username. intros Hfind.
  apply fmap_Some in Hfind as ([k u'] & Hleast & ->).
  apply least_id_Some, list_elem_of_filter in Hleast as [Hx Hin].
  split; [exact Hx |]. exists k. now apply elem_of_map_to_list.
Qed.

Lemma least_id_le (rows : list (Z * User)) (r r' : Z * User) :
  least_id rows = Some r -> r' ∈ rows -> r.1 <= r'.1.
Proof.
  revert r. induction rows as [| r0 rs IH]; intros r Hleast Hin.
  - now apply elem_of_nil in Hin.
  - cbn in Hleast. destruct (least_id rs) as [r1 |] eqn:Hrs.
    + specialize (IH r1 eq_refl).
      apply elem_of_cons in Hin as [-> | Hin].
      * destruct (Z.leb_spec r0.1 r1.1); injection Hleast as <-; lia.
      * specialize (IH Hin).
        destruct (Z.leb_spec r0.1 r1.1); injection Hleast as <-; lia.
    + injection Hleast as <-. apply least_id_None in Hrs. subst rs.
      apply elem_of_cons in Hin as [-> | Hin]; [lia |].
      now apply elem_of_nil in Hin.
Qed.

(** It is the row with the least key among those with that user name. *)
Lemma first_by_username_least (x : string) (db : table) (k : Z) (u : User) :
  db !! k = Some u -> username u = x ->
  (forall k' u', db !! k' = Some u' -> username u' = x -> k <= k') ->
  first_by_username x db = Some u.
Proof.
  intros Hk Hx Hleast. unfold first_by_username.
  destruct (least_id _) as [[k0 u0] |] eqn:Hrows.
  - pose proof (least_id_le _ _ (k, u) Hrows) as Hle.
    apply least_id_Some, list_elem_of_filter in Hrows as [Hx0 Hin0].
    apply elem_of_map_to_list in Hin0. cbn [fst snd] in *.
    assert (k0 <= k) as Hle1.
    { apply Hle. apply list_elem_of_filter. split; [exact Hx |].
      now apply elem_of_map_to_list. }
    pose proof (Hleast k0 u0 Hin0 Hx0).
    assert (k0 = k) as -> by lia.
    cbn. congruence.
  - exfalso. apply least_id_None in Hrows.
    apply (filter_nil_not_elem_of _ _ (k, u) Hrows); [exact Hx |].
    now apply elem_of_map_to_list.
Qed.

Lemma first_by_username_exists (x : string) (db : table) k u :
  db !! k = Some u -> username u = x ->
  exists u', first_by_username x db = Some u'.
Proof.
  intros Hk Hx. destruct (first_by_username x db) as [u' |] eqn:Hfind.
  - now exists u'.
  - exfalso. exact (proj1 (first_by_username_None x db) Hfind k u Hk Hx).
Qed.

Lemma foldr_max_ge (l : list Z) (a x : Z) :
  x = a \/ x ∈ l -> x <= foldr Z.max a l.
Proof.
  induction l as [| y l IH]; cbn.
  - intros [-> | Hin]; [lia | now apply elem_of_nil in Hin].
  - intros [-> | Hin].
    + specialize (IH (or_introl eq_refl)). lia.
    + apply elem_of_cons in Hin as [-> | Hin]; [lia |].
      specialize (IH (or_intror Hin)). lia.
Qed.

(** The key of the next row is above every key in use. *)
Lemma next_id_above (db : table) k u :
  db !! k = Some u -> k < next_id db.
Proof.
  intros Hk. apply elem_of_map_to_list in Hk. unfold next_id.
  destruct (map_to_list db) as [| r rs]; [now apply elem_of_nil in Hk |].
  apply elem_of_cons in Hk as [<- | Hin].
  - pose proof (foldr_max_ge (fst <$> rs) k k (or_introl eq_refl)).
    cbn [fst]. lia.
  - assert (k <= foldr Z.max r.1 (fst <$> rs)); [| lia].
    apply foldr_max_ge. right.
    apply list_elem_of_fmap. now exists (k, u).
Qed.

Lemma next_id_fresh (db : table) : db !! next_id db = None.
Proof.
  destruct (db !! next_id db) as [u |] eqn:Hk; [| reflexivity].
  apply next_id_above in Hk. lia.
Qed.

(** *** Updates *)

(** The dictionary of a request that supplied exactly the name. *)
Lemma model_dump_only_name (data : Schemas.UserInSchema) :
  (forall f, f ∈ Schemas.model_fields_set data <-> f = Schemas.FName) ->
  Schemas.model_dump_exclude_unset data = [Schemas.EName (Schemas.name data)].
Proof.
  intros Hset. unfold Schemas.model_dump_exclude_unset.
  rewrite filter_cons_True by (now apply Hset).
  rewrite !filter_cons_False by (rewrite Hset; discriminate).
  reflexivity.
Qed.

(** [setattr] touches neither key nor time stamps nor the superuser
    flag. *)
Lemma sqlmodel_update_frame (u : User) (d : list Schemas.entry) :
  id (sqlmodel_update u d) = id u
  /\ created_time (sqlmodel_update u d) = created_time u
  /\ updated_time (sqlmodel_update u d) = updated_time u
  /\ is_superuser (sqlmodel_update u d) = is_superuser u.
Proof.
  unfold sqlmodel_update. revert u.
  induction d as [| e d IH]; intros u; [now cbn |].
  cbn [foldl]. destruct (IH (setattr u e)) as (-> & -> & -> & ->).
  now destruct e.
Qed.

(** A supplied password is the one left in the object, as supplied. *)
Lemma sqlmodel_update_password (data : Schemas.UserInSchema) (u : User) :
  Schemas.FPassword ∈ Schemas.model_fields_set data ->
  password (sqlmodel_update u (Schemas.model_dump_exclude_unset data))
  = Schemas.password data.
Proof.
  intros Hset. unfold Schemas.model_dump_exclude_unset, sqlmodel_update.
  rewrite (filter_cons _ Schemas.FName), (filter_cons _ Schemas.FUsername).
  rewrite (filter_cons_True _ Schemas.FPassword) by exact Hset.
  rewrite (filter_cons _ Schemas.FStatus), (filter_cons _ Schemas.FDescription).
  rewrite filter_nil.
  repeat case_decide; reflexivity.
Qed.

(** What a successful [PUT] leaves in the table. *)
Lemma update_stored (data : Schemas.UserInSchema) (k : Z)
    (now : Datetime.datetime) (db : table) (u : User) :
  db !! k = Some u -> is_superuser u = false ->
  (update data k now db).1.2
  = <[k := set_updated_time
             (sqlmodel_update u (Schemas.model_dump_exclude_unset data))
             (Datetime.str_datetime now)]> db.
Proof. intros Hk Hsu. unfold update. now rewrite Hk, Hsu. Qed.

(** *** The handlers *)

(** C2. For a stored superuser, [PUT /user/{id}] and [DELETE /user/{id}]
    both return the Error envelope (superuser cannot be modified, cannot
    be deleted) and hand back the table as it was: no field of the row
    changes, [updated_time] included, and the row is not deleted. *)
Theorem superuser_is_protected (data : Schemas.UserInSchema) (k : Z)
    (now : Datetime.datetime) (db : table) (u : User) :
  db !! k = Some u -> is_superuser u = true ->
  update data k now db
  = (Returns (ErrorResponse "超级管理员不允许修改" None None), db,
     [Logged (Logger.warning "超级管理员不允许修改")])
  /\ delete k db
     = (Returns (ErrorResponse "超级管理员不允许删除" None None), db,
        [Logged (Logger.warning "超级管理员不允许删除")]).
Proof.
  intros Hk Hsu. unfold update, delete. now rewrite Hk, Hsu.
Qed.

Lemma superuser_is_protected_witness :
  update Examples.change_password 1 Examples.now0 Examples.db0
  = (Returns (ErrorResponse "超级管理员不允许修改" None None), Examples.db0,
     [Logged (Logger.warning "超级管理员不允许修改")])
  /\ delete 1 Examples.db0
     = (Returns (ErrorResponse "超级管理员不允许删除" None None), Examples.db0,
        [Logged (Logger.warning "超级管理员不允许删除")]).
Proof.
  apply (superuser_is_protected Examples.change_password 1 Examples.now0
           Examples.db0 Examples.root); reflexivity.
Defined.

(** C4. For a stored user who is no superuser, a [PUT /user/{id}] whose
    body supplies the name and nothing else succeeds and writes back the
    same row with the new name and a new [updated_time]; id, user name,
    password, status, description, superuser flag and [created_time]
    are those of before, and every other row of the table is as
    before. *)
Theorem update_only_name (data : Schemas.UserInSchema) (k : Z)
    (now : Datetime.datetime) (db : table) (u : User) :
  db !! k = Some u -> is_superuser u = false ->
  (forall f, f ∈ Schemas.model_fields_set data <-> f = Schemas.FName) ->
  let u' :=
    mk_User (id u) (created_time u) (Datetime.str_datetime now)
            (Schemas.name data) (username u) (password u) (status u)
            (description u) (is_superuser u) in
  update data k now db
  = (Returns (SuccessResponse (Schemas.UserOutSchema_dump u')),
     <[k := u']> db,
     [Logged (Logger.info ("更新用户" +:+ pretty k +:+ "成功"))])
  /\ (update data k now db).1.2 !! k = Some u'
  /\ forall k', k' <> k -> (update data k now db).1.2 !! k' = db !! k'.
Proof.
  intros Hk Hsu Hset u'.
  assert (Hrun : update data k now db
    = (Returns (SuccessResponse (Schemas.UserOutSchema_dump u')),
       <[k := u']> db,
       [Logged (Logger.info ("更新用户" +:+ pretty k +:+ "成功"))])).
  { unfold update. rewrite Hk, Hsu.
    rewrite (model_dump_only_name data Hset). reflexivity. }
  rewrite Hrun. cbn [fst snd].
  split; [reflexivity |]. split; [apply lookup_insert_eq |].
  intros k' Hne. now apply lookup_insert_ne.
Qed.

Lemma update_only_name_witness :
  let u' :=
    mk_User (Some 2) "2024-02-03 10:00:00" "2024-05-06 23:45:09.123456"
            "Alice Liddell" "alice" "$hash$wonderland" true (Some "ops")
            false in
  update Examples.rename_alice 2 Examples.now0 Examples.db0
  = (Returns (SuccessResponse (Schemas.UserOutSchema_dump u')),
     <[2 := u']> Examples.db0,
     [Logged (Logger.info ("更新用户" +:+ pretty 2 +:+ "成功"))])
  /\ (update Examples.rename_alice 2 Examples.now0 Examples.db0).1.2 !! 2
     = Some u'
  /\ forall k', k' <> 2 ->
       (update Examples.rename_alice 2 Examples.now0 Examples.db0).1.2 !! k'
       = Examples.db0 !! k'.
Proof.
  apply (update_only_name Examples.rename_alice 2 Examples.now0 Examples.db0
           Examples.alice); [reflexivity | reflexivity |].
  intros f. cbn [Schemas.model_fields_set Examples.rename_alice].
  apply list_elem_of_singleton.
Defined.

(** The rows of the example table. *)
Lemma db0_rows (k : Z) (u : User) :
  Examples.db0 !! k = Some u ->
  (k = 1 /\ u = Examples.root) \/ (k = 2 /\ u = Examples.alice)
  \/ (k = 3 /\ u = Examples.bob).
Proof.
  unfold Examples.db0. intros Hk.
  apply lookup_insert_Some in Hk as [[<- <-] | [_ Hk]]; [now left |].
  apply lookup_insert_Some in Hk as [[<- <-] | [_ Hk]]; [now right; left |].
  apply lookup_insert_Some in Hk as [[<- <-] | [_ Hk]]; [now right; right |].
  now rewrite lookup_empty in Hk.
Qed.

Section Login.

Context `{Security}.
Variable settings : Config.Settings.

(** The three ways [login] ends once the lookup is made. *)
Lemma login_unknown (request : Request)
    (login_form : OAuth2PasswordRequestForm) (now : Datetime.datetime)
    (db : table) :
  first_by_username (form_username login_form) db = None ->
  login settings request login_form now db
  = (Returns (ErrorResponse "用户不存在" None None),
     [Logged (Logger.warning
                ("用户" +:+ form_username login_form +:+ "不存在"))]).
Proof. intros Hfind. unfold login. now rewrite Hfind. Qed.

Lemma login_disabled (request : Request)
    (login_form : OAuth2PasswordRequestForm) (now : Datetime.datetime)
    (db : table) (u : User) :
  first_by_username (form_username login_form) db = Some u ->
  status u = false ->
  login settings request login_form now db
  = (Returns (ErrorResponse "用户已禁用" None None),
     [Logged (Logger.warning
                ("用户" +:+ form_username login_form +:+ "已禁用"))]).
Proof. intros Hfind Hoff. unfold login. now rewrite Hfind, Hoff. Qed.

Lemma login_verified (request : Request)
    (login_form : OAuth2PasswordRequestForm) (now expiry : Datetime.datetime)
    (access_expires : Datetime.timedelta) (db : table) (u : User) :
  first_by_username (form_username login_form) db = Some u ->
  status u = true ->
  verify_password (form_password login_form) (password u) = true ->
  Datetime.timedelta_minutes (Config.ACCESS_TOKEN_EXPIRE_MINUTES settings)
  = inr access_expires ->
  Datetime.datetime_add now access_expires = inr expiry ->
  let payload :=
    mk_JWTPayloadSchema (form_username login_form) expiry None None None in
  let token :=
    Schemas.JWTOutSchema_dump
      (mk_JWTOutSchema (create_access_token payload)
         (Config.TOKEN_TYPE settings)
         (Datetime.total_seconds access_expires)) in
  let effects :=
    [IssuedToken payload;
     Logged (Logger.info
               ("用户" +:+ form_username login_form +:+ "登录成功"))] in
  login settings request login_form now db
  = if contains "docs" (default EmptyString (headers request !! "referer"))
    then (ReturnsDict token, effects)
    else (Returns (SuccessResponse token), effects).
Proof.
  intros Hfind Hon Hpw Htd Hadd.
  destruct (first_by_username_Some _ _ _ Hfind) as (Hname & _).
  unfold login. rewrite Hfind, Hon, Hpw, Htd, Hadd. cbn [negb].
  rewrite Hname. now destruct (contains _ _).
Qed.

(** C5, as the code has it. A login whose user name no stored user
    has, or for which the stored user with that name is disabled (of
    several stored users with that name, the one with the least id:
    the row the lookup returns), returns the Error envelope and issues
    no token; this holds whatever the password and whatever
    [verify_password] says of it. *)
Theorem login_refused (request : Request)
    (login_form : OAuth2PasswordRequestForm) (now : Datetime.datetime)
    (db : table) :
  (forall k u, db !! k = Some u -> username u <> form_username login_form)
  \/ (exists k u,
        db !! k = Some u /\ username u = form_username login_form
        /\ status u = false
        /\ forall k' u', db !! k' = Some u' ->
                         username u' = form_username login_form -> k <= k') ->
  exists message effects,
    login settings request login_form now db
    = (Returns (ErrorResponse message None None), effects)
    /\ (message = "用户不存在" \/ message = "用户已禁用")
    /\ issued_tokens effects = [].
Proof.
  intros [Hnone | (k & u & Hk & Hx & Hoff & Hleast)].
  - apply first_by_username_None in Hnone.
    rewrite (login_unknown request login_form now db Hnone).
    eexists _, _. split; [reflexivity |]. split; [now left | reflexivity].
  - pose proof (first_by_username_least _ db k u Hk Hx Hleast) as Hfind.
    rewrite (login_disabled request login_form now db u Hfind Hoff).
    eexists _, _. split; [reflexivity |]. split; [now right | reflexivity].
Qed.

(** The same for a disabled stored user whose user name no other row
    has. *)
Lemma login_refused_disabled (request : Request)
    (login_form : OAuth2PasswordRequestForm) (now : Datetime.datetime)
    (db : table) (k : Z) (u : User) :
  db !! k = Some u -> username u = form_username login_form ->
  status u = false ->
  (forall k' u', db !! k' = Some u' ->
                 username u' = form_username login_form -> k' = k) ->
  exists message effects,
    login settings request login_form now db
    = (Returns (ErrorResponse message None None), effects)
    /\ issued_tokens effects = [].
Proof.
  intros Hk Hx Hoff Huniq.
  destruct (first_by_username_exists _ db k u Hk Hx) as (u' & Hfind).
  destruct (first_by_username_Some _ _ _ Hfind) as (Hx' & k' & Hk').
  assert (k' = k) as -> by (now apply (Huniq k' u')).
  assert (u' = u) as -> by congruence.
  rewrite (login_disabled request login_form now db u Hfind Hoff).
  now eexists _, _.
Qed.

(** A wrong password is refused too. *)
Lemma login_wrong_password (request : Request)
    (login_form : OAuth2PasswordRequestForm) (now : Datetime.datetime)
    (db : table) (u : User) :
  first_by_username (form_username login_form) db = Some u ->
  status u = true ->
  verify_password (form_password login_form) (password u) = false ->
  login settings request login_form now db
  = (Returns (ErrorResponse "密码错误" None None),
     [Logged (Logger.warning
                ("用户 " +:+ form_username login_form +:+ " 密码错误"))]).
Proof. intros Hfind Hon Hpw. unfold login. now rewrite Hfind, Hon, Hpw. Qed.

(** C6, as the code has it. Take a login with the user name of an
    enabled stored user (of several stored users with that name, the
    one with the least id: the row the lookup returns) and a password
    that verifies against its hash, at a time when the time of issue
    plus [ACCESS_TOKEN_EXPIRE_MINUTES] minutes is a date [datetime] can
    hold. It returns the dictionary with exactly the keys
    [access_token], [token_type] and [expires_in], bare when the referer
    mentions the API documentation and in the Success envelope
    otherwise. The access token is [create_access_token] of the payload
    whose subject is the user name and whose expiry is the time of issue
    plus [ACCESS_TOKEN_EXPIRE_MINUTES] minutes, and no other token is
    made; the type is [TOKEN_TYPE]; [expires_in] is
    [ACCESS_TOKEN_EXPIRE_MINUTES * 60] seconds. *)
Theorem login_issues_token (request : Request)
    (login_form : OAuth2PasswordRequestForm) (now expiry : Datetime.datetime)
    (access_expires : Datetime.timedelta) (db : table) (k : Z) (u : User) :
  db !! k = Some u -> username u = form_username login_form ->
  (forall k' u', db !! k' = Some u' ->
                 username u' = form_username login_form -> k <= k') ->
  status u = true ->
  verify_password (form_password login_form) (password u) = true ->
  Datetime.timedelta_minutes (Config.ACCESS_TOKEN_EXPIRE_MINUTES settings)
  = inr access_expires ->
  Datetime.datetime_add now access_expires = inr expiry ->
  let payload :=
    mk_JWTPayloadSchema (username u) expiry None None None in
  exists expires_in effects,
    let login_token :=
      JObject [("access_token", JString (create_access_token payload));
               ("token_type", JString (Config.TOKEN_TYPE settings));
               ("expires_in", JNumber expires_in)] in
    (login settings request login_form now db
     = (Returns (SuccessResponse login_token), effects)
     \/ login settings request login_form now db
        = (ReturnsDict login_token, effects))
    /\ issued_tokens effects = [payload]
    /\ Datetime.datetime_to_microseconds expiry
       = Datetime.datetime_to_microseconds now
         + Config.ACCESS_TOKEN_EXPIRE_MINUTES settings * 60 * 1000000
    /\ (expires_in
        == inject_Z (Config.ACCESS_TOKEN_EXPIRE_MINUTES settings * 60))%Q.
Proof.
  intros Hk Hx Hleast Hon Hpw Htd Hadd payload.
  pose proof (first_by_username_least _ db k u Hk Hx Hleast) as Hfind.
  rewrite (login_verified request login_form now expiry access_expires db u
             Hfind Hon Hpw Htd Hadd).
  subst payload. rewrite Hx.
  exists (Datetime.total_seconds access_expires). eexists. split.
  - destruct (contains _ _); [right | left]; reflexivity.
  - split; [reflexivity |]. split.
    + rewrite (DatetimeFacts.datetime_add_linear _ _ _ Hadd).
      now rewrite (DatetimeFacts.timedelta_of_microseconds_inv _ _ Htd).
    + now apply DatetimeFacts.timedelta_minutes_total_seconds.
Qed.

(** For a clock before year 9999 and an expiry setting of at most
    thirty days, the token is issued. *)
Lemma login_issues_token_in_range (request : Request)
    (login_form : OAuth2PasswordRequestForm) (now : Datetime.datetime)
    (db : table) (u : User) :
  first_by_username (form_username login_form) db = Some u ->
  status u = true ->
  verify_password (form_password login_form) (password u) = true ->
  Datetime.valid_datetime now -> Datetime.year now <= 9998 ->
  0 <= Config.ACCESS_TOKEN_EXPIRE_MINUTES settings <= 43200 ->
  exists expiry token effects,
    (login settings request login_form now db
     = (Returns (SuccessResponse token), effects)
     \/ login settings request login_form now db
        = (ReturnsDict token, effects))
    /\ json_get "access_token" token
       = Some (JString
                 (create_access_token
                    (mk_JWTPayloadSchema (form_username login_form) expiry
                                         None None None)))
    /\ Datetime.valid_datetime expiry
    /\ Datetime.datetime_to_microseconds expiry
       = Datetime.datetime_to_microseconds now
         + Config.ACCESS_TOKEN_EXPIRE_MINUTES settings * 60 * 1000000.
Proof.
  intros Hfind Hon Hpw Hvalid Hyear Hmin.
  destruct (DatetimeFacts.expiry_defined now _ Hvalid Hyear Hmin)
    as (access_expires & expiry & Htd & Hadd).
  rewrite (login_verified request login_form now expiry access_expires db u
             Hfind Hon Hpw Htd Hadd).
  exists expiry. eexists _, _. split.
  - destruct (contains _ _); [right | left]; reflexivity.
  - split; [reflexivity |].
    split; [exact (DatetimeFacts.datetime_add_valid _ _ _ Hadd) |].
    rewrite (DatetimeFacts.datetime_add_linear _ _ _ Hadd).
    now rewrite (DatetimeFacts.timedelta_of_microseconds_inv _ _ Htd).
Qed.

(** C7. [POST /user] with the user name of a stored user returns the
    Error envelope and leaves the table as it was. With a user name no
    stored user has, it adds one row under a key that was free, keeps
    all other rows, stores the hash of the password, and answers with
    the row without its password field. *)
Theorem create_checks_username (data : Schemas.UserInSchema)
    (now_created now_updated : Datetime.datetime) (db : table) :
  ((exists k u, db !! k = Some u /\ username u = Schemas.username data) ->
   exists message effects,
     create data now_created now_updated db
     = (Returns (ErrorResponse message None None), db, effects))
  /\ ((forall k u, db !! k = Some u -> username u <> Schemas.username data) ->
      exists k row effects,
        create data now_created now_updated db
        = (Returns (SuccessResponse (Schemas.UserOutSchema_dump row)),
           <[k := row]> db, effects)
        /\ db !! k = None
        /\ id row = Some k
        /\ username row = Schemas.username data
        /\ name row = Schemas.name data
        /\ password row = set_password_hash (Schemas.password data)
        /\ json_get "password" (Schemas.UserOutSchema_dump row) = None).
Proof.
  split.
  - intros (k & u & Hk & Hx).
    destruct (first_by_username_exists _ db k u Hk Hx) as (u' & Hfind).
    unfold create. rewrite Hfind. now eexists _, _.
  - intros Hnone. apply first_by_username_None in Hnone.
    unfold create. rewrite Hnone.
    eexists _, _, _. split; [reflexivity |].
    split; [apply next_id_fresh |]. repeat split.
Qed.

End Login.

Lemma login_refused_witness :
  exists message effects,
    login (H := Examples.toy_security) Examples.settings
          Examples.plain_request Examples.bob_form Examples.now0 Examples.db0
    = (Returns (ErrorResponse message None None), effects)
    /\ (message = "用户不存在" \/ message = "用户已禁用")
    /\ issued_tokens effects = [].
Proof.
  apply (login_refused (H := Examples.toy_security) Examples.settings
           Examples.plain_request Examples.bob_form Examples.now0
           Examples.db0).
  right. exists 3, Examples.bob.
  split; [reflexivity |]. split; [reflexivity |]. split; [reflexivity |].
  intros k' u' Hk' Hx'. apply db0_rows in Hk'.
  destruct Hk' as [[-> ->] | [[-> ->] | [-> ->]]];
    [discriminate Hx' | discriminate Hx' | lia].
Defined.

(** C5 as it is worded (the user name matches a stored user whose
    status is false) does not hold: in [Examples.two_alices], which
    [POST /user] and [PUT /user/4] leave, the row of id 4 is disabled,
    has the user name alice and a hash the password verifies against,
    and the login is answered from the enabled row of id 2 with a
    token. *)
Lemma login_refused_counterexample :
  (exists u,
     Examples.two_alices !! 4 = Some u
     /\ username u = form_username Examples.alice_form
     /\ status u = false
     /\ verify_password (Security := Examples.toy_security)
          (form_password Examples.alice_form) (password u) = true)
  /\ exists token effects,
       login (H := Examples.toy_security) Examples.settings
             Examples.plain_request Examples.alice_form Examples.now0
             Examples.two_alices
       = (Returns (SuccessResponse token), effects)
       /\ json_get "access_token" token = Some (JString "jwt.alice")
       /\ issued_tokens effects <> [].
Proof.
  split.
  - exists Examples.eve. repeat split.
  - eexists _, _. split; [vm_compute; reflexivity |].
    split; [reflexivity | discriminate].
Qed.

Lemma login_issues_token_witness :
  let expiry := Datetime.mk_datetime 2024 5 7 0 15 9 123456 in
  let payload := mk_JWTPayloadSchema "alice" expiry None None None in
  exists expires_in effects,
    let login_token :=
      JObject [("access_token", JString "jwt.alice");
               ("token_type", JString "bearer");
               ("expires_in", JNumber expires_in)] in
    (login (H := Examples.toy_security) Examples.settings
           Examples.plain_request Examples.alice_form Examples.now0
           Examples.db0
     = (Returns (SuccessResponse login_token), effects)
     \/ login (H := Examples.toy_security) Examples.settings
              Examples.plain_request Examples.alice_form Examples.now0
              Examples.db0
        = (ReturnsDict login_token, effects))
    /\ issued_tokens effects = [payload]
    /\ Datetime.datetime_to_microseconds expiry
       = Datetime.datetime_to_microseconds Examples.now0
         + 30 * 60 * 1000000
    /\ (expires_in == inject_Z (30 * 60))%Q.
Proof.
  apply (login_issues_token (H := Examples.toy_security) Examples.settings
           Examples.plain_request Examples.alice_form Examples.now0
           (Datetime.mk_datetime 2024 5 7 0 15 9 123456)
           (Datetime.mk_timedelta 0 1800 0) Examples.db0 2 Examples.alice);
    try reflexivity.
  intros k' u' Hk' Hx'. apply db0_rows in Hk'.
  destruct Hk' as [[-> ->] | [[-> ->] | [-> ->]]];
    [discriminate Hx' | lia | discriminate Hx'].
Defined.

(** C6 as it is worded (correct credentials of an enabled user) does
    not hold. In [Examples.two_bobs], which [POST /user] and
    [PUT /user/4] leave, the row of id 4 is enabled, has the user name
    bob and a hash the password verifies against, and the login is
    answered from the disabled row of id 3 with the Error envelope. And
    in the last half hour [datetime] can hold, the time of expiry
    cannot be computed: the login of alice with her password raises the
    Except envelope. *)
Lemma login_issues_token_counterexample :
  ((exists u,
      Examples.two_bobs !! 4 = Some u
      /\ username u = form_username Examples.dave_form
      /\ status u = true
      /\ verify_password (Security := Examples.toy_security)
           (form_password Examples.dave_form) (password u) = true)
   /\ exists effects,
        login (H := Examples.toy_security) Examples.settings
              Examples.plain_request Examples.dave_form Examples.now0
              Examples.two_bobs
        = (Returns (ErrorResponse "用户已禁用" None None), effects)
        /\ issued_tokens effects = [])
  /\ ((exists u,
         Examples.db0 !! 2 = Some u
         /\ username u = form_username Examples.alice_form
         /\ status u = true
         /\ verify_password (Security := Examples.toy_security)
              (form_password Examples.alice_form) (password u) = true)
      /\ exists effects,
           login (H := Examples.toy_security) Examples.settings
                 Examples.plain_request Examples.alice_form
                 Examples.last_evening Examples.db0
           = (Raises (ExceptResponse "系统异常: date value out of range" None),
              effects)
           /\ issued_tokens effects = []).
Proof.
  split; split.
  - exists Examples.dave. repeat split.
  - eexists. split; [vm_compute; reflexivity | reflexivity].
  - exists Examples.alice. repeat split.
  - eexists. split; [vm_compute; reflexivity | reflexivity].
Qed.

Lemma create_checks_username_witness :
  (exists message effects,
     create (H := Examples.toy_security) Examples.change_password
            Examples.now0 Examples.now0 Examples.db0
     = (Returns (ErrorResponse message None None), Examples.db0, effects))
  /\ (exists k row effects,
        create (H := Examples.toy_security) Examples.new_carol
               Examples.now0 Examples.now0 Examples.db0
        = (Returns (SuccessResponse (Schemas.UserOutSchema_dump row)),
           <[k := row]> Examples.db0, effects)
        /\ Examples.db0 !! k = None
        /\ id row = Some k
        /\ username row = "carol"
        /\ name row = "Carol"
        /\ password row = "$hash$s3cret"
        /\ json_get "password" (Schemas.UserOutSchema_dump row) = None).
Proof.
  split.
  - apply (proj1 (create_checks_username (H := Examples.toy_security)
                    Examples.change_password Examples.now0 Examples.now0
                    Examples.db0)).
    exists 2, Examples.alice. split; reflexivity.
  - apply (proj2 (create_checks_username (H := Examples.toy_security)
                    Examples.new_carol Examples.now0 Examples.now0
                    Examples.db0)).
    intros k u Hk.
    assert (Hrows : (k, u) ∈ map_to_list Examples.db0)
      by (now apply elem_of_map_to_list).
    vm_compute in Hrows.
    repeat (apply elem_of_cons in Hrows as [[= -> ->] | Hrows];
            [discriminate |]).
    now apply elem_of_nil in Hrows.
Defined.

(** *** Passwords and time stamps in the table *)

(** [POST /user] stores the hash and time stamps of the data model. *)
Lemma create_row_well_formed `{Security} (data : Schemas.UserInSchema)
    (now_created now_updated : Datetime.datetime) (db : table) (k : Z)
    (row : User) :
  db !! k = None ->
  (create data now_created now_updated db).1.2 !! k = Some row ->
  password row = set_password_hash (Schemas.password data)
  /\ Datetime.is_timestamp (created_time row) = true
  /\ Datetime.is_timestamp (updated_time row) = true.
Proof.
  intros Hfree. unfold create.
  destruct (first_by_username _ db); cbn [fst snd]; [congruence |].
  destruct (decide (next_id db = k)) as [<- | Hne].
  - rewrite lookup_insert_eq. intros [= <-].
    cbn [password created_time updated_time set_id model_validate
         default_time Schemas.password Schemas.set_password].
    repeat split; apply DatetimeFacts.strftime_is_timestamp.
  - rewrite lookup_insert_ne by exact Hne. congruence.
Qed.

(** [PUT /user/{id}] with a password in the body stores that password
    as it came. *)
Lemma update_password_as_supplied (data : Schemas.UserInSchema) (k : Z)
    (now : Datetime.datetime) (db : table) (u : User) :
  db !! k = Some u -> is_superuser u = false ->
  Schemas.FPassword ∈ Schemas.model_fields_set data ->
  exists row,
    (update data k now db).1.2 !! k = Some row
    /\ password row = Schemas.password data.
Proof.
  intros Hk Hsu Hset. rewrite (update_stored data k now db u Hk Hsu).
  rewrite lookup_insert_eq. eexists. split; [reflexivity |].
  cbn [password set_updated_time].
  now apply sqlmodel_update_password.
Qed.

(** [PUT /user/{id}] stamps the row with [str(datetime.now())], which is
    no time stamp of the data model unless the clock is on a whole
    second. *)
Lemma update_updated_time (data : Schemas.UserInSchema) (k : Z)
    (now : Datetime.datetime) (db : table) (u : User) :
  db !! k = Some u -> is_superuser u = false ->
  exists row,
    (update data k now db).1.2 !! k = Some row
    /\ updated_time row = Datetime.str_datetime now
    /\ (Datetime.microsecond now <> 0 ->
        Datetime.is_timestamp (updated_time row) = false).
Proof.
  intros Hk Hsu. rewrite (update_stored data k now db u Hk Hsu).
  rewrite lookup_insert_eq. eexists. split; [reflexivity |].
  cbn [updated_time set_updated_time]. split; [reflexivity |].
  apply DatetimeFacts.str_datetime_not_timestamp.
Qed.

(** *** Primary keys *)

Lemma create_keyed `{Security} (data : Schemas.UserInSchema)
    (now_created now_updated : Datetime.datetime) (db : table) :
  keyed db -> keyed (create data now_created now_updated db).1.2.
Proof.
  intros Hdb. unfold create.
  destruct (first_by_username _ db); cbn [fst snd]; [exact Hdb |].
  intros k u. destruct (decide (next_id db = k)) as [<- | Hne].
  - rewrite lookup_insert_eq. now intros [= <-].
  - rewrite lookup_insert_ne by exact Hne. apply Hdb.
Qed.

Lemma update_keyed (data : Schemas.UserInSchema) (k : Z)
    (now : Datetime.datetime) (db : table) :
  keyed db -> keyed (update data k now db).1.2.
Proof.
  intros Hdb. unfold update.
  destruct (db !! k) as [u |] eqn:Hk; cbn [fst snd]; [| exact Hdb].
  destruct (is_superuser u); cbn [fst snd]; [exact Hdb |].
  intros k' u'. destruct (decide (k = k')) as [<- | Hne].
  - rewrite lookup_insert_eq. intros [= <-].
    cbn [id set_updated_time].
    destruct (sqlmodel_update_frame u (Schemas.model_dump_exclude_unset data))
      as (-> & _).
    now apply Hdb.
  - rewrite lookup_insert_ne by exact Hne. apply Hdb.
Qed.

Lemma delete_keyed (k : Z) (db : table) :
  keyed db -> keyed (delete k db).1.2.
Proof.
  intros Hdb. unfold delete.
  destruct (db !! k) as [u |] eqn:Hk; cbn [fst snd]; [| exact Hdb].
  destruct (is_superuser u); cbn [fst snd]; [exact Hdb |].
  intros k' u' Hk'. apply lookup_delete_Some in Hk' as [_ Hk'].
  now apply Hdb.
Qed.

(** C1. The password invariant fails on [PUT /user/{id}]: the request
    that changes Alice's password to [hunter2] leaves [hunter2] itself
    in her row, where [POST /user] would have stored its hash. *)
Theorem update_keeps_plaintext_password :
  exists row,
    (update Examples.change_password 2 Examples.now0 Examples.db0).1.2 !! 2
    = Some row
    /\ password row = "hunter2"
    /\ password row
       <> Security.set_password_hash (Security := Examples.toy_security)
            "hunter2".
Proof.
  destruct (update_password_as_supplied Examples.change_password 2
              Examples.now0 Examples.db0 Examples.alice)
    as (row & Hrow & Hpw).
  - reflexivity.
  - reflexivity.
  - cbn. rewrite !elem_of_cons. tauto.
  - exists row. split; [exact Hrow |]. rewrite Hpw. split; [reflexivity |].
    discriminate.
Qed.

(** C8. The time-stamp invariant fails on [PUT /user/{id}]: an update
    made at 23:45:09.123456 leaves [2024-05-06 23:45:09.123456] in
    [updated_time], which is not of the form [YYYY-MM-DD HH:MM:SS]. *)
Theorem update_breaks_timestamp_format :
  exists row,
    (update Examples.rename_alice 2 Examples.now0 Examples.db0).1.2 !! 2
    = Some row
    /\ updated_time row = "2024-05-06 23:45:09.123456"
    /\ Datetime.is_timestamp (updated_time row) = false.
Proof.
  destruct (update_updated_time Examples.rename_alice 2 Examples.now0
              Examples.db0 Examples.alice)
    as (row & Hrow & Htime & Hbad); [reflexivity | reflexivity |].
  exists row. split; [exact Hrow |]. split; [now rewrite Htime |].
  apply Hbad. discriminate.
Qed.

End UserApiFacts.

(** ** More on the retrying client *)
Module RetryFacts.
Import HttpClient HttpClientGlobal HttpClientFacts.

Section Retry.

Variable retries : Z.
Variables method url : string.
Variable network : nat -> reply.

Hypothesis retries_nonneg : 0 <= retries.

Lemma final_attempt_kinds (j : nat) (rest : list Z)
    (last : option RequestError) :
  stops_at retries network j ->
  kind_of <$> (retry_loop retries method url network
                 (Z.of_nat j :: rest) j last).2
  = last_kinds (network j).
Proof.
  intros (Hle & _ & Hstop). cbn [retry_loop].
  destruct (network j) as [response | e] eqn:Hrep; cbn [retryable] in *.
  - assert (Hno : (status_code response >=? 500)
                  && (Z.of_nat j <? retries) = false).
    { destruct Hstop as [-> | ->]; [| reflexivity].
      rewrite andb_false_iff. right. apply Z.ltb_ge. lia. }
    rewrite Hno. reflexivity.
  - destruct Hstop as [-> | ?]; [| discriminate].
    assert (Hno : (Z.of_nat (Z.to_nat retries) <? retries) = false)
      by (apply Z.ltb_ge; lia).
    rewrite Hno. reflexivity.
Qed.

(** The events of the loop from attempt [a] on, by kind. *)
Lemma retry_loop_kinds (n : nat) :
  forall (a len : nat) (last : option RequestError),
    stops_at retries network (a + n) -> (n < len)%nat ->
    kind_of <$> (retry_loop retries method url network
                   (Z.of_nat <$> seq a len) a last).2
    = (mjoin (replicate n retry_kinds)
       ++ last_kinds (network (a + n)%nat))%list.
Proof.
  induction n as [| n IH]; intros a len last Hstop Hlen.
  - rewrite Nat.add_0_r in *.
    destruct len as [| len]; [lia |]. cbn [seq fmap list_fmap].
    apply (final_attempt_kinds a _ last Hstop).
  - destruct len as [| len]; [lia |].
    destruct Hstop as (Hle & Hretry & Hstop).
    cbn [seq fmap list_fmap retry_loop].
    assert (Hlt : (Z.of_nat a <? retries) = true) by (apply Z.ltb_lt; lia).
    assert (Ha : retryable (network a) = true) by (apply Hretry; lia).
    replace (a + S n)%nat with (S a + n)%nat in * by lia.
    assert (Hnext : stops_at retries network (S a + n))
      by (repeat split; assumption).
    destruct (network a) as [response | e] eqn:Hrep; cbn [retryable] in Ha.
    + rewrite Ha, Hlt. cbn [andb].
      specialize (IH (S a) len last Hnext ltac:(lia)).
      change (list_fmap nat Z Z.of_nat (seq (S a) len))
        with (Z.of_nat <$> seq (S a) len).
      destruct (retry_loop _ _ _ _ _ _ _) as [r tr]. cbn [snd] in *.
      cbn. now rewrite IH.
    + rewrite Hlt.
      specialize (IH (S a) len (Some e) Hnext ltac:(lia)).
      change (list_fmap nat Z Z.of_nat (seq (S a) len))
        with (Z.of_nat <$> seq (S a) len).
      destruct (retry_loop _ _ _ _ _ _ _) as [r tr]. cbn [snd] in *.
      cbn. now rewrite IH.
Qed.

End Retry.

(** X1. The call ends at the first reply that is a response with a
    status below 500: that response is returned after one request per
    attempt so far and one sleep of [0.1 * 2^attempt] seconds per failed
    attempt; no later request is sent. *)
Theorem first_answer_is_returned retries method url network (j : nat) :
  0 <= retries -> (j <= Z.to_nat retries)%nat ->
  (forall k, (k < j)%nat -> retryable (network k) = true) ->
  retryable (network j) = false ->
  exists response tr,
    network j = Responds response /\ status_code response < 500
    /\ request_with_retry retries method url network = (Return response, tr)
    /\ requests tr = S j
    /\ sleeps tr = backoff <$> range (Z.of_nat j).
Proof.
  intros Hr Hj Hretry Hstop.
  destruct (request_with_retry_stops retries method url network Hr j)
    as (tr & Hrun & Hreq & Hsl).
  { split; [exact Hj | split; [exact Hretry | now right]]. }
  destruct (network j) as [response | e] eqn:Hrep; [| discriminate].
  exists response, tr. cbn [retryable final] in *.
  repeat split; try assumption.
  rewrite Z.geb_leb in Hstop. now apply Z.leb_gt in Hstop.
Qed.

Lemma first_answer_is_returned_witness :
  exists response tr,
    Examples.flaky 2%nat = Responds response /\ status_code response < 500
    /\ request_with_retry 3 "GET" "http://admin:8000/health" Examples.flaky
       = (Return response, tr)
    /\ requests tr = 3%nat
    /\ sleeps tr = backoff <$> range 2.
Proof.
  apply (first_answer_is_returned 3 "GET" "http://admin:8000/health"
           Examples.flaky 2); [lia | cbn; lia | | reflexivity].
  intros k Hk. destruct k as [| [| k]]; [reflexivity | reflexivity | lia].
Defined.

(** X2. With a negative retry count the client sends no request at all,
    sleeps and logs nothing, and raises the [RuntimeError] of the code
    after the loop. *)
Theorem negative_retries_send_nothing retries method url network :
  retries < 0 ->
  exists msg,
    request_with_retry retries method url network
    = (RaiseRuntimeError msg, []).
Proof.
  intros Hneg. unfold request_with_retry, range.
  replace (Z.to_nat (retries + 1)) with 0%nat by lia.
  now eexists.
Qed.

Lemma negative_retries_send_nothing_witness :
  exists msg,
    request_with_retry (-1) "GET" "http://admin:8000/health"
                       Examples.unreachable
    = (RaiseRuntimeError msg, []).
Proof.
  apply (negative_retries_send_nothing (-1) "GET" "http://admin:8000/health"
           Examples.unreachable). lia.
Defined.

(** X4. The events of a call that ends at attempt [j] are, in order:
    for each of the [j] failed attempts its request, one warning record
    and one sleep; then the last request, followed by one error record
    exactly when that attempt ends in a transport error. *)
Theorem events_in_order retries method url network (j : nat) :
  0 <= retries ->
  stops_at retries network j ->
  kind_of <$> (request_with_retry retries method url network).2
  = (mjoin (replicate j retry_kinds) ++ last_kinds (network j))%list.
Proof.
  intros Hr Hstop. unfold request_with_retry, range.
  apply (retry_loop_kinds retries method url network j 0); try assumption.
  destruct Hstop as (Hle & _). lia.
Qed.

Lemma events_in_order_witness :
  kind_of <$> (request_with_retry 3 "GET" "http://admin:8000/health"
                 Examples.flaky).2
  = (mjoin (replicate 2 retry_kinds) ++ last_kinds (Examples.flaky 2%nat))%list.
Proof.
  apply (events_in_order 3 "GET" "http://admin:8000/health" Examples.flaky 2);
    [lia |].
  split; [cbn; lia |]. split; [| now right].
  intros k Hk. destruct k as [| [| k]]; [reflexivity | reflexivity | lia].
Defined.

End RetryFacts.

(** ** The process-wide client *)
Module HttpClientGlobalFacts.
Import HttpClientGlobal.

Lemma one_open_imported : one_open imported.
Proof.
  split; [discriminate |].
  intros l c Hl. cbn in Hl. rewrite lookup_empty in Hl. discriminate.
Qed.

Lemma one_open_get (g : globals) :
  one_open g -> one_open (get_http_client g).2.
Proof.
  intros (Hcur & Hothers). unfold get_http_client.
  destruct (_http_client g) as [l |] eqn:Hg; cbn [snd].
  - split; [rewrite Hg; exact Hcur | now rewrite Hg].
  - set (l := fresh (dom (clients g))). split; cbn [_http_client clients].
    + intros l' [= <-]. exists new_client. now rewrite lookup_insert_eq.
    + intros l' c. destruct (decide (l = l')) as [<- | Hne]; [reflexivity |].
      rewrite lookup_insert_ne by exact Hne. intros Hl' Hopen.
      specialize (Hothers l' c Hl' Hopen). congruence.
Qed.

Lemma one_open_close (g : globals) :
  one_open g -> one_open (close_http_client g).
Proof.
  intros (Hcur & Hothers). unfold close_http_client.
  destruct (_http_client g) as [l |] eqn:Hg; [| now split; rewrite ?Hg].
  split; cbn [_http_client clients]; [discriminate |].
  intros l' c. destruct (decide (l = l')) as [<- | Hne].
  - rewrite lookup_alter_eq. destruct (clients g !! l); cbn; [| discriminate].
    intros [= <-]. discriminate.
  - rewrite lookup_alter_ne by exact Hne. intros Hl' Hopen.
    specialize (Hothers l' c Hl' Hopen). congruence.
Qed.

Lemma reachable_one_open (g : globals) : reachable g -> one_open g.
Proof.
  induction 1; [exact one_open_imported | now apply one_open_get
               | now apply one_open_close].
Qed.

(** X5. Whatever was called before, [get_http_client] returns an open
    client, and it is the only open one: every client created earlier
    was closed by [close_http_client]. A second call returns the same
    client and creates nothing. *)
Theorem get_http_client_only_open (g : globals) :
  reachable g ->
  exists c,
    clients (get_http_client g).2 !! (get_http_client g).1 = Some c
    /\ closed c = false
    /\ (forall l' c', clients (get_http_client g).2 !! l' = Some c' ->
          closed c' = false -> l' = (get_http_client g).1)
    /\ get_http_client (get_http_client g).2 = get_http_client g.
Proof.
  intros Hg.
  pose proof (one_open_get g (reachable_one_open g Hg)) as (Hcur & Hothers).
  assert (Hvar : _http_client (get_http_client g).2
                 = Some (get_http_client g).1).
  { unfold get_http_client.
    destruct (_http_client g) eqn:Hv; cbn [fst snd]; [exact Hv | reflexivity]. }
  destruct (Hcur _ Hvar) as (c & Hc & Hopen).
  exists c. split; [exact Hc |]. split; [exact Hopen |]. split.
  - intros l' c' Hl' Hopen'. specialize (Hothers l' c' Hl' Hopen').
    congruence.
  - destruct (get_http_client g) as [l g'] eqn:Hrun. cbn [fst snd] in *.
    unfold get_http_client at 1. now rewrite Hvar.
Qed.

Lemma get_http_client_only_open_witness :
  exists c,
    clients (get_http_client Examples.after_restart).2
      !! (get_http_client Examples.after_restart).1 = Some c
    /\ closed c = false
    /\ (forall l' c',
          clients (get_http_client Examples.after_restart).2 !! l' = Some c' ->
          closed c' = false -> l' = (get_http_client Examples.after_restart).1)
    /\ get_http_client (get_http_client Examples.after_restart).2
       = get_http_client Examples.after_restart.
Proof.
  apply (get_http_client_only_open Examples.after_restart).
  apply reachable_close, reachable_get, reachable_imported.
Defined.

(** X6. After [close_http_client] the client that was current is closed
    for everyone who still holds it, and the next [get_http_client]
    creates another client, with the default timeout and retry count. *)
Theorem close_then_get_is_new (g : globals) (l : nat) :
  reachable g -> _http_client g = Some l ->
  exists c,
    clients (close_http_client g) !! l = Some c /\ closed c = true
    /\ (get_http_client (close_http_client g)).1 <> l
    /\ clients (get_http_client (close_http_client g)).2 !! l = Some c
    /\ clients (get_http_client (close_http_client g)).2
         !! (get_http_client (close_http_client g)).1
       = Some new_client.
Proof.
  intros Hg Hvar.
  destruct (reachable_one_open g Hg) as (Hcur & _).
  destruct (Hcur l Hvar) as (c & Hc & _).
  exists (close c). unfold close_http_client. rewrite Hvar.
  unfold get_http_client. cbn [_http_client clients fst snd].
  set (m := alter close l (clients g)).
  assert (Hm : m !! l = Some (close c))
    by (subst m; rewrite lookup_alter_eq, Hc; reflexivity).
  assert (Hne : fresh (dom m) <> l).
  { intros Heq. pose proof (is_fresh (dom m)) as Hfresh.
    rewrite Heq in Hfresh. apply Hfresh, elem_of_dom. now exists (close c). }
  split; [exact Hm |]. split; [reflexivity |]. split; [exact Hne |].
  split; [now rewrite lookup_insert_ne | apply lookup_insert_eq].
Qed.

Lemma close_then_get_is_new_witness :
  exists c,
    clients (close_http_client Examples.serving) !! 0%nat = Some c
    /\ closed c = true
    /\ (get_http_client (close_http_client Examples.serving)).1 <> 0%nat
    /\ clients (get_http_client (close_http_client Examples.serving)).2
         !! 0%nat = Some c
    /\ clients (get_http_client (close_http_client Examples.serving)).2
         !! (get_http_client (close_http_client Examples.serving)).1
       = Some new_client.
Proof.
  apply (close_then_get_is_new Examples.serving 0).
  - apply reachable_get, reachable_imported.
  - reflexivity.
Defined.

End HttpClientGlobalFacts.

(** ** More on the monitoring manager *)
Module TraceFacts.
Import Response Monitoring TraceContext MonitoringFacts.

Section Process.

Variable uuid4 : nat -> string.
Variable time : nat -> Q.

Hypothesis uuid4_nonempty : forall n, uuid4 n <> EmptyString.

(** What [end_trace] does to a context that exists. *)
Lemma end_trace_spec (l : nat) (c : MonitoringContext) (s : state) :
  objects s !! l = Some c ->
  let now := time (clock_reads s) in
  end_trace time l s
  = (tt, mk_state (<[l := finished c now]> (objects s))
                  (delete (trace_id c) (active_traces s))
                  (logged s ++ [mk_summary (trace_id c)
                                  (Some (now - start_time c)%Q) (tags c)])
                  (uuids_drawn s) (S (clock_reads s))).
Proof.
  intros Hl now. unfold end_trace, finish, bind, load, read_clock, get_active.
  cbn [objects active_traces logged uuids_drawn clock_reads].
  rewrite Hl.
  cbn [store snd fst objects active_traces logged uuids_drawn clock_reads].
  rewrite lookup_insert_eq. cbn [trace_id duration tags].
  case_bool_decide as Hin.
  - reflexivity.
  - cbn [ret logger_info objects active_traces logged uuids_drawn clock_reads].
    rewrite delete_id; [reflexivity |].
    now apply eq_None_not_Some.
Qed.

(** What [set_tag] does to a context that exists. *)
Lemma set_tag_spec (l : nat) (c : MonitoringContext) (key : string)
    (value : json) (s : state) :
  objects s !! l = Some c ->
  set_tag l key value s
  = (tt, mk_state
           (<[l := mk_MonitoringContext (trace_id c) (span_id c)
                     (start_time c) (end_time c) (duration c)
                     (<[key := value]> (tags c)) (logs c)]> (objects s))
           (active_traces s) (logged s) (uuids_drawn s) (clock_reads s)).
Proof. intros Hl. unfold set_tag, bind, load. now rewrite Hl. Qed.

(** What [log] does to a context that exists. *)
Lemma log_spec (l : nat) (c : MonitoringContext) (message : string)
    (kwargs : gmap string json) (s : state) :
  objects s !! l = Some c ->
  log time l message kwargs s
  = (tt, mk_state
           (<[l := mk_MonitoringContext (trace_id c) (span_id c)
                     (start_time c) (end_time c) (duration c) (tags c)
                     (logs c ++ [kwargs ∪ <["message" := JString message]>
                                   (<["timestamp" :=
                                        JNumber (time (clock_reads s))]> ∅)])]>
              (objects s))
           (active_traces s) (logged s) (uuids_drawn s) (S (clock_reads s))).
Proof.
  intros Hl. unfold log, bind, load, read_clock.
  cbn [objects active_traces logged uuids_drawn clock_reads].
  now rewrite Hl.
Qed.

(** What [start_trace] does when it is given a trace id. *)
Lemma start_trace_given (tid : string) (s : state) :
  tid <> EmptyString ->
  let l := fresh (dom (objects s)) in
  start_trace uuid4 time (Some tid) s
  = (l, mk_state
          (<[l := mk_MonitoringContext tid (uuid4 (uuids_drawn s))
                    (time (clock_reads s)) None None ∅ []]> (objects s))
          (<[tid := l]> (active_traces s)) (logged s)
          (S (uuids_drawn s)) (S (clock_reads s))).
Proof.
  intros Htid l. unfold start_trace, new_context, bind, or_uuid.
  rewrite (truthy_nonempty tid Htid).
  destruct s as [objs tbl lg n m].
  cbn [ret draw_uuid read_clock alloc load get_active set_active
       objects active_traces logged uuids_drawn clock_reads].
  rewrite lookup_insert_eq. reflexivity.
Qed.

(** *** Live tables *)

Lemma table_live_ok (s : state) : table_live s -> table_ok s.
Proof.
  intros Hlive k l Hk. destruct (Hlive k l Hk) as (Hne & c & Hc & Hid & _).
  split; [exact Hne |]. now exists c.
Qed.

Lemma table_live_init : table_live init.
Proof. intros k l Hk. cbn in Hk. rewrite lookup_empty in Hk. discriminate. Qed.

Lemma table_live_start_trace (o : option string) (s : state) :
  table_live s -> table_live (start_trace uuid4 time o s).2.
Proof.
  intros Hlive.
  destruct (start_trace_spec uuid4 time uuid4_nonempty o s)
    as (tid & c & n & m & Hrun & Hfresh & Htid & _ & Hc & He & _).
  cbn zeta in Hrun. rewrite Hrun. cbn [snd].
  intros k l. cbn [active_traces objects].
  destruct (decide (tid = k)) as [<- | Hne].
  - rewrite lookup_insert_eq. intros [= <-].
    split; [exact Htid |]. exists c. now rewrite lookup_insert_eq.
  - rewrite lookup_insert_ne by exact Hne. intros Hk.
    destruct (Hlive k l Hk) as (Hk0 & c0 & Hl & Hc0 & He0).
    split; [exact Hk0 |]. exists c0. split; [| now split].
    rewrite lookup_insert_ne; [exact Hl |]. intros <-. congruence.
Qed.

(** Writing back an object whose trace id and end time are unchanged. *)
Lemma table_live_store (s : state) (l : nat) (c c' : MonitoringContext) n m :
  table_live s -> objects s !! l = Some c ->
  trace_id c' = trace_id c -> end_time c' = end_time c ->
  table_live (mk_state (<[l := c']> (objects s)) (active_traces s) (logged s)
                       n m).
Proof.
  intros Hlive Hl Hid Hend k l0 Hk. cbn [active_traces objects] in *.
  destruct (Hlive k l0 Hk) as (Hk0 & c0 & Hl0 & Hc0 & He0).
  split; [exact Hk0 |].
  destruct (decide (l = l0)) as [<- | Hne].
  - exists c'. rewrite lookup_insert_eq. split; [reflexivity |].
    split; congruence.
  - exists c0. now rewrite lookup_insert_ne.
Qed.

Lemma table_live_counters (s : state) n m :
  table_live s ->
  table_live (mk_state (objects s) (active_traces s) (logged s) n m).
Proof. intros Hlive k l Hk. exact (Hlive k l Hk). Qed.

Lemma table_live_set_tag (l : nat) (key : string) (value : json) (s : state) :
  table_live s -> table_live (set_tag l key value s).2.
Proof.
  intros Hlive. destruct (objects s !! l) as [c |] eqn:Hl.
  - rewrite (set_tag_spec l c key value s Hl). cbn [snd].
    now apply (table_live_store s l c).
  - unfold set_tag, bind, load. now rewrite Hl.
Qed.

Lemma table_live_log (l : nat) (message : string) (kwargs : gmap string json)
    (s : state) :
  table_live s -> table_live (log time l message kwargs s).2.
Proof.
  intros Hlive. destruct (objects s !! l) as [c |] eqn:Hl.
  - rewrite (log_spec l c message kwargs s Hl). cbn [snd].
    now apply (table_live_store s l c).
  - unfold log, bind, load, read_clock.
    cbn [objects active_traces logged uuids_drawn clock_reads].
    rewrite Hl. cbn [ret snd]. now apply table_live_counters.
Qed.

Lemma table_live_end_trace (l : nat) (s : state) :
  is_Some (objects s !! l) ->
  table_live s -> table_live (end_trace time l s).2.
Proof.
  intros [c Hl] Hlive. rewrite (end_trace_spec l c s Hl). cbn [snd].
  intros k l0. cbn [active_traces objects]. intros Hk.
  apply lookup_delete_Some in Hk as [Hne Hk].
  destruct (Hlive k l0 Hk) as (Hk0 & c0 & Hl0 & Hc0 & He0).
  split; [exact Hk0 |]. exists c0. split; [| now split].
  rewrite lookup_insert_ne; [exact Hl0 |].
  intros <-. congruence.
Qed.

Lemma table_live_trace_request x_trace_id host method url (s : state) :
  table_live s ->
  table_live (trace_request uuid4 time x_trace_id host method url s).2.
Proof.
  intros Hlive. unfold trace_request.
  destruct (or_uuid_spec uuid4 uuid4_nonempty x_trace_id s)
    as (tid & n & Hor & _).
  unfold bind at 1. rewrite Hor.
  unfold bind at 1.
  assert (Hstart := table_live_start_trace (Some tid) _
                      (table_live_counters s n (clock_reads s) Hlive)).
  destruct (start_trace uuid4 time (Some tid) _) as [context s1].
  cbn [snd] in Hstart.
  unfold bind at 1.
  assert (H1 := table_live_set_tag context "http.method" (JString method)
                  _ Hstart).
  destruct (set_tag context "http.method" _ s1) as [[] s2]. cbn [snd] in H1.
  unfold bind at 1.
  assert (H2 := table_live_set_tag context "http.url" (JString url) _ H1).
  destruct (set_tag context "http.url" _ s2) as [[] s3]. cbn [snd] in H2.
  unfold bind at 1.
  assert (H3 := table_live_set_tag context "http.host"
                  (JString (default EmptyString host)) _ H2).
  destruct (set_tag context "http.host" _ s3) as [[] s4]. cbn [snd] in H3.
  unfold bind at 1.
  assert (H4 := table_live_log context "请求开始" ∅ _ H3).
  destruct (log time context "请求开始" ∅ s4) as [[] s5]. cbn [snd] in H4.
  exact H4.
Qed.

Lemma reachable_table_live (s : state) :
  reachable uuid4 time s -> table_live s.
Proof.
  induction 1 as [| s s' _ IH Hstep]; [exact table_live_init |].
  destruct Hstep.
  - now apply table_live_start_trace.
  - now apply table_live_end_trace.
  - now apply table_live_trace_request.
  - now apply table_live_set_tag.
  - now apply table_live_log.
Qed.

End Process.

(** X7. In every state a process reaches, each entry of the active-trace
    table refers to a context that exists, carries the trace id it is
    filed under (never the empty string) and has not been finished. *)
Theorem active_traces_are_live uuid4 time (s : state) :
  (forall n, uuid4 n <> EmptyString) ->
  reachable uuid4 time s ->
  forall k l, active_traces s !! k = Some l ->
    k <> EmptyString /\
    exists c, objects s !! l = Some c /\ trace_id c = k /\ end_time c = None.
Proof.
  intros Huuid Hreach. exact (reachable_table_live uuid4 time Huuid s Hreach).
Qed.

Lemma active_traces_are_live_witness :
  "trace-1" <> EmptyString /\
  exists c, objects Examples.one_trace !! 0%nat = Some c
            /\ trace_id c = "trace-1" /\ end_time c = None.
Proof.
  apply (active_traces_are_live Examples.uuid4 Examples.time
           Examples.one_trace).
  - intros n. discriminate.
  - apply (reachable_step _ _ init); [apply reachable_init |].
    apply (step_start_trace Examples.uuid4 Examples.time (Some "trace-1")).
  - vm_compute. reflexivity.
Defined.

(** X8. Starting a trace under an id that is not active and ending it
    puts the table back as it was; the context is left finished, its
    duration being the second reading of the clock minus the first, and
    the logger receives one summary, with that id and that duration. *)
Theorem start_then_end_restores_table uuid4 time (s : state) (tid : string) :
  tid <> EmptyString -> active_traces s !! tid = None ->
  let l := (start_trace uuid4 time (Some tid) s).1 in
  let s1 := (start_trace uuid4 time (Some tid) s).2 in
  let s2 := (end_trace time l s1).2 in
  let elapsed := (time (S (clock_reads s)) - time (clock_reads s))%Q in
  active_traces s2 = active_traces s
  /\ logged s2 = (logged s ++ [mk_summary tid (Some elapsed) ∅])%list
  /\ exists c, objects s2 !! l = Some c /\ trace_id c = tid
               /\ end_time c = Some (time (S (clock_reads s)))
               /\ duration c = Some elapsed.
Proof.
  intros Htid Hfree. cbv zeta.
  rewrite (start_trace_given uuid4 time tid s Htid). cbn [fst snd].
  erewrite end_trace_spec by (cbn [objects]; apply lookup_insert_eq).
  cbn [snd objects active_traces logged clock_reads trace_id start_time tags].
  split; [now rewrite delete_insert_id |]. split; [reflexivity |].
  eexists. split; [apply lookup_insert_eq |]. now cbn.
Qed.

Lemma start_then_end_restores_table_witness :
  let l := (start_trace Examples.uuid4 Examples.time (Some "trace-2")
                        Examples.one_trace).1 in
  let s1 := (start_trace Examples.uuid4 Examples.time (Some "trace-2")
                         Examples.one_trace).2 in
  let s2 := (end_trace Examples.time l s1).2 in
  let elapsed := (Examples.time (S (clock_reads Examples.one_trace))
                  - Examples.time (clock_reads Examples.one_trace))%Q in
  active_traces s2 = active_traces Examples.one_trace
  /\ logged s2
     = (logged Examples.one_trace ++ [mk_summary "trace-2" (Some elapsed) ∅])%list
  /\ exists c, objects s2 !! l = Some c /\ trace_id c = "trace-2"
               /\ end_time c
                  = Some (Examples.time (S (clock_reads Examples.one_trace)))
               /\ duration c = Some elapsed.
Proof.
  apply (start_then_end_restores_table Examples.uuid4 Examples.time
           Examples.one_trace "trace-2"); [discriminate |].
  vm_compute. reflexivity.
Defined.

(** X9. Ending the same context twice in a row: the second call leaves
    the table as the first left it, but it stamps the end time again and
    the logger receives a second summary, with the longer duration. *)
Theorem end_trace_twice time (s : state) (l : nat) (c : MonitoringContext) :
  objects s !! l = Some c ->
  let s1 := (end_trace time l s).2 in
  let s2 := (end_trace time l s1).2 in
  active_traces s2 = active_traces s1
  /\ logged s2
     = (logged s
        ++ [mk_summary (trace_id c)
              (Some (time (clock_reads s) - start_time c)%Q) (tags c);
            mk_summary (trace_id c)
              (Some (time (S (clock_reads s)) - start_time c)%Q) (tags c)])%list
  /\ objects s2 !! l = Some (finished c (time (S (clock_reads s)))).
Proof.
  intros Hl. cbv zeta.
  rewrite (end_trace_spec time l c s Hl). cbn [snd].
  erewrite end_trace_spec by (cbn [objects]; apply lookup_insert_eq).
  cbn [snd objects active_traces logged clock_reads finished trace_id
       start_time tags].
  split; [apply delete_id, lookup_delete_eq |].
  split; [now rewrite <- app_assoc |].
  rewrite lookup_insert_eq. reflexivity.
Qed.

Lemma end_trace_twice_witness :
  let c := Examples.first_context in
  let s := Examples.one_trace in
  let s1 := (end_trace Examples.time 0 s).2 in
  let s2 := (end_trace Examples.time 0 s1).2 in
  active_traces s2 = active_traces s1
  /\ logged s2
     = (logged s
        ++ [mk_summary (trace_id c)
              (Some (Examples.time (clock_reads s) - start_time c)%Q)
              (tags c);
            mk_summary (trace_id c)
              (Some (Examples.time (S (clock_reads s)) - start_time c)%Q)
              (tags c)])%list
  /\ objects s2 !! 0%nat
     = Some (finished c (Examples.time (S (clock_reads s)))).
Proof.
  apply (end_trace_twice Examples.time Examples.one_trace 0
           Examples.first_context).
  vm_compute. reflexivity.
Defined.

(** X10. [end_trace] removes the table entry by trace id, not by
    context: when a trace id is started a second time and the first
    context is ended afterwards, the entry of the second context is
    removed. That context is then in no table entry although it was
    never finished. *)
Theorem stale_end_trace_drops_replacement uuid4 time (s : state)
    (tid : string) (l_old : nat) :
  (forall n, uuid4 n <> EmptyString) ->
  reachable uuid4 time s ->
  active_traces s !! tid = Some l_old ->
  let l_new := (start_trace uuid4 time (Some tid) s).1 in
  let s1 := (start_trace uuid4 time (Some tid) s).2 in
  let s2 := (end_trace time l_old s1).2 in
  active_traces s1 !! tid = Some l_new
  /\ active_traces s2 !! tid = None
  /\ (forall k, active_traces s2 !! k <> Some l_new)
  /\ exists c, objects s2 !! l_new = Some c /\ trace_id c = tid
               /\ end_time c = None.
Proof.
  intros Huuid Hreach Hold. cbv zeta.
  pose proof (reachable_table_ok uuid4 time Huuid s Hreach) as Hok.
  destruct (Hok tid l_old Hold) as (Htid & c_old & Hobj & Hc_old).
  rewrite (start_trace_given uuid4 time tid s Htid). cbn [fst snd].
  set (l_new := fresh (dom (objects s))).
  assert (Hdiff : l_new <> l_old).
  { intros Heq. pose proof (is_fresh (dom (objects s))) as Hfresh.
    fold l_new in Hfresh. rewrite Heq in Hfresh.
    apply Hfresh, elem_of_dom. now exists c_old. }
  erewrite (end_trace_spec time l_old c_old)
    by (cbn [objects]; now rewrite lookup_insert_ne).
  cbn [snd objects active_traces]. rewrite Hc_old.
  split; [apply lookup_insert_eq |].
  split; [apply lookup_delete_eq |]. split.
  - intros k Hk. apply lookup_delete_Some in Hk as [Hne Hk].
    rewrite lookup_insert_ne in Hk by exact Hne.
    destruct (Hok k l_new Hk) as (_ & c & Hc & _).
    pose proof (is_fresh (dom (objects s))) as Hfresh. fold l_new in Hfresh.
    apply Hfresh, elem_of_dom. now exists c.
  - eexists. rewrite lookup_insert_ne by (intros Heq; now apply Hdiff).
    split; [apply lookup_insert_eq |]. now cbn.
Qed.

Lemma stale_end_trace_drops_replacement_witness :
  let l_new := (start_trace Examples.uuid4 Examples.time (Some "trace-1")
                            Examples.one_trace).1 in
  let s1 := (start_trace Examples.uuid4 Examples.time (Some "trace-1")
                         Examples.one_trace).2 in
  let s2 := (end_trace Examples.time 0 s1).2 in
  active_traces s1 !! "trace-1" = Some l_new
  /\ active_traces s2 !! "trace-1" = None
  /\ (forall k, active_traces s2 !! k <> Some l_new)
  /\ exists c, objects s2 !! l_new = Some c /\ trace_id c = "trace-1"
               /\ end_time c = None.
Proof.
  apply (stale_end_trace_drops_replacement Examples.uuid4 Examples.time
           Examples.one_trace "trace-1" 0).
  - intros n. discriminate.
  - apply (reachable_step _ _ init); [apply reachable_init |].
    apply (step_start_trace Examples.uuid4 Examples.time (Some "trace-1")).
  - vm_compute. reflexivity.
Defined.

(** X11. The headers built for the next service carry the incoming
    [X-Trace-ID] as it came, empty or not, and a generated one when the
    request had none; it takes the place of any [X-Trace-ID] already in
    the outgoing headers. [X-Span-ID] is always generated, every other
    outgoing header is kept, and two identifiers are drawn per call
    whether the first is needed or not. The manager is not touched. *)
Theorem trace_is_propagated uuid4 (x_trace_id : option string)
    (headers : gmap string string) (s : state) :
  let context := (TraceContext.extract_trace_context uuid4 x_trace_id s).1 in
  let s' := (TraceContext.extract_trace_context uuid4 x_trace_id s).2 in
  let out := inject_trace_context headers context in
  out !! "X-Trace-ID" = Some (default (uuid4 (uuids_drawn s)) x_trace_id)
  /\ out !! "X-Span-ID" = Some (uuid4 (S (uuids_drawn s)))
  /\ (forall k, k <> "X-Trace-ID" -> k <> "X-Span-ID" ->
        out !! k = headers !! k)
  /\ uuids_drawn s' = S (S (uuids_drawn s))
  /\ objects s' = objects s /\ active_traces s' = active_traces s.
Proof.
  cbv zeta. unfold TraceContext.extract_trace_context, inject_trace_context,
    bind, draw_uuid, ret.
  cbn [fst snd objects active_traces logged uuids_drawn clock_reads].
  repeat split.
  - apply lookup_union_Some_l. now rewrite lookup_insert_ne, lookup_insert_eq.
  - apply lookup_union_Some_l. apply lookup_insert_eq.
  - intros k Hk1 Hk2. apply lookup_union_r.
    now rewrite !lookup_insert_ne, lookup_empty.
Qed.

(** What [trace_request] does. *)
Lemma trace_request_run uuid4 time (s : state)
    (x_trace_id host : option string) (method url : string) :
  (forall n, uuid4 n <> EmptyString) ->
  exists tid span start stamp objs n m,
    let l := fresh (dom (objects s)) in
    trace_request uuid4 time x_trace_id host method url s
    = (l, mk_state objs (<[tid := l]> (active_traces s)) (logged s) n m)
    /\ tid <> EmptyString
    /\ (forall v, v <> EmptyString -> x_trace_id = Some v -> tid = v)
    /\ objs !! l
       = Some (mk_MonitoringContext tid span start None None
                 (<["http.host" := JString (default EmptyString host)]>
                    (<["http.url" := JString url]>
                       (<["http.method" := JString method]> ∅)))
                 [∅ ∪ <["message" := JString "请求开始"]>
                        (<["timestamp" := JNumber stamp]> ∅)]).
Proof.
  intros Huuid. unfold trace_request.
  destruct (or_uuid_spec uuid4 Huuid x_trace_id s)
    as (tid & n & Hor & Htid & Hgiven).
  unfold bind at 1. rewrite Hor.
  unfold bind at 1.
  rewrite (start_trace_given uuid4 time tid _ Htid).
  cbn [objects active_traces logged uuids_drawn clock_reads].
  set (l := fresh (dom (objects s))).
  unfold bind at 1.
  erewrite set_tag_spec by (cbn [objects]; apply lookup_insert_eq).
  unfold bind at 1.
  erewrite set_tag_spec by (cbn [objects]; apply lookup_insert_eq).
  unfold bind at 1.
  erewrite set_tag_spec by (cbn [objects]; apply lookup_insert_eq).
  unfold bind.
  erewrite log_spec by (cbn [objects]; apply lookup_insert_eq).
  cbn [ret objects active_traces logged uuids_drawn clock_reads trace_id
       span_id start_time end_time duration tags logs].
  eexists tid, _, _, _, _, _, _. split; [reflexivity |].
  split; [exact Htid |]. split; [exact Hgiven |].
  rewrite lookup_insert_eq. reflexivity.
Qed.

(** X12. [trace_request] returns a new context, filed in the table
    under its trace id: the [X-Trace-ID] of the request when that is not
    empty, a generated id otherwise, never the empty string. The context
    is unfinished, carries exactly the tags [http.method], [http.url] and
    [http.host] (the empty string without a host header) and one log
    entry, the start of the request; the logger receives nothing. *)
Theorem trace_request_registers uuid4 time (s : state)
    (x_trace_id host : option string) (method url : string) :
  (forall n, uuid4 n <> EmptyString) ->
  let l := (trace_request uuid4 time x_trace_id host method url s).1 in
  let s' := (trace_request uuid4 time x_trace_id host method url s).2 in
  objects s !! l = None
  /\ logged s' = logged s
  /\ exists c,
       objects s' !! l = Some c
       /\ trace_id c <> EmptyString
       /\ (forall v, v <> EmptyString -> x_trace_id = Some v -> trace_id c = v)
       /\ active_traces s' !! trace_id c = Some l
       /\ end_time c = None
       /\ tags c = <["http.host" := JString (default EmptyString host)]>
                     (<["http.url" := JString url]>
                        (<["http.method" := JString method]> ∅))
       /\ exists entry,
            logs c = [entry]
            /\ entry !! "message" = Some (JString "请求开始").
Proof.
  intros Huuid. cbv zeta.
  destruct (trace_request_run uuid4 time s x_trace_id host method url Huuid)
    as (tid & span & start & stamp & objs & n & m & Hrun & Htid & Hgiven
        & Hobj).
  cbv zeta in Hrun, Hobj. rewrite Hrun.
  cbn [fst snd objects active_traces logged].
  split; [apply not_elem_of_dom, is_fresh |]. split; [reflexivity |].
  eexists. split; [exact Hobj |].
  cbn [trace_id end_time tags logs].
  split; [exact Htid |]. split; [exact Hgiven |].
  split; [apply lookup_insert_eq |]. split; [reflexivity |].
  split; [reflexivity |].
  eexists. split; [reflexivity |].
  apply lookup_union_Some_r; [apply map_disjoint_empty_l |].
  apply lookup_insert_eq.
Qed.

Lemma trace_request_registers_witness :
  let l := (trace_request Examples.uuid4 Examples.time (Some "trace-9") None
                          "GET" "http://gateway/health"
                          Examples.one_trace).1 in
  let s' := (trace_request Examples.uuid4 Examples.time (Some "trace-9") None
                           "GET" "http://gateway/health"
                           Examples.one_trace).2 in
  objects Examples.one_trace !! l = None
  /\ logged s' = logged Examples.one_trace
  /\ exists c,
       objects s' !! l = Some c
       /\ trace_id c <> EmptyString
       /\ (forall v, v <> EmptyString -> Some "trace-9" = Some v
                     -> trace_id c = v)
       /\ active_traces s' !! trace_id c = Some l
       /\ end_time c = None
       /\ tags c = <["http.host" := JString EmptyString]>
                     (<["http.url" := JString "http://gateway/health"]>
                        (<["http.method" := JString "GET"]> ∅))
       /\ exists entry,
            logs c = [entry]
            /\ entry !! "message" = Some (JString "请求开始").
Proof.
  apply (trace_request_registers Examples.uuid4 Examples.time
           Examples.one_trace (Some "trace-9") None "GET"
           "http://gateway/health").
  intros n. discriminate.
Defined.

End TraceFacts.

(** ** More on the user API *)
Module UserCallsFacts.
Import Response Base Security UserApi UserCalls UserApiFacts.

(** *** One call *)

(** The three ways [update] ends. *)
Lemma update_cases (data : Schemas.UserInSchema) (k : Z)
    (now : Datetime.datetime) (db : table) :
  (db !! k = None /\ (update data k now db).1.2 = db)
  \/ (exists u, db !! k = Some u /\ is_superuser u = true
                /\ (update data k now db).1.2 = db)
  \/ (exists u, db !! k = Some u /\ is_superuser u = false
                /\ (update data k now db).1.2
                   = <[k := set_updated_time
                              (sqlmodel_update u
                                 (Schemas.model_dump_exclude_unset data))
                              (Datetime.str_datetime now)]> db).
Proof.
  unfold update. destruct (db !! k) as [u |] eqn:Hk; [| now left].
  right. destruct (is_superuser u) eqn:Hsu; [left | right]; now exists u.
Qed.

(** The three ways [delete] ends. *)
Lemma delete_cases (k : Z) (db : table) :
  (db !! k = None /\ (delete k db).1.2 = db)
  \/ (exists u, db !! k = Some u /\ is_superuser u = true
                /\ (delete k db).1.2 = db)
  \/ (exists u, db !! k = Some u /\ is_superuser u = false
                /\ (delete k db).1.2 = base.delete k db).
Proof.
  unfold delete. destruct (db !! k) as [u |] eqn:Hk; [| now left].
  right. destruct (is_superuser u) eqn:Hsu; [left | right]; now exists u.
Qed.

(** The two ways [create] ends. *)
Lemma create_cases `{Security} (data : Schemas.UserInSchema)
    (now_created now_updated : Datetime.datetime) (db : table) :
  (create data now_created now_updated db).1.2 = db
  \/ (first_by_username (Schemas.username data) db = None
      /\ (create data now_created now_updated db).1.2
         = <[next_id db :=
               set_id (model_validate
                         (Schemas.set_password data
                            (set_password_hash (Schemas.password data)))
                         now_created now_updated)
                      (next_id db)]> db).
Proof.
  unfold create.
  destruct (first_by_username _ db) eqn:Hfind; [now left | now right].
Qed.

Lemma updated_row_flag (u : User) (d : list Schemas.entry) (t : string) :
  is_superuser (set_updated_time (sqlmodel_update u d) t) = is_superuser u.
Proof.
  cbn [is_superuser set_updated_time].
  now destruct (sqlmodel_update_frame u d) as (_ & _ & _ & ->).
Qed.

Lemma updated_row_created_time (u : User) (d : list Schemas.entry)
    (t : string) :
  created_time (set_updated_time (sqlmodel_update u d) t) = created_time u.
Proof.
  cbn [created_time set_updated_time].
  now destruct (sqlmodel_update_frame u d) as (_ & -> & _).
Qed.

(** *** Superusers *)

Section Calls.

Context `{Security}.

Lemma run_superuser (c : call) (db : table) (k : Z) (u : User) :
  is_superuser u = true ->
  run c db !! k = Some u <-> db !! k = Some u.
Proof.
  intros Hsu. destruct c as [data n1 n2 | data k' now | k']; cbn [run].
  - destruct (create_cases data n1 n2 db) as [-> | (_ & ->)]; [tauto |].
    destruct (decide (next_id db = k)) as [<- | Hne].
    + rewrite lookup_insert_eq, next_id_fresh. split; [| discriminate].
      intros [= <-]. discriminate.
    + now rewrite lookup_insert_ne.
  - destruct (update_cases data k' now db)
      as [(_ & ->) | [(e & _ & _ & ->) | (e & He & Hno & ->)]]; [tauto.. |].
    destruct (decide (k' = k)) as [<- | Hne].
    + rewrite lookup_insert_eq, He. split; intros [= <-].
      * rewrite updated_row_flag in Hsu. congruence.
      * congruence.
    + now rewrite lookup_insert_ne.
  - destruct (delete_cases k' db)
      as [(_ & ->) | [(e & _ & _ & ->) | (e & He & Hno & ->)]]; [tauto.. |].
    destruct (decide (k' = k)) as [<- | Hne].
    + rewrite lookup_delete_eq, He. split; [discriminate |].
      intros [= <-]. congruence.
    + now rewrite lookup_delete_ne.
Qed.

Lemma run_keyed (c : call) (db : table) : keyed db -> keyed (run c db).
Proof.
  destruct c; cbn [run];
    [apply create_keyed | apply update_keyed | apply delete_keyed].
Qed.

Lemma run_created_times (c : call) (db : table) :
  created_times_ok db -> created_times_ok (run c db).
Proof.
  intros Hdb. destruct c as [data n1 n2 | data k' now | k']; cbn [run].
  - destruct (create_cases data n1 n2 db) as [-> | (_ & ->)]; [exact Hdb |].
    intros k u. destruct (decide (next_id db = k)) as [<- | Hne].
    + rewrite lookup_insert_eq. intros [= <-].
      apply DatetimeFacts.strftime_is_timestamp.
    + rewrite lookup_insert_ne by exact Hne. apply Hdb.
  - destruct (update_cases data k' now db)
      as [(_ & ->) | [(e & _ & _ & ->) | (e & He & Hno & ->)]];
      [exact Hdb.. |].
    intros k u. destruct (decide (k' = k)) as [<- | Hne].
    + rewrite lookup_insert_eq. intros [= <-].
      rewrite updated_row_created_time. now apply (Hdb k').
    + rewrite lookup_insert_ne by exact Hne. apply Hdb.
  - destruct (delete_cases k' db)
      as [(_ & ->) | [(e & _ & _ & ->) | (e & He & Hno & ->)]];
      [exact Hdb.. |].
    intros k u Hk. apply lookup_delete_Some in Hk as [_ Hk].
    now apply (Hdb k).
Qed.

Lemma run_all_app (cs : list call) (c : call) (db : table) :
  run_all (cs ++ [c]) db = run c (run_all cs db).
Proof. unfold run_all. now rewrite foldl_app. Qed.

End Calls.

(** The example tables with a user name held twice are tables the API
    leaves. *)
Lemma two_alices_from_api :
  run_all (H := Examples.toy_security)
    [Create Examples.new_eve Examples.now0 Examples.now0;
     Update Examples.eve_as_alice 4 Examples.now0] Examples.db0
  = Examples.two_alices.
Proof. vm_compute. reflexivity. Qed.

Lemma two_bobs_from_api :
  run_all (H := Examples.toy_security)
    [Create Examples.new_dave Examples.now0 Examples.now0;
     Update Examples.dave_as_bob 4 Examples.now0] Examples.db0
  = Examples.two_bobs.
Proof. vm_compute. reflexivity. Qed.

(** For an id the table can have as a key, the handlers do what
    [update], [delete] and [detail] say. *)
Lemma path_id_in_range (data : Schemas.UserInSchema) (k : Z)
    (now : Datetime.datetime) (db : table) :
  sqlite_integer k = true ->
  put_user data k now db = update data k now db
  /\ delete_user k db = delete k db
  /\ patch_user k db = detail k db.
Proof.
  intros Hin. unfold put_user, delete_user, patch_user, db_get.
  now rewrite Hin.
Qed.

(** X13. [PUT], [DELETE] and [PATCH /user/{id}] for an id that is not
    in the table. If the id is a 64-bit integer, as the keys of the
    table are, they return the Error envelope (user does not exist). If
    it is not, the lookup raises and they raise the Except envelope, all
    three with the same message. In both cases the two writing handlers
    leave the table as it was. *)
Theorem missing_id_is_refused (data : Schemas.UserInSchema) (k : Z)
    (now : Datetime.datetime) (db : table) :
  (- 2 ^ 63 <= k < 2 ^ 63 -> db !! k = None ->
   (put_user data k now db).1
   = (Returns (ErrorResponse ("用户" +:+ pretty k +:+ "不存在") None None), db)
   /\ (delete_user k db).1
      = (Returns (ErrorResponse ("用户" +:+ pretty k +:+ "不存在") None None),
         db)
   /\ (patch_user k db).1 = Returns (ErrorResponse "用户不存在" None None))
  /\ (k < - 2 ^ 63 \/ 2 ^ 63 <= k ->
      exists message,
        (put_user data k now db).1
        = (Raises (ExceptResponse ("系统异常: " +:+ message) None), db)
        /\ (delete_user k db).1
           = (Raises (ExceptResponse ("系统异常: " +:+ message) None), db)
        /\ (patch_user k db).1
           = Raises (ExceptResponse ("系统异常: " +:+ message) None)).
Proof.
  split.
  - intros Hin Hk.
    assert (sqlite_integer k = true) as Hrange.
    { unfold sqlite_integer. apply andb_true_iff.
      split; [apply Z.leb_le | apply Z.ltb_lt]; lia. }
    destruct (path_id_in_range data k now db Hrange) as (-> & -> & ->).
    unfold update, delete, detail. now rewrite Hk.
  - intros Hout.
    assert (sqlite_integer k = false) as Hrange.
    { unfold sqlite_integer. apply andb_false_iff.
      destruct Hout; [left; apply Z.leb_gt | right; apply Z.ltb_ge]; lia. }
    unfold put_user, delete_user, patch_user, db_get. rewrite Hrange.
    now eexists.
Qed.

Lemma missing_id_is_refused_witness :
  ((put_user Examples.rename_alice 7 Examples.now0 Examples.db0).1
   = (Returns (ErrorResponse ("用户" +:+ pretty 7 +:+ "不存在") None None),
      Examples.db0)
   /\ (delete_user 7 Examples.db0).1
      = (Returns (ErrorResponse ("用户" +:+ pretty 7 +:+ "不存在") None None),
         Examples.db0)
   /\ (patch_user 7 Examples.db0).1
      = Returns (ErrorResponse "用户不存在" None None))
  /\ (exists message,
        (put_user Examples.rename_alice (2 ^ 63) Examples.now0
                  Examples.db0).1
        = (Raises (ExceptResponse ("系统异常: " +:+ message) None),
           Examples.db0)
        /\ (delete_user (2 ^ 63) Examples.db0).1
           = (Raises (ExceptResponse ("系统异常: " +:+ message) None),
              Examples.db0)
        /\ (patch_user (2 ^ 63) Examples.db0).1
           = Raises (ExceptResponse ("系统异常: " +:+ message) None)).
Proof.
  split.
  - apply (missing_id_is_refused Examples.rename_alice 7 Examples.now0
             Examples.db0); [lia | reflexivity].
  - apply (missing_id_is_refused Examples.rename_alice (2 ^ 63)
             Examples.now0 Examples.db0). right. lia.
Defined.

(** X14. [DELETE /user/{id}] of a stored user who is no superuser
    answers with that user's data and removes that row and no other; a
    second [DELETE], or a [PATCH], of the same id then finds no user. *)
Theorem delete_removes_row (k : Z) (db : table) (u : User) :
  db !! k = Some u -> is_superuser u = false ->
  let db' := (delete k db).1.2 in
  (delete k db).1.1
  = Returns (SuccessResponse (Schemas.UserOutSchema_dump u))
  /\ db' !! k = None
  /\ (forall k', k' <> k -> db' !! k' = db !! k')
  /\ base.size db = S (base.size db')
  /\ (delete k db').1
     = (Returns (ErrorResponse ("用户" +:+ pretty k +:+ "不存在") None None),
        db')
  /\ (detail k db').1 = Returns (ErrorResponse "用户不存在" None None).
Proof.
  intros Hk Hsu. cbv zeta.
  assert (Hrun : (delete k db).1
                 = (Returns (SuccessResponse (Schemas.UserOutSchema_dump u)),
                    base.delete k db))
    by (unfold delete; now rewrite Hk, Hsu).
  rewrite Hrun. cbn [fst snd].
  assert (Hgone : base.delete k db !! k = None) by apply lookup_delete_eq.
  split; [reflexivity |]. split; [exact Hgone |].
  split; [intros k' Hne; now apply lookup_delete_ne |].
  split; [rewrite <- (insert_delete_id db k u Hk) at 1;
          now apply map_size_insert_None |].
  unfold delete at 1, detail. now rewrite Hgone.
Qed.

Lemma delete_removes_row_witness :
  let db' := (delete 3 Examples.db0).1.2 in
  (delete 3 Examples.db0).1.1
  = Returns (SuccessResponse (Schemas.UserOutSchema_dump Examples.bob))
  /\ db' !! 3 = None
  /\ (forall k', k' <> 3 -> db' !! k' = Examples.db0 !! k')
  /\ base.size Examples.db0 = S (base.size db')
  /\ (delete 3 db').1
     = (Returns (ErrorResponse ("用户" +:+ pretty 3 +:+ "不存在") None None),
        db')
  /\ (detail 3 db').1 = Returns (ErrorResponse "用户不存在" None None).
Proof.
  apply (delete_removes_row 3 Examples.db0 Examples.bob); reflexivity.
Defined.

(** X15. Reading after writing: the data [POST /user] returns for a new
    user, and the data [PUT /user/{id}] returns for an updated one, are
    what [PATCH /user/{id}] returns for that id right after. *)
Theorem read_your_writes `{Security} (data : Schemas.UserInSchema)
    (now_created now_updated : Datetime.datetime) (k : Z) (db : table) :
  ((forall k' u, db !! k' = Some u -> username u <> Schemas.username data) ->
   exists id d,
     (create data now_created now_updated db).1.1
     = Returns (SuccessResponse d)
     /\ json_get "id" d = Some (JInt id)
     /\ (detail id (create data now_created now_updated db).1.2).1
        = Returns (SuccessResponse d))
  /\ ((exists u, db !! k = Some u /\ is_superuser u = false) ->
      exists d,
        (update data k now_updated db).1.1 = Returns (SuccessResponse d)
        /\ (detail k (update data k now_updated db).1.2).1
           = Returns (SuccessResponse d)).
Proof.
  split.
  - intros Hnone. apply first_by_username_None in Hnone.
    unfold create. rewrite Hnone. cbn [fst snd].
    eexists (next_id db), _. split; [reflexivity |]. split; [reflexivity |].
    unfold detail. now rewrite lookup_insert_eq.
  - intros (u & Hk & Hsu). unfold update. rewrite Hk, Hsu. cbn [fst snd].
    eexists. split; [reflexivity |].
    unfold detail. now rewrite lookup_insert_eq.
Qed.

Lemma read_your_writes_witness :
  (exists id d,
     (create (H := Examples.toy_security) Examples.new_carol Examples.now0
             Examples.now0 Examples.db0).1.1
     = Returns (SuccessResponse d)
     /\ json_get "id" d = Some (JInt id)
     /\ (detail id (create (H := Examples.toy_security) Examples.new_carol
                           Examples.now0 Examples.now0 Examples.db0).1.2).1
        = Returns (SuccessResponse d))
  /\ (exists d,
        (update Examples.rename_alice 2 Examples.now0 Examples.db0).1.1
        = Returns (SuccessResponse d)
        /\ (detail 2 (update Examples.rename_alice 2 Examples.now0
                             Examples.db0).1.2).1
           = Returns (SuccessResponse d)).
Proof.
  split.
  - apply (proj1 (read_your_writes (H := Examples.toy_security)
                    Examples.new_carol Examples.now0 Examples.now0 2
                    Examples.db0)).
    intros k u Hk.
    assert (Hrows : (k, u) ∈ map_to_list Examples.db0)
      by (now apply elem_of_map_to_list).
    vm_compute in Hrows.
    repeat (apply elem_of_cons in Hrows as [[= -> ->] | Hrows];
            [discriminate |]).
    now apply elem_of_nil in Hrows.
  - apply (proj2 (read_your_writes (H := Examples.toy_security)
                    Examples.rename_alice Examples.now0 Examples.now0 2
                    Examples.db0)).
    exists Examples.alice. split; reflexivity.
Defined.

(** X16. Whatever sequence of [POST /user], [PUT /user/{id}] and
    [DELETE /user/{id}] calls is made, the superuser rows after it are
    the superuser rows before it, each unchanged: the API neither creates
    nor alters nor removes a superuser. *)
Theorem superusers_untouched `{Security} (cs : list call) (db : table)
    (k : Z) (u : User) :
  is_superuser u = true ->
  run_all cs db !! k = Some u <-> db !! k = Some u.
Proof.
  intros Hsu. induction cs as [| c cs IH] using rev_ind; [reflexivity |].
  rewrite run_all_app. now rewrite run_superuser.
Qed.

Lemma superusers_untouched_witness :
  run_all (H := Examples.toy_security) Examples.some_calls Examples.db0 !! 1
  = Some Examples.root
  <-> Examples.db0 !! 1 = Some Examples.root.
Proof.
  apply (superusers_untouched (H := Examples.toy_security)
           Examples.some_calls Examples.db0 1 Examples.root).
  reflexivity.
Defined.

(** X17. Whatever sequence of writing calls is made, every row keeps
    carrying, in its [id] field, the key it is stored under. *)
Theorem ids_match_keys `{Security} (cs : list call) (db : table) :
  keyed db -> keyed (run_all cs db).
Proof.
  intros Hdb. induction cs as [| c cs IH] using rev_ind; [exact Hdb |].
  rewrite run_all_app. now apply run_keyed.
Qed.

Lemma ids_match_keys_witness :
  keyed (run_all (H := Examples.toy_security) Examples.some_calls
                 Examples.db0).
Proof.
  apply (ids_match_keys (H := Examples.toy_security) Examples.some_calls
           Examples.db0).
  intros k u Hk.
  assert (Hrows : (k, u) ∈ map_to_list Examples.db0)
    by (now apply elem_of_map_to_list).
  vm_compute in Hrows.
  repeat (apply elem_of_cons in Hrows as [[= -> ->] | Hrows];
          [reflexivity |]).
  now apply elem_of_nil in Hrows.
Defined.

(** X18. Whatever sequence of writing calls is made, every
    [created_time] stays of the form [YYYY-MM-DD HH:MM:SS]: [POST /user]
    writes it with the pattern of [Base], and [PUT /user/{id}] never
    touches it. *)
Theorem created_time_keeps_format `{Security} (cs : list call) (db : table) :
  created_times_ok db -> created_times_ok (run_all cs db).
Proof.
  intros Hdb. induction cs as [| c cs IH] using rev_ind; [exact Hdb |].
  rewrite run_all_app. now apply run_created_times.
Qed.

Lemma created_time_keeps_format_witness :
  created_times_ok (run_all (H := Examples.toy_security) Examples.some_calls
                            Examples.db0).
Proof.
  apply (created_time_keeps_format (H := Examples.toy_security)
           Examples.some_calls Examples.db0).
  intros k u Hk.
  assert (Hrows : (k, u) ∈ map_to_list Examples.db0)
    by (now apply elem_of_map_to_list).
  vm_compute in Hrows.
  repeat (apply elem_of_cons in Hrows as [[= -> ->] | Hrows];
          [reflexivity |]).
  now apply elem_of_nil in Hrows.
Defined.

(** X19. The [updated_time] a successful [PUT /user/{id}] writes is of
    the form [YYYY-MM-DD HH:MM:SS] exactly when the clock is on a whole
    second; with microseconds it carries a fraction. *)
Theorem updated_time_format_iff (data : Schemas.UserInSchema) (k : Z)
    (now : Datetime.datetime) (db : table) (u : User) :
  db !! k = Some u -> is_superuser u = false ->
  exists row,
    (update data k now db).1.2 !! k = Some row
    /\ (Datetime.is_timestamp (updated_time row) = true
        <-> Datetime.microsecond now = 0).
Proof.
  intros Hk Hsu. rewrite (update_stored data k now db u Hk Hsu).
  rewrite lookup_insert_eq. eexists. split; [reflexivity |].
  cbn [updated_time set_updated_time]. split.
  - intros Hok. destruct (decide (Datetime.microsecond now = 0)) as [| Hne];
      [assumption |].
    rewrite (DatetimeFacts.str_datetime_not_timestamp now Hne) in Hok.
    discriminate.
  - intros Hzero. rewrite (DatetimeFacts.str_datetime_whole_second now Hzero).
    apply DatetimeFacts.strftime_is_timestamp.
Qed.

Lemma updated_time_format_iff_witness :
  exists row,
    (update Examples.rename_alice 2 Examples.now0 Examples.db0).1.2 !! 2
    = Some row
    /\ (Datetime.is_timestamp (updated_time row) = true
        <-> Datetime.microsecond Examples.now0 = 0).
Proof.
  apply (updated_time_format_iff Examples.rename_alice 2 Examples.now0
           Examples.db0 Examples.alice); reflexivity.
Defined.

Section Login.

Context `{Security}.
Variable settings : Config.Settings.

(** The row a user name designates when one row only has it. *)
Lemma first_by_username_unique (x : string) (db : table) (k : Z) (u : User) :
  db !! k = Some u -> username u = x ->
  (forall k' u', db !! k' = Some u' -> username u' = x -> k' = k) ->
  first_by_username x db = Some u.
Proof.
  intros Hk Hx Huniq.
  destruct (first_by_username_exists x db k u Hk Hx) as (u' & Hfind).
  destruct (first_by_username_Some _ _ _ Hfind) as (Hx' & k' & Hk').
  assert (k' = k) as -> by (now apply (Huniq k' u')).
  congruence.
Qed.

(** The user name lookup after a successful [POST /user]. *)
Lemma create_then_lookup (data : Schemas.UserInSchema)
    (now_created now_updated : Datetime.datetime) (db : table) :
  (forall k u, db !! k = Some u -> username u <> Schemas.username data) ->
  exists row,
    first_by_username (Schemas.username data)
      (create data now_created now_updated db).1.2 = Some row
    /\ username row = Schemas.username data
    /\ password row = set_password_hash (Schemas.password data)
    /\ status row = Schemas.status data.
Proof.
  intros Hnone. pose proof Hnone as Hfind.
  apply first_by_username_None in Hfind.
  unfold create. rewrite Hfind. cbn [fst snd].
  eexists. split.
  - apply (first_by_username_unique _ _ (next_id db));
      [apply lookup_insert_eq | reflexivity |].
    intros k' u'. destruct (decide (next_id db = k')) as [<- | Hne];
      [reflexivity |].
    rewrite lookup_insert_ne by exact Hne. intros Hk' Hx.
    now destruct (Hnone k' u' Hk').
  - repeat split.
Qed.

End Login.



(** X21. A user created by [POST /user] with a new user name and an
    enabled status can log in at once with the password sent, provided
    [verify_password] accepts a password against its own hash: the
    login issues a token whose subject is the user name. The clock is
    before year 9999 and the expiry setting at most thirty days. *)
Theorem created_user_can_log_in `{Security} (settings : Config.Settings)
    (request : Request) (data : Schemas.UserInSchema)
    (now_created now_updated now : Datetime.datetime) (db : table) :
  (forall k u, db !! k = Some u -> username u <> Schemas.username data) ->
  Schemas.status data = true ->
  verify_password (Schemas.password data)
                  (set_password_hash (Schemas.password data)) = true ->
  Datetime.valid_datetime now -> Datetime.year now <= 9998 ->
  0 <= Config.ACCESS_TOKEN_EXPIRE_MINUTES settings <= 43200 ->
  let login_form :=
    mk_OAuth2PasswordRequestForm (Schemas.username data)
                                 (Schemas.password data) in
  let db' := (create data now_created now_updated db).1.2 in
  exists expiry d,
    ((login settings request login_form now db').1
     = Returns (SuccessResponse d)
     \/ (login settings request login_form now db').1 = ReturnsDict d)
    /\ issued_tokens (login settings request login_form now db').2
       = [mk_JWTPayloadSchema (Schemas.username data) expiry None None None].
Proof.
  intros Hnone Hon Hpw Hvalid Hyear Hmin. cbv zeta.
  destruct (create_then_lookup data now_created now_updated db Hnone)
    as (row & Hfind & Hname & Hhash & Hstatus).
  destruct (DatetimeFacts.expiry_defined now _ Hvalid Hyear Hmin)
    as (access_expires & expiry & Htd & Hadd).
  rewrite (login_verified settings request
             (mk_OAuth2PasswordRequestForm (Schemas.username data)
                                           (Schemas.password data))
             now expiry access_expires _ row Hfind).
  - exists expiry. eexists.
    destruct (contains _ _); cbn [fst snd]; split;
      [right | | left |]; reflexivity.
  - congruence.
  - cbn [form_password]. now rewrite Hhash.
  - exact Htd.
  - exact Hadd.
Qed.

Lemma created_user_can_log_in_witness :
  let login_form := mk_OAuth2PasswordRequestForm "carol" "s3cret" in
  let db' := (create (H := Examples.toy_security) Examples.new_carol
                     Examples.now0 Examples.now0 Examples.db0).1.2 in
  exists expiry d,
    ((login (H := Examples.toy_security) Examples.settings
            Examples.plain_request login_form Examples.now0 db').1
     = Returns (SuccessResponse d)
     \/ (login (H := Examples.toy_security) Examples.settings
               Examples.plain_request login_form Examples.now0 db').1
        = ReturnsDict d)
    /\ issued_tokens
         (login (H := Examples.toy_security) Examples.settings
                Examples.plain_request login_form Examples.now0 db').2
       = [mk_JWTPayloadSchema "carol" expiry None None None].
Proof.
  apply (created_user_can_log_in (H := Examples.toy_security)
           Examples.settings Examples.plain_request Examples.new_carol
           Examples.now0 Examples.now0 Examples.now0 Examples.db0).
  - intros k u Hk.
    assert (Hrows : (k, u) ∈ map_to_list Examples.db0)
      by (now apply elem_of_map_to_list).
    vm_compute in Hrows.
    repeat (apply elem_of_cons in Hrows as [[= -> ->] | Hrows];
            [discriminate |]).
    now apply elem_of_nil in Hrows.
  - reflexivity.
  - reflexivity.
  - repeat split; vm_compute; (reflexivity || discriminate).
  - vm_compute. discriminate.
  - split; vm_compute; discriminate.
Defined.

(** *** The shape of the login response *)





(** *** User names *)

Lemma create_unique_usernames `{Security} (data : Schemas.UserInSchema)
    (now_created now_updated : Datetime.datetime) (db : table) :
  unique_usernames db ->
  unique_usernames (create data now_created now_updated db).1.2.
Proof.
  intros Hdb.
  destruct (create_cases data now_created now_updated db)
    as [-> | (Hfind & ->)]; [exact Hdb |].
  pose proof (proj1 (first_by_username_None _ db) Hfind) as Hnone.
  intros k1 k2 u1 u2.
  destruct (decide (next_id db = k1)) as [<- | Hne1];
    destruct (decide (next_id db = k2)) as [<- | Hne2];
    rewrite ?lookup_insert_eq, ?lookup_insert_ne by assumption.
  - reflexivity.
  - intros [= <-] Hk2 Hx. cbn in Hx. now destruct (Hnone k2 u2 Hk2).
  - intros Hk1 [= <-] Hx. cbn in Hx. now destruct (Hnone k1 u1 Hk1).
  - apply Hdb.
Qed.

Lemma delete_unique_usernames (k : Z) (db : table) :
  unique_usernames db -> unique_usernames (delete k db).1.2.
Proof.
  intros Hdb.
  destruct (delete_cases k db)
    as [(_ & ->) | [(e & _ & _ & ->) | (e & He & Hno & ->)]]; [exact Hdb.. |].
  intros k1 k2 u1 u2 Hk1 Hk2.
  apply lookup_delete_Some in Hk1 as [_ Hk1].
  apply lookup_delete_Some in Hk2 as [_ Hk2].
  now apply Hdb.
Qed.

(** A supplied user name is the one left in the object. *)
Lemma sqlmodel_update_username (data : Schemas.UserInSchema) (u : User) :
  Schemas.FUsername ∈ Schemas.model_fields_set data ->
  username (sqlmodel_update u (Schemas.model_dump_exclude_unset data))
  = Schemas.username data.
Proof.
  intros Hset. unfold Schemas.model_dump_exclude_unset, sqlmodel_update.
  rewrite (filter_cons _ Schemas.FName).
  rewrite (filter_cons_True _ Schemas.FUsername) by exact Hset.
  rewrite (filter_cons _ Schemas.FPassword), (filter_cons _ Schemas.FStatus),
    (filter_cons _ Schemas.FDescription), filter_nil.
  repeat case_decide; reflexivity.
Qed.

(** X22. A sequence of [POST /user] and [DELETE /user/{id}] calls keeps
    user names unique: no two rows share one afterwards if none did
    before. *)
Theorem usernames_stay_unique `{Security} (cs : list call) (db : table) :
  Forall (fun c => is_update c = false) cs ->
  unique_usernames db -> unique_usernames (run_all cs db).
Proof.
  intros Hcs Hdb. induction cs as [| c cs IH] using rev_ind; [exact Hdb |].
  apply Forall_app in Hcs as [Hcs Hc]. rewrite Forall_singleton in Hc.
  rewrite run_all_app. specialize (IH Hcs).
  destruct c; simpl in Hc; [| discriminate |]; cbn [run].
  - now apply create_unique_usernames.
  - now apply delete_unique_usernames.
Qed.

Lemma usernames_stay_unique_witness :
  unique_usernames
    (run_all (H := Examples.toy_security)
       [Create Examples.new_carol Examples.now0 Examples.now0; Delete 3]
       Examples.db0).
Proof.
  apply (usernames_stay_unique (H := Examples.toy_security)
           [Create Examples.new_carol Examples.now0 Examples.now0; Delete 3]
           Examples.db0).
  - repeat constructor.
  - intros k1 k2 u1 u2 Hk1 Hk2.
    assert (Hrows1 : (k1, u1) ∈ map_to_list Examples.db0)
      by (now apply elem_of_map_to_list).
    assert (Hrows2 : (k2, u2) ∈ map_to_list Examples.db0)
      by (now apply elem_of_map_to_list).
    vm_compute in Hrows1, Hrows2.
    repeat (apply elem_of_cons in Hrows1 as [[= -> ->] | Hrows1];
            [repeat (apply elem_of_cons in Hrows2 as [[= -> ->] | Hrows2];
                     [first [reflexivity | discriminate] |]);
             now apply elem_of_nil in Hrows2 |]).
    now apply elem_of_nil in Hrows1.
Defined.

(** X23. [PUT /user/{id}] does not check the user name it is given: a
    user who is no superuser can be given the user name of another
    stored user. The call succeeds and the table then holds two rows
    with that user name. *)
Theorem update_can_duplicate_username (data : Schemas.UserInSchema)
    (k1 k2 : Z) (now : Datetime.datetime) (db : table) (u1 u2 : User) :
  k1 <> k2 ->
  db !! k1 = Some u1 -> is_superuser u1 = false ->
  db !! k2 = Some u2 ->
  Schemas.FUsername ∈ Schemas.model_fields_set data ->
  Schemas.username data = username u2 ->
  let db' := (update data k1 now db).1.2 in
  (exists d, (update data k1 now db).1.1 = Returns (SuccessResponse d))
  /\ (exists u1', db' !! k1 = Some u1' /\ username u1' = username u2)
  /\ db' !! k2 = Some u2
  /\ ~ unique_usernames db'.
Proof.
  intros Hne Hk1 Hsu Hk2 Hset Hname. cbv zeta.
  assert (Hrow : exists u1', (update data k1 now db).1.2 !! k1 = Some u1'
                             /\ username u1' = username u2).
  { rewrite (update_stored data k1 now db u1 Hk1 Hsu), lookup_insert_eq.
    eexists. split; [reflexivity |].
    cbn [username set_updated_time].
    now rewrite sqlmodel_update_username. }
  assert (Hother : (update data k1 now db).1.2 !! k2 = Some u2)
    by (rewrite (update_stored data k1 now db u1 Hk1 Hsu);
        now rewrite lookup_insert_ne).
  split; [| split; [exact Hrow | split; [exact Hother |]]].
  - unfold update. rewrite Hk1, Hsu. now eexists.
  - destruct Hrow as (u1' & Hk1' & Hsame). intros Huniq.
    apply Hne. exact (Huniq k1 k2 u1' u2 Hk1' Hother Hsame).
Qed.

Lemma update_can_duplicate_username_witness :
  let db' := (update Examples.change_password 3 Examples.now0
                     Examples.db0).1.2 in
  (exists d, (update Examples.change_password 3 Examples.now0
                     Examples.db0).1.1 = Returns (SuccessResponse d))
  /\ (exists u1', db' !! 3 = Some u1' /\ username u1' = "alice")
  /\ db' !! 2 = Some Examples.alice
  /\ ~ unique_usernames db'.
Proof.
  apply (update_can_duplicate_username Examples.change_password 3 2
           Examples.now0 Examples.db0 Examples.bob Examples.alice);
    try reflexivity; [discriminate |].
  cbn. rewrite !elem_of_cons. tauto.
Defined.

(** *** The listing *)

#[local] Instance by_id_transitive : Transitive by_id.
Proof. intros r1 r2 r3. unfold by_id. lia. Qed.

#[local] Instance by_id_total : Total by_id.
Proof. intros r1 r2. unfold by_id. lia. Qed.

Lemma strictly_sorted (l : list Z) :
  StronglySorted Z.le l -> NoDup l -> StronglySorted Z.lt l.
Proof.
  induction 1 as [| x l Hl IH Hx]; intros Hdup; constructor.
  - apply IH. now apply NoDup_cons in Hdup as [_ ?].
  - apply NoDup_cons in Hdup as [Hnotin _].
    rewrite Forall_forall in *. intros y Hy.
    specialize (Hx y Hy). assert (x <> y) by (intros ->; contradiction). lia.
Qed.

(** X24. The rows [GET /users] hands to the pagination are the stored
    users whose name is the [name] of the query, or all stored users
    when the query has no name or an empty one; they come in strictly
    ascending order of id, each once. *)
Theorem select_users_complete_and_sorted (query_name : option string)
    (db : table) :
  (forall k u, (k, u) ∈ select_users query_name db
               <-> db !! k = Some u /\ name_matches query_name u = true)
  /\ (forall n, n <> EmptyString -> query_name = Some n ->
        forall u, name_matches query_name u = true <-> name u = n)
  /\ (query_name = None \/ query_name = Some EmptyString ->
        select_users query_name db ≡ₚ map_to_list db)
  /\ StronglySorted Z.lt (select_users query_name db).*1.
Proof.
  unfold select_users. split; [| split; [| split]].
  - intros k u. rewrite merge_sort_Permutation, list_elem_of_filter.
    rewrite elem_of_map_to_list. cbn [snd].
    rewrite Is_true_true. tauto.
  - intros n Hn -> u. unfold name_matches.
    rewrite (MonitoringFacts.truthy_nonempty n Hn).
    apply bool_decide_eq_true.
  - intros Hq. rewrite merge_sort_Permutation.
    assert (Hall : forall u, name_matches query_name u = true)
      by (intros u; unfold name_matches; now destruct Hq as [-> | ->]).
    induction (map_to_list db) as [| r rs IH]; [reflexivity |].
    rewrite filter_cons_True by (apply Is_true_true, Hall).
    now rewrite IH.
  - apply strictly_sorted.
    + apply (StronglySorted_fmap fst by_id Z.le); [now unfold by_id |].
      apply (StronglySorted_merge_sort by_id).
    + rewrite merge_sort_Permutation.
      apply (sublist_NoDup _ (map_to_list db).*1);
        [apply NoDup_fst_map_to_list |].
      apply fmap_sublist, sublist_filter.
Qed.

End UserCallsFacts.

(** ** The startup manager *)
Module StartupFacts.
Import Startup.

Section Manager.

Context {W : Type} `{Discovery W}.

Lemma run_callbacks_snoc (prefix : string) (cbs : list (callback W))
    (cb : callback W) (p : process W) :
  run_callbacks W prefix (cbs ++ [cb]) p
  = let '(logs, p1) := run_callbacks W prefix cbs p in
    let '(r, p2) := cb p1 in
    ((logs ++ callback_error prefix r)%list, p2).
Proof.
  revert p. induction cbs as [| cb0 cbs IH]; intros p.
  - cbn. destruct (cb p) as [r p2]. now rewrite app_nil_r.
  - cbn [app run_callbacks]. destruct (cb0 p) as [r0 p1].
    rewrite IH. destruct (run_callbacks W prefix cbs p1) as [logs p2].
    destruct (cb p2) as [r p3]. now rewrite app_assoc.
Qed.

Lemma call_service_id (m : method W) (self : UnifiedStartupManager W)
    (p : process W) :
  service_id W (call W m self p).1 = service_id W self.
Proof.
  destruct m; cbn [call fst]; try reflexivity.
  unfold register_service.
  destruct (discovery_register _ _ _ _ _) as [[e | []] p']; reflexivity.
Qed.

Lemma call_all_service_id (ms : list (method W))
    (self : UnifiedStartupManager W) (p : process W) :
  service_id W (call_all W ms self p).1 = service_id W self.
Proof.
  unfold call_all. revert self p.
  induction ms as [| m ms IH]; intros self p; [reflexivity |].
  cbn [foldl fst snd].
  destruct (call W m self p) as [self' p'] eqn:Hcall.
  rewrite IH. change self' with (self', p').1. rewrite <- Hcall.
  apply call_service_id.
Qed.

End Manager.

(** X25. A startup callback added last runs last: [initialize_components]
    first does all it did before, then calls the new callback on the
    process the earlier callbacks left, whether or not any of them
    raised; if the new callback raises, the only effect is one more error
    record. *)
Theorem callback_added_last_runs_last {W : Type} `{Discovery W}
    (self : UnifiedStartupManager W) (cb : callback W) (p : process W) :
  initialize_components W (add_startup_callback W self cb) p
  = let '(logs, p1) := initialize_components W self p in
    let '(r, p2) := cb p1 in
    ((logs ++ callback_error "启动回调执行失败: " r)%list, p2).
Proof.
  unfold initialize_components, add_startup_callback.
  cbn [startup_callbacks]. rewrite run_callbacks_snoc.
  destruct (run_callbacks W _ (startup_callbacks W self) p) as [logs p1].
  now destruct (cb p1) as [r p2].
Qed.

(** X26. No method of the manager records a service id, not even a
    successful [register_service]: after any sequence of calls on a new
    manager, [deregister_service] returns [True] without calling the
    registry, logging or touching the process. *)
Theorem deregister_never_reaches_registry {W : Type} `{Discovery W}
    (ms : list (method W)) (p0 : process W) :
  let self := (call_all W ms (new_manager W) p0).1 in
  let p := (call_all W ms (new_manager W) p0).2 in
  deregister_service W self p = (true, [], p).
Proof.
  cbv zeta. unfold deregister_service.
  now rewrite call_all_service_id.
Qed.

End StartupFacts.
